(** * EBA XBRL filing rules (eba_validation.py): shallow embedding and properties

    The script is a set of rule predicates run by a host XBRL engine once an
    instance document has been validated.  Every predicate reads the
    host-materialised instance and appends findings to the job's error log.

    Layout of this development:
    - [Py]: the Python builtins the script relies on (string methods, [int],
      exceptions) and the state-and-exception monad the predicates run in;
    - the host object model (XML infoset items, XBRL contexts, units, facts,
      taxonomy) as records holding exactly the attributes the script reads;
    - the rule predicates, the dispatcher and the two host callbacks,
      transcribed function by function;
    - the properties. *)

From stdpp Require Import gmap gmultiset strings list fin_maps.
From Stdlib Require Import ZArith Ascii String Permutation.

#[local] Set Warnings "-register-all".
#[local] Open Scope string_scope.
#[local] Open Scope list_scope.

(* ===================================================================== *)
(** ** Python builtins *)
(* ===================================================================== *)

(** Python strings are modelled by [string], one [ascii] per character
    (the rule codes, parameter names and URLs the script compares are
    ASCII); integers by [Z]; a dict by a [gmap]; an object reference that
    may be [None] by an [option]. *)

Module Py.

(** Exceptions the script can raise (none is ever caught by the script). *)
Inductive Exception :=
| StopIteration
| NameError (name : string)
| ValueError
| TypeError
| AttributeError
| KeyError.

Inductive Outcome (A : Type) :=
| Normal (a : A)
| Raised (e : Exception).
Arguments Normal {A} a.
Arguments Raised {A} e.

(** A computation over a mutable store [S]: it always leaves a store
    behind (what was written before an exception stays written) and
    either returns or raises. *)
Definition M (S A : Type) : Type := S -> S * Outcome A.

Definition ret {S A} (a : A) : M S A := fun s => (s, Normal a).
Definition raise {S A} (e : Exception) : M S A := fun s => (s, Raised e).
Definition bind {S A B} (m : M S A) (k : A -> M S B) : M S B :=
  fun s =>
    match m s with
    | (s', Normal a) => k a s'
    | (s', Raised e) => (s', Raised e)
    end.

(** [for x in xs: body], the loop carrying its local variables [acc]. *)
Fixpoint for_each {S A L} (xs : list A) (body : A -> L -> M S L) (acc : L) : M S L :=
  match xs with
  | [] => ret acc
  | x :: xs' => bind (body x acc) (for_each xs' body)
  end.

(** [for x in xs: body] for a body with no local variable to carry. *)
Definition for_ {S A} (xs : list A) (body : A -> M S ()) : M S () :=
  for_each xs (fun x _ => body x) ().

(** [if b: body] with no [else]. *)
Definition when {S} (b : bool) (body : M S ()) : M S () :=
  if b then body else ret ().

(** Truth value of an object reference: [None] is false. *)
Definition truthy {A} (o : option A) : bool :=
  match o with Some _ => true | None => false end.

(** [next(it)] on a fresh iterator over [xs]. *)
Definition next {S A} (xs : list A) : M S A :=
  match xs with
  | [] => raise StopIteration
  | x :: _ => ret x
  end.

(** [next(it, None)]. *)
Definition next_default {A} (xs : list A) : option A := head xs.

(** [str.upper], on the ASCII letters. *)
Definition upper_ascii (c : ascii) : ascii :=
  let n := nat_of_ascii c in
  if (97 <=? n)%nat && (n <=? 122)%nat then ascii_of_nat (n - 32) else c.

Fixpoint upper (s : string) : string :=
  match s with
  | EmptyString => EmptyString
  | String c s' => String (upper_ascii c) (upper s')
  end.

(** [s.startswith(p)]. *)
Definition startswith (s p : string) : bool := String.prefix p s.

(** [c in s] for a one-character string [c]. *)
Fixpoint contains (c : ascii) (s : string) : bool :=
  match s with
  | EmptyString => false
  | String d s' => if decide (c = d) then true else contains c s'
  end.

(** [s.split(c)[-1]]: what follows the last occurrence of [c], the whole
    string when there is none. *)
Fixpoint split_last (c : ascii) (s : string) : string :=
  match s with
  | EmptyString => EmptyString
  | String d s' =>
      if contains c s' then split_last c s'
      else if decide (c = d) then s' else s
  end.

(** Truth value of a string: non-empty. *)
Definition truthy_str (s : string) : bool :=
  match s with EmptyString => false | _ => true end.

(** [len(s)]. *)
Definition len (s : string) : Z := Z.of_nat (String.length s).

(** *** [int(s)]
    Surrounding whitespace is dropped, one sign is allowed, then decimal
    digits, where single underscores may separate digits.  Anything else
    is a [ValueError].  (Characters outside ASCII are not digits here.) *)
Definition is_space (c : ascii) : bool :=
  let n := nat_of_ascii c in
  ((9 <=? n)%nat && (n <=? 13)%nat) || ((28 <=? n)%nat && (n <=? 32)%nat).

Definition digit_of (c : ascii) : option Z :=
  let n := nat_of_ascii c in
  if (48 <=? n)%nat && (n <=? 57)%nat then Some (Z.of_nat (n - 48)) else None.

Fixpoint lstrip (s : list ascii) : list ascii :=
  match s with
  | c :: s' => if is_space c then lstrip s' else s
  | [] => []
  end.

Definition strip (s : list ascii) : list ascii :=
  rev (lstrip (rev (lstrip s))).

Fixpoint digits (acc : Z) (after_digit : bool) (s : list ascii) : option Z :=
  match s with
  | [] => if after_digit then Some acc else None
  | c :: s' =>
      match digit_of c with
      | Some d => digits (10 * acc + d) true s'
      | None =>
          if decide (c = "_"%char) then
            if after_digit then
              match s' with [] => None | _ => digits acc false s' end
            else None
          else None
      end
  end.

Definition int_of_str (s : string) : option Z :=
  match strip (list_ascii_of_string s) with
  | c :: s' =>
      if decide (c = "-"%char) then Z.opp <$> digits 0 false s'
      else if decide (c = "+"%char) then digits 0 false s'
      else digits 0 false (c :: s')
  | [] => None
  end.

(** [int(d.get(key, default))] for a dict of strings and an [int]
    default: the default goes through [int] unchanged. *)
Definition int_get {S} (d : gmap string string) (key : string) (default : Z) : M S Z :=
  match d !! key with
  | None => ret default
  | Some v =>
      match int_of_str v with
      | Some n => ret n
      | None => raise ValueError
      end
  end.

(** [d.setdefault(k, v)]: the dict afterwards and the value returned. *)
Definition setdefault `{Countable K} {V} (d : gmap K V) (k : K) (v : V) : gmap K V * V :=
  match d !! k with
  | Some w => (d, w)
  | None => (<[k:=v]> d, v)
  end.

End Py.

Notation "x <- c1 ;; c2" := (Py.bind c1 (fun x => c2))
  (at level 100, c1 at next level, right associativity).
Notation "c1 ;;; c2" := (Py.bind c1 (fun _ => c2))
  (at level 100, right associativity).

(* ===================================================================== *)
(** ** Host object model: XML information items *)
(* ===================================================================== *)

(** [xml.QName(local_name, namespace_name)]; a plain string passed where a
    QName is expected is a name in no namespace. *)
Record QName := mkQName { local_name : string; namespace_name : string }.

#[global] Instance QName_eq_dec : EqDecision QName.
Proof. solve_decision. Defined.

#[global] Instance QName_countable : Countable QName.
Proof.
  apply (inj_countable' (fun q => (local_name q, namespace_name q))
                        (fun p => mkQName p.1 p.2)).
  by intros [].
Defined.

Definition unqualified (name : string) : QName := mkQName name "".

(** The schema-typed value of an element or attribute, as far as the
    script's [isinstance] tests tell values apart. *)
Inductive SchemaValue :=
| XsdQName (prefix : option string) (name : QName)
| XsdString (value : string)
| XsdOther.

#[global] Instance SchemaValue_eq_dec : EqDecision SchemaValue.
Proof. solve_decision. Defined.

(** Attribute information items; namespace declarations are attribute
    items too, with [attr_local_name] the declared prefix (or [xmlns]). *)
Record Attribute := mkAttribute {
  attr_prefix : option string;
  attr_local_name : string;
  attr_namespace_name : string;
  attr_normalized_value : string;
  attr_schema_actual_value : SchemaValue
}.

#[global] Instance Attribute_eq_dec : EqDecision Attribute.
Proof. solve_decision. Defined.

Definition attr_qname (a : Attribute) : QName :=
  mkQName (attr_local_name a) (attr_namespace_name a).

Inductive Element := mkElement {
  elem_prefix : option string;
  elem_name : QName;
  attributes : list Attribute;
  namespace_attributes : list Attribute;
  schema_actual_value : SchemaValue;
  element_children : list Element
}.

(** [elem.find_attribute(name)]: the attribute of that name, or [None]. *)
Definition find_attribute (e : Element) (name : QName) : option Attribute :=
  List.find (fun a => bool_decide (attr_qname a = name)) (attributes e).

Record Document := mkDocument {
  character_encoding_scheme : string;
  standalone : option bool
}.

(* ===================================================================== *)
(** ** Host object model: XBRL instance and taxonomy *)
(* ===================================================================== *)

Record Identifier := mkIdentifier { scheme : string; identifier_value : string }.

#[global] Instance Identifier_eq_dec : EqDecision Identifier.
Proof. solve_decision. Defined.

#[global] Instance Identifier_countable : Countable Identifier.
Proof.
  apply (inj_countable' (fun i => (scheme i, identifier_value i))
                        (fun p => mkIdentifier p.1 p.2)).
  by intros [].
Defined.

(** A date or date-time value; [tzinfo] is [None] when no timezone was given. *)
Record DateTime := mkDateTime { dt_value : string; tzinfo : option string }.

#[global] Instance DateTime_eq_dec : EqDecision DateTime.
Proof. solve_decision. Defined.

#[global] Instance DateTime_countable : Countable DateTime.
Proof.
  apply (inj_countable' (fun d => (dt_value d, tzinfo d))
                        (fun p => mkDateTime p.1 p.2)).
  by intros [].
Defined.

(** [period.instant]: its value and the name of the schema type its
    element was validated against ([date] or [dateTime]). *)
Record Instant := mkInstant { instant_value : DateTime; member_type_name : string }.

Inductive Period :=
| PeriodInstant (i : Instant)
| PeriodDuration (start_date end_date : DateTime)
| PeriodForever.

Definition period_instant (p : Period) : option Instant :=
  match p with PeriodInstant i => Some i | _ => None end.

Definition is_instant (p : Period) : bool :=
  match p with PeriodInstant _ => true | _ => false end.

Definition is_forever (p : Period) : bool :=
  match p with PeriodForever => true | _ => false end.

(** The period aspect value: the period compared by value. *)
Inductive PeriodAspectValue :=
| InstantValue (d : DateTime)
| DurationValue (s e : DateTime)
| ForeverValue.

#[global] Instance PeriodAspectValue_eq_dec : EqDecision PeriodAspectValue.
Proof. solve_decision. Defined.

#[global] Instance PeriodAspectValue_countable : Countable PeriodAspectValue.
Proof.
  apply (inj_countable'
    (fun v => match v with
              | InstantValue d => inl d
              | DurationValue s e => inr (Some (s, e))
              | ForeverValue => inr None
              end)
    (fun x => match x with
              | inl d => InstantValue d
              | inr (Some (s, e)) => DurationValue s e
              | inr None => ForeverValue
              end)).
  by intros [].
Defined.

(** A dimension's value in a context: a member of an explicit dimension,
    or the content of a typed one. *)
Inductive DimensionValue :=
| ExplicitMember (member : QName)
| TypedMember (content : string).

#[global] Instance DimensionValue_eq_dec : EqDecision DimensionValue.
Proof. solve_decision. Defined.

#[global] Instance DimensionValue_countable : Countable DimensionValue.
Proof.
  apply (inj_countable'
    (fun v => match v with ExplicitMember q => inl q | TypedMember s => inr s end)
    (fun x => match x with inl q => ExplicitMember q | inr s => TypedMember s end)).
  by intros [].
Defined.

(** Content of [xbrli:segment] or [xbrli:scenario]: dimension members and
    whatever other child elements there are. *)
Record OpenContent := mkOpenContent {
  xdt_members : list (QName * DimensionValue);
  non_xdt_child_elements : list QName
}.

Record Entity := mkEntity { identifier : Identifier; segment : option OpenContent }.

Record Context := mkContext {
  context_id : string;
  context_element : Element;
  entity : Entity;
  period : Period;
  scenario : option OpenContent
}.

Definition entity_identifier_aspect_value (c : Context) : Identifier :=
  identifier (entity c).

Definition period_aspect_value (c : Context) : PeriodAspectValue :=
  match period c with
  | PeriodInstant i => InstantValue (instant_value i)
  | PeriodDuration s e => DurationValue s e
  | PeriodForever => ForeverValue
  end.

Definition open_members (o : option OpenContent) : list (QName * DimensionValue) :=
  match o with Some c => xdt_members c | None => [] end.

Definition open_rest (o : option OpenContent) : list QName :=
  match o with Some c => non_xdt_child_elements c | None => [] end.

(** The dimensional aspect values of a context, by dimension. *)
Definition dimension_aspect_values (c : Context) : gmap QName DimensionValue :=
  list_to_map (open_members (segment (entity c)) ++ open_members (scenario c)).

(** [xbrl.ConstraintSet(context)]: the aspect values of the context as an
    unordered mapping, compared by value. *)
Definition ContextConstraintSet : Type :=
  Identifier * PeriodAspectValue * gmap QName DimensionValue * list QName * list QName.

Definition ConstraintSet_of_context (c : Context) : ContextConstraintSet :=
  (entity_identifier_aspect_value c, period_aspect_value c,
   dimension_aspect_values c,
   open_rest (segment (entity c)), open_rest (scenario c)).

Record Unit := mkUnit {
  unit_id : string;
  unit_element : Element;
  numerators : list QName;
  denominators : list QName
}.

(** [xbrl.ConstraintSet(unit)]: the unit aspect value, measures compared
    as unordered collections. *)
Definition UnitConstraintSet : Type := gmultiset QName * gmultiset QName.

Definition ConstraintSet_of_unit (u : Unit) : UnitConstraintSet :=
  (list_to_set_disj (numerators u), list_to_set_disj (denominators u)).

Definition iso4217 : string := "http://www.xbrl.org/2003/iso4217".
Definition xbrli : string := "http://www.xbrl.org/2003/instance".

(** [unit.aspect_value.is_monetary()], [.is_pure()], [.iso4217_currency]. *)
Definition unit_is_monetary (u : Unit) : bool :=
  match numerators u, denominators u with
  | [q], [] => bool_decide (namespace_name q = iso4217)
  | _, _ => false
  end.

Definition unit_is_pure (u : Unit) : bool :=
  match numerators u, denominators u with
  | [q], [] => bool_decide (q = mkQName "pure" xbrli)
  | _, _ => false
  end.

Definition iso4217_currency (u : Unit) : option string :=
  match numerators u, denominators u with
  | [q], [] => if bool_decide (namespace_name q = iso4217) then Some (local_name q) else None
  | _, _ => None
  end.

(** A taxonomy concept.  [is_item] is [isinstance(concept, xbrl.taxonomy.Item)]. *)
Record Concept := mkConcept {
  concept_name : string;
  concept_target_namespace : string;
  is_item : bool;
  is_monetary : bool;
  is_numeric : bool
}.

#[global] Instance Concept_eq_dec : EqDecision Concept.
Proof. solve_decision. Defined.

Definition concept_qname (c : Concept) : QName :=
  mkQName (concept_name c) (concept_target_namespace c).

(** The [precision] of a fact, when the attribute is there. *)
Inductive Precision :=
| PrecisionINF
| PrecisionDigits (n : N).

Definition truthy_precision (p : option Precision) : bool :=
  match p with
  | None => false
  | Some PrecisionINF => true
  | Some (PrecisionDigits n) => negb (n =? 0)%N
  end.

(** An item of the instance.  [fact_oid] is the identity of the object
    (every fact of a document is one element of it): the script's [!=]
    between facts tells objects apart, not contents. *)
Record Fact := mkFact {
  fact_oid : nat;
  fact_id : option string;
  fact_element : Element;
  concept : Concept;
  fact_context : Context;
  fact_unit : option Unit;
  xml_lang : option string;
  precision : option Precision;
  xsi_nil : bool;
  normalized_value : string
}.

(** [f == g] on facts, on contexts, on units: object identity.  A context
    and a unit are identified in their instance by their [@id] (of type
    xs:ID); see the comment in [eba_2_16] of the script. *)
Definition fact_eqb (f g : Fact) : bool := bool_decide (fact_oid f = fact_oid g).

Definition unit_ref (u : option Unit) : option string := unit_id <$> u.

Record Label := mkLabel { label_role : string; label_text : string }.
Record Table := mkTable { table_labels : list Label }.

(** [table.labels(label_role=r)]. *)
Definition labels (t : Table) (r : string) : list Label :=
  filter (fun l => label_role l = r) (table_labels t).

Record TaxonomySchema := mkTaxonomySchema {
  schema_element : Element;
  target_namespace : string
}.

Record DTS := mkDTS {
  tables : list Table;
  taxonomy_schemas : list TaxonomySchema;
  dts_concepts : list Concept
}.

(** [dts.resolve_concept(qname)]: the concept, or [None]. *)
Definition resolve_concept (d : DTS) (q : QName) : option Concept :=
  List.find (fun c => bool_decide (concept_qname c = q)) (dts_concepts d).

(** [link:schemaRef] and [link:linkbaseRef]. *)
Record SimpleLink := mkSimpleLink { xlink_href : string; link_element : Element }.

Record Locator := mkLocator { loc_xlink_href : string }.
Record Footnote := mkFootnote { footnote_element : Element }.
Record FootnoteLink := mkFootnoteLink {
  resources : list Footnote;
  locators : list Locator
}.

Record Instance := mkInstance {
  uri : string;
  document : Document;
  document_element : Element;
  dts : DTS;
  facts : list Fact;
  child_items : list Fact;
  schema_refs : list SimpleLink;
  linkbase_refs : list SimpleLink;
  footnote_links : list FootnoteLink;
  contexts : list Context;
  units : list Unit
}.

(** *** Queries on the fact set *)

(** [facts.filter(concept)] and [facts.filter(qname)]. *)
Definition filter_concept (fs : list Fact) (c : Concept) : list Fact :=
  filter (fun f => concept f = c) fs.

Definition filter_qname (fs : list Fact) (q : QName) : list Fact :=
  filter (fun f => concept_qname (concept f) = q) fs.

(** [facts.filter(context)], [facts.filter(unit)]: the facts whose aspect
    values are those of the given context or unit, compared by value. *)
Definition filter_context (fs : list Fact) (c : Context) : list Fact :=
  filter (fun f => ConstraintSet_of_context (fact_context f) = ConstraintSet_of_context c) fs.

Definition filter_unit (fs : list Fact) (u : Unit) : list Fact :=
  filter (fun f => ConstraintSet_of_unit <$> fact_unit f = Some (ConstraintSet_of_unit u)) fs.

(** [facts.filter(constraints)] for a constraint set binding one
    dimension to one member. *)
Definition filter_dimension (fs : list Fact) (dim member : Concept) : list Fact :=
  filter (fun f => dimension_aspect_values (fact_context f) !! concept_qname dim
                   = Some (ExplicitMember (concept_qname member))) fs.

(** [fs - gs] on fact sets. *)
Definition fact_difference (fs gs : list Fact) : list Fact :=
  filter (fun f => forallb (fun g => negb (fact_eqb f g)) gs = true) fs.

(** [facts.concept_aspect_values()]: every concept that has a fact, once
    (here in the order of their first fact). *)
Fixpoint concept_aspect_values_from (seen : list Concept) (fs : list Fact) : list Concept :=
  match fs with
  | [] => []
  | f :: fs' =>
      if decide (concept f ∈ seen) then concept_aspect_values_from seen fs'
      else concept f :: concept_aspect_values_from (concept f :: seen) fs'
  end.

Definition concept_aspect_values (fs : list Fact) : list Concept :=
  concept_aspect_values_from [] fs.

(* ===================================================================== *)
(** ** Findings and the error log *)
(* ===================================================================== *)

Inductive ErrorSeverity := INFO | WARNING | OTHER.

(** What a finding points at: its [location] and the values of the named
    slots of its message. *)
Inductive Obj :=
| ObjNone
| ObjUri (u : string)
| ObjString (s : string)
| ObjAttribute (a : Attribute)
| ObjElement (e : Element)
| ObjContext (c : Context)
| ObjUnit (u : Unit)
| ObjFact (f : Fact)
| ObjPeriod (p : Period)
| ObjForever (c : Context)
| ObjIdentifier (i : Identifier)
| ObjOpenContent (o : OpenContent)
| ObjLink (l : SimpleLink)
| ObjFootnote (f : Footnote).

Definition obj_of_attribute (a : option Attribute) : Obj :=
  match a with Some x => ObjAttribute x | None => ObjNone end.

Definition obj_of_open (o : option OpenContent) : Obj :=
  match o with Some x => ObjOpenContent x | None => ObjNone end.

(** [xbrl.Error.create(message, severity=, location=, children=, **slots)].
    [severity] is [None] where the script leaves it to the host's default. *)
Inductive Error := mkError {
  message : string;
  severity : option ErrorSeverity;
  location : option Obj;
  slots : list (string * Obj);
  children : list Error
}.

Definition detail (msg : string) (s : ErrorSeverity) : Error :=
  mkError msg (Some s) None [] [].

(** The job's error log: [report] appends, [clear] empties, [errors] reads. *)
Definition ErrorLog : Type := list Error.

Definition Rule (A : Type) : Type := Py.M ErrorLog A.

Definition report (e : Error) : Rule () :=
  fun log => (log ++ [e], Py.Normal ()).

Definition clear : Rule () :=
  fun _ => ([], Py.Normal ()).

Definition errors : Rule (list Error) :=
  fun log => (log, Py.Normal log).

(** Option values of the job ([job.options]) and its other inputs. *)
Inductive OptionValue :=
| OptBool (b : bool)
| OptInt (n : Z)
| OptStr (s : string).

(** [v == True]: Python's [True] equals [1]. *)
Definition eq_True (v : option OptionValue) : bool :=
  match v with
  | Some (OptBool b) => b
  | Some (OptInt n) => (n =? 1)%Z
  | _ => false
  end.

Record Job := mkJob {
  script_params : gmap string string;
  options : gmap string OptionValue
}.

(* ===================================================================== *)
(** ** The document walker *)
(* ===================================================================== *)

(** [dfs] is a generator.  Its state between two resumptions is the work
    stack, a Python list whose top is its last element. *)
Definition pop {A} (stack : list A) : option (A * list A) :=
  match last stack with
  | Some x => Some (x, removelast stack)
  | None => None
  end.

(** The generator object just created by [dfs(elem)]. *)
Definition dfs_start (elem : Element) : list Element := [elem].

(** One resumption: [None] when the stack is empty (the generator is
    exhausted), otherwise the element yielded and the stack left behind. *)
Definition dfs_resume (stack : list Element) : option (Element * list Element) :=
  match pop stack with
  | Some (elem, stack') => Some (elem, stack' ++ element_children elem)
  | None => None
  end.

(** The elements yielded by at most [fuel] resumptions, and the stack
    after them. *)
Fixpoint dfs_drain (fuel : nat) (stack : list Element) : list Element * list Element :=
  match fuel with
  | O => ([], stack)
  | S fuel' =>
      match dfs_resume stack with
      | Some (elem, stack') =>
          let '(out, rest) := dfs_drain fuel' stack' in (elem :: out, rest)
      | None => ([], stack)
      end
  end.

Fixpoint elem_size (e : Element) : nat :=
  S (list_sum (map elem_size (element_children e))).

(** Everything the generator yields; [dfs_exhausted] shows that
    [elem_size elem] resumptions exhaust it. *)
Definition dfs (elem : Element) : list Element :=
  (dfs_drain (elem_size elem) (dfs_start elem)).1.

(** Reference traversals of a subtree: the elements it holds, and the
    pre-order walk that takes the children of a node from the last to the
    first. *)
Fixpoint subtree (e : Element) : list Element :=
  e :: flat_map subtree (element_children e).

Fixpoint preorder_last_first (e : Element) : list Element :=
  e :: List.concat (rev (map preorder_last_first (element_children e))).

(* ===================================================================== *)
(** ** Filing syntax rules *)
(* ===================================================================== *)

Definition xsi : string := "http://www.w3.org/2001/XMLSchema-instance".
Definition filing_indicators_ns : string :=
  "http://www.eurofiling.info/xbrl/ext/filing-indicators".
Definition filing_indicator_code_role : string :=
  "http://www.eurofiling.info/xbrl/role/filing-indicator-code".

(** A double quote, for the messages that contain one. *)
Definition dquote : string := String "034"%char EmptyString.

(** EBA 1.4 - Character encoding of XBRL instance documents *)
Definition eba_1_4 (instance : Instance) : Rule () :=
  Py.when (bool_decide (Py.upper (character_encoding_scheme (document instance)) ≠ "UTF-8"))
    (let detail_error := detail "XBRL instance documents SHOULD NOT use the XML standalone declaration." INFO in
     let main_error := mkError "[EBA.1.4] Character encoding of XBRL instance documents."
                         None (Some (ObjUri (uri instance))) [] [detail_error] in
     report main_error).

(** EBA 1.6 - Filing indicators *)
Definition available_indicators (instance : Instance) : gset string :=
  list_to_set (flat_map (fun table => label_text <$> labels table filing_indicator_code_role)
                        (tables (dts instance))).

Definition eba_1_6 (instance : Instance) : Rule () :=
  let available := available_indicators instance in
  let indicator_facts := filter_qname (facts instance) (mkQName "filingIndicator" filing_indicators_ns) in
  Py.for_each indicator_facts (fun indicator (used_indictors : gmap string Fact) =>
    Py.when (Py.truthy (segment (entity (fact_context indicator)))
             || Py.truthy (scenario (fact_context indicator)))
      (let detail_error := detail "The context referenced by the filing indicator elements MUST NOT contain xbrli:segment or xbrli:scenario elements." INFO in
       let main_error := mkError "[EBA.1.6] Filing indicators."
                           None (Some (ObjFact indicator)) [] [detail_error] in
       report main_error) ;;;
    let '(used_indictors', first) :=
      Py.setdefault used_indictors (normalized_value indicator) indicator in
    Py.when (negb (fact_eqb first indicator))
      (let detail_error := detail ("Reported XBRL instances MUST contain only one filing indicator element for a given reporting unit(" +:+ dquote +:+ "template" +:+ dquote +:+ ").") INFO in
       let main_error := mkError "[EBA.1.6.1] Multiple filing indicators for the same reporting unit."
                           None (Some (ObjFact indicator)) [] [detail_error] in
       report main_error) ;;;
    Py.when (bool_decide (normalized_value indicator ∉ available))
      (let detail_error := detail "The values of filing indicators MUST only be those given by the label resources with the role http://www.eurofiling.info/xbrl/role/filing-indicator-code applied to the relevant tables in the XBRL taxonomy4 for that reporting module (entry point). Filing indicator values must be formatted correctly (for example including any underscore characters)." INFO in
       let main_error := mkError "[EBA.1.6.3] Filing indicator codes."
                           None (Some (ObjFact indicator)) [] [detail_error] in
       report main_error) ;;;
    Py.ret used_indictors') ∅ ;;;
  Py.ret ().

(** EBA 1.13 - Standalone Document Declaration *)
Definition eba_1_13 (instance : Instance) : Rule () :=
  Py.when (Py.truthy (standalone (document instance)))
    (let detail_error := detail ("XBRL instance documents MUST use " +:+ dquote +:+ "UTF-8" +:+ dquote +:+ " encoding. [GFM11, p. 11]") INFO in
     let main_error := mkError "[EBA.1.13] Standalone Document Declaration."
                         (Some WARNING) (Some (ObjUri (uri instance))) [] [detail_error] in
     report main_error).

(** EBA 1.14 - @xsd:schemaLocation and @xsd:noNamespaceSchemaLocation *)
Definition eba_1_14 (instance : Instance) : Rule () :=
  let attr := find_attribute (document_element instance) (mkQName "schemaLocation" xsi) in
  let attr := if Py.truthy attr then attr
              else find_attribute (document_element instance) (mkQName "noNamespaceSchemaLocation" xsi) in
  match attr with
  | Some a =>
      let detail_error := detail "@xsd:schemaLocation or @xsd:noNamespaceSchemaLocation MUST NOT be used." INFO in
      let main_error := mkError "[EBA.1.14] @xsd:schemaLocation and @xsd:noNamespaceSchemaLocation."
                          None (Some (ObjAttribute a)) [] [detail_error] in
      report main_error
  | None => Py.ret ()
  end.

(** EBA 1.15 - XInclude *)
Definition eba_1_15 (instance : Instance) (options : gmap string OptionValue) : Rule () :=
  Py.when (eq_True (options !! "xinclude"))
    (let detail_error1 := detail "XBRL instance documents MUST NOT use the XInclude specification (xi:include element)." INFO in
     let detail_error2 := detail "Hint: Disable XInclude support with the --xinclude=false option." OTHER in
     let main_error := mkError "[EBA.1.15] XInclude."
                         None (Some (ObjUri (uri instance))) [] [detail_error1; detail_error2] in
     report main_error).

(* ===================================================================== *)
(** ** Instance syntax rules *)
(* ===================================================================== *)

(** EBA 2.1 - The existence of xml:base is not permitted *)
Definition eba_2_1 (instance : Instance) : Rule () :=
  Py.for_ (dfs (document_element instance)) (fun elem =>
    match find_attribute elem (mkQName "base" "http://www.w3.org/XML/1998/namespace") with
    | Some xml_base_attr =>
        let detail_error := detail "The attribute @xml:base MUST NOT appear in any instance document. [EFM13, p. 6-7]." INFO in
        let main_error := mkError "[EBA.2.1] The existence of {xml_base} is not permitted."
                            None None [("xml_base", ObjAttribute xml_base_attr)] [detail_error] in
        report main_error
    | None => Py.ret ()
    end).

(** EBA 2.2 - The absolute URL has to be stated for the link:schemaRef element.
    In the reporting branch the script evaluates [schema_refs[0]], a name
    bound nowhere (neither in the function nor in the module). *)
Definition eba_2_2 (instance : Instance) : Rule () :=
  first <- Py.next (schema_refs instance) ;;
  if negb (Py.startswith (xlink_href first) "http://") then
    let detail_error := detail "The link:schemaRef element in submitted instances MUST resolve to the full published entry point URL (absolute URL)." INFO in
    schemaRef <- Py.raise (A := Obj) (Py.NameError "schema_refs") ;;
    let main_error := mkError "[EBA.2.2] The absolute URL has to be stated for the {schemaRef} element."
                        None None [("schemaRef", schemaRef)] [detail_error] in
    report main_error
  else Py.ret ().

(** EBA 2.3 - Only one link:schemaRef element is allowed per instance document *)
Definition eba_2_3 (instance : Instance) : Rule () :=
  Py.for_ (drop 1 (schema_refs instance)) (fun schema_ref =>
    let detail_error := detail "Any reported XBRL instance document MUST contain only one xbrli:xbrl/link:schemaRef element." INFO in
    let main_error := mkError "[EBA.2.3] Only one {schemaRef} element is allowed per instance document."
                        None None [("schemaRef", ObjLink schema_ref)] [detail_error] in
    report main_error).

(** EBA 2.4 - The use of link:linkbaseRef elements is not permitted *)
Definition eba_2_4 (instance : Instance) : Rule () :=
  Py.for_ (linkbase_refs instance) (fun linkbase_ref =>
    let detail_error := detail "Reference from an instance to the taxonomy MUST only be by means of the link:schemaRef element. The element link:linkbaseRef MUST NOT be used in any instance document." INFO in
    let main_error := mkError "[EBA.2.4] The use of {linkbaseRef} element is not permitted."
                        None None [("linkbaseRef", ObjLink linkbase_ref)] [detail_error] in
    report main_error).

(** EBA 2.25 - XBRL footnotes are ignored by EBA *)
Definition eba_2_25 (instance : Instance) : Rule () :=
  Py.for_ (footnote_links instance) (fun link =>
    Py.for_ (resources link) (fun footnote =>
      let detail_error := detail "Relevant business data MUST only be contained in contexts, units, schemaRef and facts. A footnote MUST not have any impact on the regulatory content of a report." INFO in
      let main_error := mkError "[EBA.2.25] XBRL {footnote} are ignored by EBA."
                          (Some WARNING) None [("footnote", ObjFootnote footnote)] [detail_error] in
      report main_error)).

(* ===================================================================== *)
(** ** Context related rules *)
(* ===================================================================== *)

(** EBA 2.6 - The length of the @id attribute should be limited to the necessary characters *)
Definition eba_2_6 (instance : Instance) (params : gmap string string) : Rule () :=
  max_id_length <- Py.int_get params "max-id-length" 50 ;;
  Py.for_ (contexts instance) (fun context =>
    Py.when (bool_decide (Py.len (context_id context) > max_id_length)%Z)
      (let id_attr := find_attribute (context_element context) (unqualified "id") in
       let detail_error := detail "Semantics SHOULD NOT be expressed in the xbrli:context/@id attribute. The values of each @id attribute SHOULD be as short as possible." INFO in
       let main_error := mkError "[EBA.2.6] The length of the {id} attribute should be limited to the necessary characters."
                           (Some WARNING) None [("id", obj_of_attribute id_attr)] [detail_error] in
       report main_error)).

(** EBA 2.7 - No unused or duplicated xbrli:context nodes.
    [aspects_map] maps a constraint set to the list [duplicates] that the
    script shares with the dict: appending to it updates the dict entry. *)
Definition eba_2_7_body (instance : Instance) (context : Context)
    (aspects_map : gmap ContextConstraintSet (list Context))
    : Rule (gmap ContextConstraintSet (list Context)) :=
  (* Check for unused contexts *)
  Py.when (bool_decide (filter_context (facts instance) context = []))
    (let detail_error := detail "Unused xbrli:context nodes SHOULD NOT be present in the instance. [FRIS04]" INFO in
     let main_error := mkError "[EBA.2.7] No unused or duplicated {context} nodes."
                         (Some WARNING) None [("context", ObjElement (context_element context))] [detail_error] in
     report main_error) ;;;
  (* Check for duplicated contexts *)
  let '(aspects_map', duplicates) :=
    Py.setdefault aspects_map (ConstraintSet_of_context context) [] in
  match duplicates with
  | first :: _ =>
      let detail_error1 := detail "An instance document SHOULD NOT contain duplicated context, unless required for technical reasons, e.g. to support XBRL streaming." INFO in
      let detail_error2 := mkError "Context {context} is a duplicate of context {context2}"
                             (Some OTHER) None
                             [("context", ObjContext context); ("context2", ObjContext first)] [] in
      let main_error := mkError "[EBA.2.7] No unused or duplicated {context} nodes."
                          (Some WARNING) None [("context", ObjElement (context_element context))]
                          [detail_error1; detail_error2] in
      report main_error ;;;
      Py.ret aspects_map'
  | [] =>
      Py.ret (<[ConstraintSet_of_context context := duplicates ++ [context]]> aspects_map')
  end.

Definition eba_2_7 (instance : Instance) : Rule () :=
  Py.for_each (contexts instance) (eba_2_7_body instance) ∅ ;;;
  Py.ret ().

(** EBA 2.9 - Single reporter per instance *)
Definition eba_2_9 (instance : Instance) : Rule () :=
  first <- Py.next (contexts instance) ;;
  let single_identifier := entity_identifier_aspect_value first in
  Py.for_ (contexts instance) (fun context =>
    Py.when (bool_decide (entity_identifier_aspect_value context ≠ single_identifier))
      (let detail_error := detail "All xbrli:identifier content and @scheme attributes in an instance MUST be identical. [EFM13, p. 6-8]" INFO in
       let main_error := mkError "[EBA.2.9] Single reporter per instance."
                           None (Some (ObjIdentifier (identifier (entity context)))) [] [detail_error] in
       report main_error)).

(** EBA 2.10 - The xbrli:period date elements reported must be valid *)
Definition eba_2_10 (instance : Instance) : Rule () :=
  Py.for_ (contexts instance) (fun context =>
    let period := period context in
    Py.when (match period_instant period with
             | Some instant =>
                 Py.truthy (tzinfo (instant_value instant))
                 || bool_decide (member_type_name instant ≠ "date")
             | None => false
             end)
      (let detail_error := detail "All xbrli:period date elements MUST be valid against the xs:date data type, and reported without a timezone. [GFM11, p. 16]" INFO in
       let main_error := mkError "[EBA.2.10] The {period} date elements reported must be valid."
                           None None [("period", ObjPeriod period)] [detail_error] in
       report main_error)).

(** EBA 2.11 - The existence of xbrli:forever is not permitted *)
Definition eba_2_11 (instance : Instance) : Rule () :=
  Py.for_ (contexts instance) (fun context =>
    Py.when (is_forever (period context))
      (let detail_error := detail "The element ‘xbrli:forever’ MUST NOT be used. [GFM11, p. 19]" INFO in
       let main_error := mkError "[EBA.2.11] The existence of {forever} is not permitted."
                           None None [("forever", ObjForever context)] [detail_error] in
       report main_error)).

(** EBA 2.13 - XBRL period consistency *)
Definition eba_2_13 (instance : Instance) : Rule () :=
  first <- Py.next (contexts instance) ;;
  let single_period := period_aspect_value first in
  Py.for_ (contexts instance) (fun context =>
    Py.when (negb (is_instant (period context))
             || bool_decide (period_aspect_value context ≠ single_period))
      (let detail_error := detail "All xbrl periods in a report instance MUST refer to the (same) reference date instant. All xbrl periods MUST be instants." INFO in
       let main_error := mkError "[EBA.2.13] XBRL {period} consistency."
                           None None [("period", ObjPeriod (period context))] [detail_error] in
       report main_error)).

(** EBA 2.14 - The existence of xbrli:segment is not permitted *)
Definition eba_2_14 (instance : Instance) : Rule () :=
  Py.for_ (contexts instance) (fun context =>
    Py.when (Py.truthy (segment (entity context)))
      (let detail_error := detail "xbrli:segment elements MUST NOT be used." INFO in
       let main_error := mkError "[EBA.2.14] The existence of {segment} is not permitted."
                           None None [("segment", obj_of_open (segment (entity context)))] [detail_error] in
       report main_error)).

(** EBA 2.15 - Restrictions on the use of the xbrli:scenario element *)
Definition eba_2_15 (instance : Instance) : Rule () :=
  Py.for_ (contexts instance) (fun context =>
    Py.when (match scenario context with
             | Some s => Py.truthy (Py.next_default (non_xdt_child_elements s))
             | None => false
             end)
      (let detail_error := detail "If an xbrli:scenario element appears in a xbrli:context, then its children MUST only be one or more xbrldi:explicitMember and/or xbrldi:typedMember elements, and MUST NOT contain any other content. [EFM13, p. 6-8]." INFO in
       let main_error := mkError "[EBA.2.15] Restrictions on the use of the {scenario} element."
                           None None [("scenario", obj_of_open (scenario context))] [detail_error] in
       report main_error)).

(* ===================================================================== *)
(** ** Fact related rules *)
(* ===================================================================== *)

(** The key under which [eba_2_16] files a fact: its context (an object,
    hence its identity) and its language. *)
Definition fact_key (fact : Fact) : string * option string :=
  (context_id (fact_context fact), xml_lang fact).

(** EBA 2.16 - Duplicate (Redundant/Inconsistent) facts *)
Definition eba_2_16_body (fact : Fact) (duplicate_facts : gmap (string * option string) Fact)
    : Rule (gmap (string * option string) Fact) :=
  let key := fact_key fact in
  let '(duplicate_facts', first) := Py.setdefault duplicate_facts key fact in
  Py.when (negb (fact_eqb first fact))
    (match duplicate_facts' !! key with
     | None => Py.raise Py.KeyError
     | Some duplicate_fact =>
         if bool_decide (unit_ref (fact_unit fact) = unit_ref (fact_unit duplicate_fact)) then
           let detail_error := detail "Instances MUST NOT contain duplicate business facts. [FRIS04],[EFM13, p. 6-10]" INFO in
           let main_error := mkError "[EBA.2.16] Duplicate (Redundant/Inconsistent) facts {fact} and {fact2}."
                               None None [("fact", ObjFact fact); ("fact2", ObjFact duplicate_fact)] [detail_error] in
           report main_error
         else
           let detail_error := detail "Instances MUST NOT contain business facts which would be duplicates were their units not different." INFO in
           let main_error := mkError "[EBA.2.16.1] No multi-unit facts {fact} and {fact2}."
                               None None [("fact", ObjFact fact); ("fact2", ObjFact duplicate_fact)] [detail_error] in
           report main_error
     end) ;;;
  Py.ret duplicate_facts'.

(** The concepts the check looks at: items, except the filing indicator. *)
Definition eba_2_16_checked (c : Concept) : bool :=
  is_item c && (bool_decide (concept_target_namespace c ≠ filing_indicators_ns)
                || bool_decide (concept_name c ≠ "filingIndicator")).

Definition eba_2_16 (instance : Instance) : Rule () :=
  Py.for_ (concept_aspect_values (facts instance)) (fun aspect_concept =>
    Py.when (eba_2_16_checked aspect_concept)
      (Py.for_each (filter_concept (facts instance) aspect_concept) eba_2_16_body ∅ ;;;
       Py.ret ())).

(** EBA 2.17 - The use of the @precision attribute is not permitted *)
Definition eba_2_17 (instance : Instance) : Rule () :=
  Py.for_ (child_items instance) (fun fact =>
    Py.when (truthy_precision (precision fact))
      (let precision_attr := find_attribute (fact_element fact) (unqualified "precision") in
       let detail_error := detail "@decimals MUST be used as the only means for expressing precision on a fact. [FRIS 2.8.1.1, EFM13, p.6-12]." INFO in
       let main_error := mkError "[EBA.2.17] The use of the {precision} attribute is not permitted."
                           None None [("precision", obj_of_attribute precision_attr)] [detail_error] in
       report main_error)).

(** EBA 2.19 - Guidance on use of zeros and non-reported data *)
Definition eba_2_19 (instance : Instance) : Rule () :=
  Py.for_ (child_items instance) (fun fact =>
    Py.when (xsi_nil fact)
      (let xsi_nil_attr := find_attribute (fact_element fact) (mkQName "nil" xsi) in
       let detail_error := mkError "The {xsi_nil} attribute MUST NOT be used in the instance."
                             (Some INFO) None [("xsi_nil", obj_of_attribute xsi_nil_attr)] [] in
       let main_error := mkError "[EBA.2.19] Guidance on use of zeros and non-reported data."
                           None (Some (ObjFact fact)) [] [detail_error] in
       report main_error)).

(* ===================================================================== *)
(** ** Unit related rules *)
(* ===================================================================== *)

(** EBA 2.21 - Duplicates of xbrli:xbrl/xbrli:unit *)
Definition eba_2_21_body (unit : Unit)
    (aspects_map : gmap UnitConstraintSet (list Unit))
    : Rule (gmap UnitConstraintSet (list Unit)) :=
  let '(aspects_map', duplicates) :=
    Py.setdefault aspects_map (ConstraintSet_of_unit unit) [] in
  match duplicates with
  | first :: _ =>
      let detail_error1 := detail "An XBRL instance SHOULD NOT, in general, contain duplicated units, unless required for technical reasons, e.g. to support XBRL streaming." INFO in
      let detail_error2 := mkError "Unit {unit} is a duplicate of unit {unit2}"
                             (Some OTHER) None
                             [("unit", ObjUnit unit); ("unit2", ObjUnit first)] [] in
      let main_error := mkError "[EBA.2.21] Duplicates of xbrli:xbrl/xbrli:unit."
                          (Some WARNING) (Some (ObjElement (unit_element unit))) []
                          [detail_error1; detail_error2] in
      report main_error ;;;
      Py.ret aspects_map'
  | [] =>
      Py.ret (<[ConstraintSet_of_unit unit := duplicates ++ [unit]]> aspects_map')
  end.

Definition eba_2_21 (instance : Instance) : Rule () :=
  Py.for_each (units instance) eba_2_21_body ∅ ;;;
  Py.ret ().

(** EBA 2.22 - Unused xbrli:xbrl/xbrli:unit *)
Definition eba_2_22 (instance : Instance) : Rule () :=
  Py.for_ (units instance) (fun unit =>
    Py.when (bool_decide (filter_unit (facts instance) unit = []))
      (let detail_error := detail "An XBRL instance SHOULD NOT contain unused xbrli:unit nodes. [FRIS04]" INFO in
       let main_error := mkError "[EBA.2.22] Unused xbrli:xbrl/xbrli:unit."
                           (Some WARNING) (Some (ObjUnit unit)) [] [detail_error] in
       report main_error)).

(** EBA 3.1 - Choice of Currency for Monetary facts.
    The three concepts are looked up in the taxonomy; a lookup that does
    not resolve is not handled by the script and the host rejects the
    constraint built from it. *)
Definition eba_dict_dim : string := "http://www.eba.europa.eu/xbrl/crr/dict/dim".
Definition eba_dict_dom_CA : string := "http://www.eba.europa.eu/xbrl/crr/dict/dom/CA".

Definition eba_3_1 (instance : Instance) : Rule () :=
  let eba_dim_CCA := resolve_concept (dts instance) (mkQName "CCA" eba_dict_dim) in
  let eba_dim_CUS := resolve_concept (dts instance) (mkQName "CUS" eba_dict_dim) in
  let eba_CA_x1 := resolve_concept (dts instance) (mkQName "x1" eba_dict_dom_CA) in
  denomination_facts <-
    match eba_dim_CCA, eba_CA_x1 with
    | Some dim, Some member => Py.ret (filter_dimension (facts instance) dim member)
    | _, _ => Py.raise Py.TypeError
    end ;;
  Py.for_ denomination_facts (fun fact =>
    Py.when (is_monetary (concept fact))
      (let aspect_values := dimension_aspect_values (fact_context fact) in
       let currency := match eba_dim_CUS with
                       | Some dim => aspect_values !! concept_qname dim
                       | None => None
                       end in
       match currency with
       | Some value =>
           name <- match value with
                   | ExplicitMember member => Py.ret (local_name member)
                   | TypedMember _ => Py.raise Py.AttributeError
                   end ;;
           unit <- match fact_unit fact with
                   | Some unit => Py.ret unit
                   | None => Py.raise Py.KeyError
                   end ;;
           Py.when (bool_decide (Some name ≠ iso4217_currency unit))
             (let detail_error := detail "For facts falling under point (b), whose context also includes the dimension “Currency with significant liabilities” (CUS), the currency of the fact (i.e. unit) MUST be consistent with the value given for this dimension." INFO in
              let main_error := mkError "[EBA.3.1] Choice of Currency for Monetary fact {fact}."
                                  None None [("fact", ObjFact fact)] [detail_error] in
              report main_error)
       | None => Py.ret ()
       end)) ;;;
  let monetary_units := filter (fun unit => unit_is_monetary unit = true) (units instance) in
  (* Optimization: Only do the single currency check if more than one monetary unit is present *)
  Py.when (bool_decide (1 < List.length monetary_units))
    (Py.for_each (fact_difference (child_items instance) denomination_facts)
       (fun fact (single_unit : option string) =>
          if is_monetary (concept fact) then
            match single_unit with
            | None => Py.ret (unit_ref (fact_unit fact))
            | Some _ =>
                Py.when (bool_decide (unit_ref (fact_unit fact) ≠ single_unit))
                  (let detail_error := detail "An instance MUST express all monetary facts which do not fall under point (b) using a single currency." INFO in
                   let main_error := mkError "[EBA.3.1] Choice of Currency for Monetary fact {fact}."
                                       None None [("fact", ObjFact fact)] [detail_error] in
                   report main_error) ;;;
                Py.ret single_unit
            end
          else Py.ret single_unit) None ;;;
     Py.ret ()).

(** EBA 3.2 - Non-monetary numeric units *)
Definition eba_3_2 (instance : Instance) : Rule () :=
  Py.for_ (child_items instance) (fun fact =>
    Py.when (is_numeric (concept fact) && negb (is_monetary (concept fact)))
      (unit <- match fact_unit fact with
               | Some unit => Py.ret unit
               | None => Py.raise Py.AttributeError
               end ;;
       Py.when (negb (unit_is_pure unit))
         (let detail_error := detail ("An instance MUST express its non-monetary numeric values using the “pure” unit, a unit element with a single measure element as its only child. The local part of the measure MUST be " +:+ dquote +:+ "pure" +:+ dquote +:+ " and the namespace prefix MUST resolve to the namespace: http://www.xbrl.org/2003/instance.") INFO in
          let main_error := mkError "[EBA.3.2] Non-monetary numeric units."
                              None (Some (ObjFact fact)) [] [detail_error] in
          report main_error))).

(* ===================================================================== *)
(** ** Additional guidance *)
(* ===================================================================== *)

Definition value_prefixes (v : SchemaValue) : gset (option string) :=
  match v with XsdQName prefix _ => {[prefix]} | _ => ∅ end.

(** The prefixes [eba_3_4] collects from one element. *)
Definition element_prefixes (elem : Element) : gset (option string) :=
  {[elem_prefix elem]} ∪ value_prefixes (schema_actual_value elem)
  ∪ ⋃ ((fun attr => {[attr_prefix attr]} ∪ value_prefixes (attr_schema_actual_value attr))
        <$> attributes elem).

(** EBA 3.4 - Unused namespace prefixes *)
Definition eba_3_4 (instance : Instance) : Rule () :=
  let used_prefixes : gset (option string) :=
    ⋃ (element_prefixes <$> dfs (document_element instance)) in
  Py.for_ (namespace_attributes (document_element instance)) (fun nsattr =>
    Py.when (bool_decide (attr_local_name nsattr ≠ "xmlns")
             && bool_decide (Some (attr_local_name nsattr) ∉ used_prefixes))
      (let detail_error := detail "Namespace prefixes that are not used SHOULD not be declared in the instance document. [FRIS04]" INFO in
       let main_error := mkError "[EBA.3.4] Unused namespace prefix {prefix}."
                           (Some WARNING) None [("prefix", ObjAttribute nsattr)] [detail_error] in
       report main_error)).

(** EBA 3.5 - Re-use of canonical namespace prefixes *)
Definition namespace_bindings (d : DTS) : gmap string string :=
  foldl (fun bindings schema =>
           match List.find (fun nsattr =>
                              bool_decide (attr_local_name nsattr ≠ "xmlns")
                              && bool_decide (attr_normalized_value nsattr = target_namespace schema))
                           (namespace_attributes (schema_element schema)) with
           | Some nsattr => <[target_namespace schema := attr_local_name nsattr]> bindings
           | None => bindings
           end)
        ∅ (taxonomy_schemas d).

Definition eba_3_5 (instance : Instance) : Rule () :=
  let namespace_bindings := namespace_bindings (dts instance) in
  Py.for_ (namespace_attributes (document_element instance)) (fun nsattr =>
    Py.when (bool_decide (attr_local_name nsattr ≠ "xmlns")
             && bool_decide (attr_local_name nsattr ≠
                  default (attr_local_name nsattr)
                          (namespace_bindings !! attr_normalized_value nsattr)))
      (let detail_error := detail "Namespace prefixes, where used in instance documents, SHOULD mirror the namespace prefixes as defined by their schema author(s). [FRIS04]" INFO in
       let main_error := mkError "[EBA.3.5] Re-use of canonical namespace prefix {prefix}."
                           (Some WARNING) None [("prefix", ObjAttribute nsattr)] [detail_error] in
       report main_error)).

(** EBA 3.6 - LEI and other entity codes *)
Definition eba_3_6 (instance : Instance) : Rule () :=
  Py.for_ (contexts instance) (fun context =>
    Py.when (bool_decide (scheme (entity_identifier_aspect_value context)
                          = "http://standard.iso.org/iso/17442"))
      (let detail_error := detail "Producers of instance documents are encouraged to switch as quickly as possible to producing the correct form “http://standards.iso.org/iso/17442”." INFO in
       let main_error := mkError "[EBA.3.6] LEI and other entity codes."
                           (Some WARNING) (Some (ObjIdentifier (identifier (entity context)))) [] [detail_error] in
       report main_error)).

(** EBA 3.7 - Unused @id attribute on facts *)
Definition used_ids (instance : Instance) : gset string :=
  ⋃ ((fun footnote_link =>
        ⋃ ((fun loc =>
              let fragment := Py.split_last "#"%char (loc_xlink_href loc) in
              (* Check for short-hand xpointer notation *)
              if Py.contains "("%char fragment then ∅ else {[fragment]})
            <$> locators footnote_link))
      <$> footnote_links instance).

Definition eba_3_7 (instance : Instance) : Rule () :=
  let used_ids := used_ids instance in
  Py.for_ (child_items instance) (fun fact =>
    Py.when (match fact_id fact with
             | Some id => Py.truthy_str id && bool_decide (id ∉ used_ids)
             | None => false
             end)
      (let id_attr := find_attribute (fact_element fact) (unqualified "id") in
       let detail_error := detail "The instance SHOULD NOT include unused @id attributes on facts." INFO in
       let main_error := mkError "[EBA.3.7] Unused {id} attribute on fact."
                           (Some WARNING) None [("id", obj_of_attribute id_attr)] [detail_error] in
       report main_error)).

(** EBA 3.8 - Length of strings in instance *)
Definition eba_3_8 (instance : Instance) (params : gmap string string) : Rule () :=
  max_string_length <- Py.int_get params "max-string-length" 100 ;;
  Py.for_ (child_items instance) (fun fact =>
    Py.when (match schema_actual_value (fact_element fact) with
             | XsdString value => bool_decide (Py.len value > max_string_length)%Z
             | _ => false
             end)
      (let detail_error := detail "The values of each string SHOULD be as short as possible." INFO in
       let main_error := mkError "[EBA.3.8] Length of strings in instance."
                           (Some WARNING) (Some (ObjFact fact)) [] [detail_error] in
       report main_error)).

(** EBA 3.9 - Namespace prefix declarations restricted to the document element *)
Definition eba_3_9 (instance : Instance) : Rule () :=
  let elements := dfs (document_element instance) in
  Py.next elements ;;;  (* skip document element *)
  Py.for_ (drop 1 elements) (fun elem =>
    Py.for_ (namespace_attributes elem) (fun nsattr =>
      let detail_error := detail "Namespace prefixes declarations SHOULD be restricted to the document element." INFO in
      let main_error := mkError "[EBA.3.9] Namespace prefix declaration {prefix} restricted to the document element."
                          (Some WARNING) None [("prefix", ObjAttribute nsattr)] [detail_error] in
      report main_error)).

(** EBA 3.10 - Avoid multiple prefix declarations for the same namespace.
    Two namespace declarations of one element differ in their prefix, so
    comparing the attribute items by content tells them apart. *)
Definition eba_3_10 (instance : Instance) : Rule () :=
  Py.for_each (namespace_attributes (document_element instance))
    (fun nsattr (used_namespaces : gmap string Attribute) =>
       let '(used_namespaces', first) :=
         Py.setdefault used_namespaces (attr_normalized_value nsattr) nsattr in
       Py.when (bool_decide (first ≠ nsattr))
         (match used_namespaces' !! attr_normalized_value nsattr with
          | None => Py.raise Py.KeyError
          | Some prefix2 =>
              let detail_error := detail "Namespaces used in the document SHOULD be associated to a single namespace prefix." INFO in
              let main_error := mkError "[EBA.3.10] Avoid multiple prefix declarations {prefix} and {prefix2} for the same namespace {namespace}."
                                  (Some WARNING) None
                                  [("prefix", ObjAttribute nsattr); ("prefix2", ObjAttribute prefix2);
                                   ("namespace", ObjString (attr_normalized_value nsattr))]
                                  [detail_error] in
              report main_error
          end) ;;;
       Py.ret used_namespaces') ∅ ;;;
  Py.ret ().

(* ===================================================================== *)
(** ** The dispatcher and the host callbacks *)
(* ===================================================================== *)

(** Check additional EBA filing rules *)
Definition check_eba_filing_rules (job : Job) (instance : Instance) : Rule () :=
  let params := script_params job in
  (* 1. Filing syntax rules *)
  eba_1_4 instance ;;;
  eba_1_6 instance ;;;
  eba_1_13 instance ;;;
  eba_1_14 instance ;;;
  eba_1_15 instance (options job) ;;;
  (* 2. Instance syntax rules *)
  eba_2_1 instance ;;;
  eba_2_2 instance ;;;
  eba_2_3 instance ;;;
  eba_2_4 instance ;;;
  eba_2_25 instance ;;;
  (* Context related rules *)
  eba_2_6 instance params ;;;
  eba_2_7 instance ;;;
  eba_2_9 instance ;;;
  eba_2_10 instance ;;;
  eba_2_11 instance ;;;
  eba_2_13 instance ;;;
  eba_2_14 instance ;;;
  eba_2_15 instance ;;;
  (* Fact related rules *)
  eba_2_16 instance ;;;
  eba_2_17 instance ;;;
  eba_2_19 instance ;;;
  (* Unit related rules *)
  eba_2_21 instance ;;;
  eba_2_22 instance ;;;
  eba_3_1 instance ;;;
  eba_3_2 instance ;;;
  (* 3. Additional Guidance *)
  eba_3_4 instance ;;;
  eba_3_5 instance ;;;
  eba_3_6 instance ;;;
  eba_3_7 instance ;;;
  eba_3_8 instance params ;;;
  eba_3_9 instance ;;;
  eba_3_10 instance.

(** EBA 2.23: enable UTR validation once the taxonomy is loaded. *)
Definition on_xbrl_finished_dts (job : Job) : Job :=
  mkJob (script_params job) (<["utr" := OptBool true]> (options job)).

(** Main entry point, called once the XBRL instance validation job has
    finished; [instance] is [None] if XBRL 2.1 validation was not successful. *)
Definition on_xbrl_finished (job : Job) (instance : option Instance) : Rule () :=
  match instance with
  | Some instance => check_eba_filing_rules job instance
  | None =>
      (* EBA 1.9 - Valid XML-XBRL. *)
      let xbrl_errors := [detail "Instance documents MUST be XBRL 2.1 and XBRL Dimensions 1.0 valid. [EFM11, p. 6-8]" INFO] in
      logged <- errors ;;
      let xbrl_errors := xbrl_errors ++ logged in
      let main_error := mkError "[EBA.1.9] Valid XML-XBRL." None None [] xbrl_errors in
      clear ;;;
      report main_error
  end.

(* ===================================================================== *)
(** ** Reading the log *)
(* ===================================================================== *)

(** What a rule reports when run on an empty log. *)
Definition findings {A} (rule : Rule A) : list Error := (rule []).1.

(** A rule is independent of the log it appends to when it does the same
    on any log as on the empty one. *)
Definition appends_only {A} (rule : Rule A) : Prop :=
  ∀ log, rule log = (log ++ (rule []).1, (rule []).2).

(** The duplicate-context findings of [eba_2_7]: the context reported and
    the context it is said to duplicate. *)
Definition duplicate_context_of (e : Error) : option (Context * Context) :=
  match children e with
  | [_; d] =>
      match slots d with
      | [(_, ObjContext context); (_, ObjContext context2)] =>
          if decide (message d = "Context {context} is a duplicate of context {context2}")
          then Some (context, context2) else None
      | _ => None
      end
  | _ => None
  end.

(** The same for the findings of [eba_2_21]. *)
Definition duplicate_unit_of (e : Error) : option (Unit * Unit) :=
  match children e with
  | [_; d] =>
      match slots d with
      | [(_, ObjUnit unit); (_, ObjUnit unit2)] =>
          if decide (message d = "Unit {unit} is a duplicate of unit {unit2}")
          then Some (unit, unit2) else None
      | _ => None
      end
  | _ => None
  end.

(** The two findings of [eba_2_16]. *)
Inductive FactFinding := DuplicateFact | MultiUnitFact.

#[global] Instance FactFinding_eq_dec : EqDecision FactFinding.
Proof. solve_decision. Defined.

(** A finding of [eba_2_16] read back: which of the two it is, the fact
    reported and the fact it is paired with. *)
Definition fact_finding_of (e : Error) : option (FactFinding * Fact * Fact) :=
  match slots e with
  | [(_, ObjFact fact); (_, ObjFact fact2)] =>
      if decide (message e = "[EBA.2.16] Duplicate (Redundant/Inconsistent) facts {fact} and {fact2}.")
      then Some (DuplicateFact, fact, fact2)
      else if decide (message e = "[EBA.2.16.1] No multi-unit facts {fact} and {fact2}.")
      then Some (MultiUnitFact, fact, fact2)
      else None
  | _ => None
  end.

(** What [eba_2_16] is expected to say of [fact] against [first]. *)
Definition compare_units (first fact : Fact) : FactFinding :=
  if decide (unit_ref (fact_unit fact) = unit_ref (fact_unit first))
  then DuplicateFact else MultiUnitFact.

(** A fact and the first fact of its group, as [eba_2_16] reports them. *)
Definition fact_pair (p : Fact * Fact) : FactFinding * Fact * Fact :=
  (compare_units p.2 p.1, p.1, p.2).

(** The reserved filing-indicator concept. *)
Definition is_filing_indicator (c : Concept) : Prop :=
  concept_target_namespace c = filing_indicators_ns ∧ concept_name c = "filingIndicator".

(** The facts of an instance are distinct objects, and each is an item:
    its concept is an item declaration. *)
Definition valid_facts (instance : Instance) : Prop :=
  NoDup (fact_oid <$> facts instance)
  ∧ Forall (fun f => is_item (concept f) = true) (facts instance).

(** The facts of concept [c] filed under [key], in document order. *)
Definition fact_group (instance : Instance) (c : Concept) (key : string * option string) : list Fact :=
  filter (fun f => fact_key f = key) (filter_concept (facts instance) c).

(** The findings of [eba_2_6] and [eba_3_8]. *)
Definition eba_2_6_finding (context : Context) : Error :=
  mkError "[EBA.2.6] The length of the {id} attribute should be limited to the necessary characters."
    (Some WARNING) None
    [("id", obj_of_attribute (find_attribute (context_element context) (unqualified "id")))]
    [detail "Semantics SHOULD NOT be expressed in the xbrli:context/@id attribute. The values of each @id attribute SHOULD be as short as possible." INFO].

Definition eba_3_8_finding (fact : Fact) : Error :=
  mkError "[EBA.3.8] Length of strings in instance."
    (Some WARNING) (Some (ObjFact fact)) []
    [detail "The values of each string SHOULD be as short as possible." INFO].

(** A fact whose content is a string of more than [limit] characters. *)
Definition string_longer_than (limit : Z) (fact : Fact) : bool :=
  match schema_actual_value (fact_element fact) with
  | XsdString value => bool_decide (Py.len value > limit)%Z
  | _ => false
  end.

(** The loops of [eba_2_6] and [eba_3_8] run with a given limit. *)
Definition eba_2_6_with_limit (limit : Z) (instance : Instance) : Rule () :=
  Py.for_ (contexts instance) (fun context =>
    Py.when (bool_decide (Py.len (context_id context) > limit)%Z)
      (report (eba_2_6_finding context))).

Definition eba_3_8_with_limit (limit : Z) (instance : Instance) : Rule () :=
  Py.for_ (child_items instance) (fun fact =>
    Py.when (string_longer_than limit fact) (report (eba_3_8_finding fact))).

(** A parameter that is absent, or bound to a string [int] rejects. *)
Definition absent_or_not_numeric (params : gmap string string) (key : string) : Prop :=
  match params !! key with
  | None => True
  | Some v => Py.int_of_str v = None
  end.

(** "Absent or non-numeric values fall back to the defaults". *)
Definition falls_back_to_defaults (params : gmap string string) (instance : Instance) : Prop :=
  (absent_or_not_numeric params "max-id-length" ->
   eba_2_6 instance params = eba_2_6_with_limit 50 instance)
  ∧ (absent_or_not_numeric params "max-string-length" ->
     eba_3_8 instance params = eba_3_8_with_limit 100 instance).

(** The XInclude constructs of a document: its [xi:include] elements. *)
Definition xi_include : QName := mkQName "include" "http://www.w3.org/2001/XInclude".

Definition xinclude_occurrences (instance : Instance) : list Element :=
  filter (fun e => elem_name e = xi_include) (subtree (document_element instance)).

(** "One finding per occurrence of an XInclude construct, each pointing
    at the offending node". *)
Definition one_finding_per_xinclude (instance : Instance) (options : gmap string OptionValue) : Prop :=
  eq_True (options !! "xinclude") = true ->
  location <$> findings (eba_1_15 instance options)
  = (fun e => Some (ObjElement e)) <$> xinclude_occurrences instance.

(** The one finding of [eba_1_15]. *)
Definition xinclude_finding (instance : Instance) : Error :=
  mkError "[EBA.1.15] XInclude." None (Some (ObjUri (uri instance))) []
    [detail "XBRL instance documents MUST NOT use the XInclude specification (xi:include element)." INFO;
     detail "Hint: Disable XInclude support with the --xinclude=false option." OTHER].

(** The finding [on_xbrl_finished] leaves when there is no instance. *)
Definition invalid_xbrl_finding (logged : list Error) : Error :=
  mkError "[EBA.1.9] Valid XML-XBRL." None None []
    (detail "Instance documents MUST be XBRL 2.1 and XBRL Dimensions 1.0 valid. [EFM11, p. 6-8]" INFO
     :: logged).

Fixpoint error_size (e : Error) : nat :=
  S (list_sum (map error_size (children e))).

Definition stack_size (stack : list Element) : nat :=
  list_sum (map elem_size stack).

(** Scanning a list while remembering the first element seen under each
    key: every element that is not the first of its key, paired with that
    first one. *)
Fixpoint later_with_first `{Countable K} {A} (key : A -> K)
    (seen : gmap K A) (xs : list A) : list (A * A) :=
  match xs with
  | [] => []
  | x :: xs' =>
      match seen !! key x with
      | Some y => (x, y) :: later_with_first key seen xs'
      | None => later_with_first key (<[key x := x]> seen) xs'
      end
  end.

(** The first element seen under each key, after the scan. *)
Fixpoint representatives `{Countable K} {A} (key : A -> K)
    (seen : gmap K A) (xs : list A) : gmap K A :=
  match xs with
  | [] => seen
  | x :: xs' =>
      match seen !! key x with
      | Some _ => representatives key seen xs'
      | None => representatives key (<[key x := x]> seen) xs'
      end
  end.

(** What [eba_2_16] has to say about the facts of one concept. *)
Definition fact_pairs (instance : Instance) (c : Concept) : list (FactFinding * Fact * Fact) :=
  if eba_2_16_checked c
  then fact_pair <$> later_with_first fact_key ∅ (filter_concept (facts instance) c)
  else [].

(* ===================================================================== *)
(** ** Sample documents *)
(* ===================================================================== *)

Module Sample.

Definition leaf (name : string) : Element :=
  mkElement None (mkQName name xbrli) [] [] XsdOther [].

Definition node (name : string) (kids : list Element) : Element :=
  mkElement None (mkQName name xbrli) [] [] XsdOther kids.

(** <xbrl><a><b/><c/></a><d/></xbrl> *)
Definition tree : Element :=
  node "xbrl" [node "a" [leaf "b"; leaf "c"]; leaf "d"].

Definition lei (v : string) : Identifier :=
  mkIdentifier "http://standards.iso.org/iso/17442" v.

Definition day (d : string) : Period :=
  PeriodInstant (mkInstant (mkDateTime d None) "date").

Definition ctx (id : string) (who : string) (d : string) : Context :=
  mkContext id (leaf "context") (mkEntity (lei who) None) (day d) None.

Definition c1 : Context := ctx "c1" "BANK" "2020-12-31".
Definition c2 : Context := ctx "c2" "BANK" "2020-12-31".
Definition c3 : Context := ctx "c3" "BANK" "2019-12-31".
Definition c4 : Context := ctx "c4" "BANK" "2020-12-31".

Definition measure (id : string) (m : string) : Unit :=
  mkUnit id (leaf "unit") [mkQName m iso4217] [].

Definition eur : Unit := measure "EUR" "EUR".
Definition usd : Unit := measure "USD" "USD".
Definition eur2 : Unit := measure "EUR2" "EUR".

Definition mi53 : Concept :=
  mkConcept "mi53" "http://www.eba.europa.eu/xbrl/crr/dict/met" true true true.

Definition fact (oid : nat) (c : Concept) (x : Context) (u : Unit) (v : string) : Fact :=
  mkFact oid None (leaf (concept_name c)) c x (Some u) None None false v.

Definition f1 : Fact := fact 1 mi53 c1 eur "100".
Definition f2 : Fact := fact 2 mi53 c1 usd "100".
Definition f3 : Fact := fact 3 mi53 c1 usd "200".
Definition f4 : Fact := fact 4 mi53 c3 eur "100".
Definition f5 : Fact := fact 5 mi53 c1 eur "300".

Definition schema_ref (href : string) : SimpleLink :=
  mkSimpleLink href (leaf "schemaRef").

(** A taxonomy that declares the three concepts [eba_3_1] looks up. *)
Definition taxonomy : DTS :=
  mkDTS [] []
    [mi53;
     mkConcept "CCA" eba_dict_dim true false false;
     mkConcept "CUS" eba_dict_dim true false false;
     mkConcept "x1" eba_dict_dom_CA true false false].

Definition instance_of (refs : list SimpleLink) (cs : list Context)
    (us : list Unit) (fs : list Fact) : Instance :=
  mkInstance "file:///filing.xbrl" (mkDocument "utf-8" None) tree
    taxonomy fs fs refs [] [] cs us.

Definition entry_point : string :=
  "http://www.eba.europa.eu/eu/fr/xbrl/crr/fws/corep/its-2014-05/2015-02-16/mod/corep_con.xsd".

(** Four contexts, three of them with one signature; three units, two of
    them with one signature; five facts of one concept. *)
Definition filing : Instance :=
  instance_of [schema_ref entry_point] [c1; c2; c3; c4] [eur; usd; eur2] [f1; f2; f3; f4; f5].

(** The same filing with a relative schema reference. *)
Definition relative_filing : Instance :=
  instance_of [schema_ref "corep_con.xsd"] [c1; c2; c3; c4] [eur; usd; eur2] [f1; f2; f3; f4; f5].

(** A filing without facts, contexts or units. *)
Definition empty_filing : Instance :=
  instance_of [schema_ref entry_point] [] [] [].

(** A context whose @id has 51 characters. *)
Definition long_id : string := "c00000000000000000000000000000000000000000000000051".

Definition long_filing : Instance :=
  instance_of [schema_ref entry_point] [ctx long_id "BANK" "2020-12-31"] [] [].

Definition job (params : gmap string string) (xinclude : bool) : Job :=
  mkJob params {["xinclude" := OptBool xinclude]}.

End Sample.

(* ===================================================================== *)
(** ** The findings of the other rules *)
(* ===================================================================== *)

(** A rule that runs to its end on every log: it appends its findings and
    returns [a]. *)
Definition completes {A} (rule : Rule A) : Prop :=
  ∃ a, ∀ log, rule log = (log ++ findings rule, Py.Normal a).

(** A parameter that is absent, or bound to a string [int] accepts. *)
Definition absent_or_numeric (params : gmap string string) (key : string) : Prop :=
  match params !! key with
  | None => True
  | Some v => is_Some (Py.int_of_str v)
  end.

Definition eba_1_14_finding (attr : Attribute) : Error :=
  mkError "[EBA.1.14] @xsd:schemaLocation and @xsd:noNamespaceSchemaLocation."
    None (Some (ObjAttribute attr)) []
    [detail "@xsd:schemaLocation or @xsd:noNamespaceSchemaLocation MUST NOT be used." INFO].

Definition xml_base : QName := mkQName "base" "http://www.w3.org/XML/1998/namespace".

Definition eba_2_1_finding (xml_base_attr : Attribute) : Error :=
  mkError "[EBA.2.1] The existence of {xml_base} is not permitted."
    None None [("xml_base", ObjAttribute xml_base_attr)]
    [detail "The attribute @xml:base MUST NOT appear in any instance document. [EFM13, p. 6-7]." INFO].

Definition eba_2_3_finding (schema_ref : SimpleLink) : Error :=
  mkError "[EBA.2.3] Only one {schemaRef} element is allowed per instance document."
    None None [("schemaRef", ObjLink schema_ref)]
    [detail "Any reported XBRL instance document MUST contain only one xbrli:xbrl/link:schemaRef element." INFO].

Definition eba_2_25_finding (footnote : Footnote) : Error :=
  mkError "[EBA.2.25] XBRL {footnote} are ignored by EBA."
    (Some WARNING) None [("footnote", ObjFootnote footnote)]
    [detail "Relevant business data MUST only be contained in contexts, units, schemaRef and facts. A footnote MUST not have any impact on the regulatory content of a report." INFO].

Definition eba_2_9_finding (context : Context) : Error :=
  mkError "[EBA.2.9] Single reporter per instance."
    None (Some (ObjIdentifier (identifier (entity context)))) []
    [detail "All xbrli:identifier content and @scheme attributes in an instance MUST be identical. [EFM13, p. 6-8]" INFO].

Definition eba_2_10_finding (context : Context) : Error :=
  mkError "[EBA.2.10] The {period} date elements reported must be valid."
    None None [("period", ObjPeriod (period context))]
    [detail "All xbrli:period date elements MUST be valid against the xs:date data type, and reported without a timezone. [GFM11, p. 16]" INFO].

(** The test of [eba_2_10] on a period. *)
Definition invalid_instant (p : Period) : bool :=
  match period_instant p with
  | Some instant =>
      Py.truthy (tzinfo (instant_value instant))
      || bool_decide (member_type_name instant ≠ "date")
  | None => false
  end.

Definition eba_2_13_finding (context : Context) : Error :=
  mkError "[EBA.2.13] XBRL {period} consistency."
    None None [("period", ObjPeriod (period context))]
    [detail "All xbrl periods in a report instance MUST refer to the (same) reference date instant. All xbrl periods MUST be instants." INFO].

Definition eba_3_4_finding (nsattr : Attribute) : Error :=
  mkError "[EBA.3.4] Unused namespace prefix {prefix}."
    (Some WARNING) None [("prefix", ObjAttribute nsattr)]
    [detail "Namespace prefixes that are not used SHOULD not be declared in the instance document. [FRIS04]" INFO].

(** The test of [eba_3_4] on a namespace declaration of the document element. *)
Definition unused_prefix (instance : Instance) (nsattr : Attribute) : bool :=
  bool_decide (attr_local_name nsattr ≠ "xmlns")
  && bool_decide (Some (attr_local_name nsattr)
                  ∉ ⋃ (element_prefixes <$> dfs (document_element instance))).

(** A prefix an element makes use of: in its own name, in the name of one
    of its attributes, or in a QName that is its value or the value of one
    of its attributes. *)
Definition uses_prefix (e : Element) (p : option string) : Prop :=
  elem_prefix e = p
  ∨ (∃ name, schema_actual_value e = XsdQName p name)
  ∨ ∃ attr, attr ∈ attributes e
            ∧ (attr_prefix attr = p ∨ ∃ name, attr_schema_actual_value attr = XsdQName p name).

Definition eba_3_9_finding (nsattr : Attribute) : Error :=
  mkError "[EBA.3.9] Namespace prefix declaration {prefix} restricted to the document element."
    (Some WARNING) None [("prefix", ObjAttribute nsattr)]
    [detail "Namespace prefixes declarations SHOULD be restricted to the document element." INFO].

(** *** Filing indicators *)

(** The filing-indicator facts of an instance, in document order. *)
Definition indicator_facts (instance : Instance) : list Fact :=
  filter_qname (facts instance) (mkQName "filingIndicator" filing_indicators_ns).

(** The context of the fact has a segment or a scenario. *)
Definition in_open_context (f : Fact) : bool :=
  Py.truthy (segment (entity (fact_context f))) || Py.truthy (scenario (fact_context f)).

(** The three findings of [eba_1_6]. *)
Inductive IndicatorFinding := IndicatorContext | MultipleIndicators | UnknownIndicator.

#[global] Instance IndicatorFinding_eq_dec : EqDecision IndicatorFinding.
Proof. solve_decision. Defined.

(** A finding of [eba_1_6] read back: which one it is and the fact it is
    located at. *)
Definition indicator_finding_of (e : Error) : option (IndicatorFinding * Fact) :=
  match location e with
  | Some (ObjFact f) =>
      if decide (message e = "[EBA.1.6] Filing indicators.")
      then Some (IndicatorContext, f)
      else if decide (message e = "[EBA.1.6.1] Multiple filing indicators for the same reporting unit.")
      then Some (MultipleIndicators, f)
      else if decide (message e = "[EBA.1.6.3] Filing indicator codes.")
      then Some (UnknownIndicator, f)
      else None
  | _ => None
  end.

(** What [eba_1_6] has to say, indicator after indicator, with [seen] the
    first indicator of every value met before. *)
Fixpoint indicator_reports (available : gset string) (seen : gmap string Fact)
    (xs : list Fact) : list (IndicatorFinding * Fact) :=
  match xs with
  | [] => []
  | x :: xs' =>
      (if in_open_context x then [(IndicatorContext, x)] else [])
      ++ (match seen !! normalized_value x with
          | Some _ => [(MultipleIndicators, x)]
          | None => []
          end)
      ++ (if bool_decide (normalized_value x ∉ available) then [(UnknownIndicator, x)] else [])
      ++ indicator_reports available (representatives normalized_value seen [x]) xs'
  end.

(** The facts of the findings of one kind. *)
Definition of_kind (k : IndicatorFinding) (rs : list (IndicatorFinding * Fact)) : list Fact :=
  omap (fun r => if decide (r.1 = k) then Some r.2 else None) rs.

(** *** Namespace declarations of the document element *)

(** A finding of [eba_3_10] read back: the declaration reported, the
    declaration it is paired with and the namespace named. *)
Definition duplicate_prefix_of (e : Error) : option (Attribute * Attribute * string) :=
  match slots e with
  | [(_, ObjAttribute prefix); (_, ObjAttribute prefix2); (_, ObjString namespace)] =>
      Some (prefix, prefix2, namespace)
  | _ => None
  end.

(** *** Fact identifiers and footnote locators *)

Definition eba_3_7_finding (fact : Fact) : Error :=
  mkError "[EBA.3.7] Unused {id} attribute on fact."
    (Some WARNING) None
    [("id", obj_of_attribute (find_attribute (fact_element fact) (unqualified "id")))]
    [detail "The instance SHOULD NOT include unused @id attributes on facts." INFO].

(** The test of [eba_3_7] on a fact. *)
Definition unused_id (instance : Instance) (fact : Fact) : bool :=
  match fact_id fact with
  | Some id => Py.truthy_str id && bool_decide (id ∉ used_ids instance)
  | None => false
  end.

(** An id some footnote locator points at: the part of the locator's URL
    after its last [#] (the whole URL when it has none), unless it holds a
    parenthesis. *)
Definition referenced (instance : Instance) (id : string) : Prop :=
  ∃ link loc, link ∈ footnote_links instance ∧ loc ∈ locators link
              ∧ Py.split_last "#"%char (loc_xlink_href loc) = id
              ∧ Py.contains "("%char id = false.

(** *** Canonical prefixes *)

Definition eba_3_5_finding (nsattr : Attribute) : Error :=
  mkError "[EBA.3.5] Re-use of canonical namespace prefix {prefix}."
    (Some WARNING) None [("prefix", ObjAttribute nsattr)]
    [detail "Namespace prefixes, where used in instance documents, SHOULD mirror the namespace prefixes as defined by their schema author(s). [FRIS04]" INFO].

(** The test of [eba_3_5] on a namespace declaration of the document element. *)
Definition other_than_canonical (instance : Instance) (nsattr : Attribute) : bool :=
  bool_decide (attr_local_name nsattr ≠ "xmlns")
  && bool_decide (attr_local_name nsattr ≠
       default (attr_local_name nsattr)
               (namespace_bindings (dts instance) !! attr_normalized_value nsattr)).

(** A taxonomy schema that declares the prefix [p] for its own target
    namespace [uri]. *)
Definition declares_own_prefix (schema : TaxonomySchema) (uri p : string) : Prop :=
  target_namespace schema = uri
  ∧ ∃ nsattr, nsattr ∈ namespace_attributes (schema_element schema)
              ∧ attr_local_name nsattr = p ∧ p ≠ "xmlns"
              ∧ attr_normalized_value nsattr = uri.

(** *** Currencies *)

(** The single-currency finding of [eba_3_1]. *)
Definition eba_3_1_finding (fact : Fact) : Error :=
  mkError "[EBA.3.1] Choice of Currency for Monetary fact {fact}."
    None None [("fact", ObjFact fact)]
    [detail "An instance MUST express all monetary facts which do not fall under point (b) using a single currency." INFO].

(** The units of an instance that are monetary. *)
Definition monetary_units (instance : Instance) : list Unit :=
  filter (fun unit => unit_is_monetary unit = true) (units instance).

(** The facts [eba_3_1] takes as falling under point (b): those with the
    member [x1] for the dimension [CCA]. *)
Definition denomination_facts (instance : Instance) : list Fact :=
  match resolve_concept (dts instance) (mkQName "CCA" eba_dict_dim),
        resolve_concept (dts instance) (mkQName "x1" eba_dict_dom_CA) with
  | Some dim, Some member => filter_dimension (facts instance) dim member
  | _, _ => []
  end.

(** The findings of the rules that run before [eba_2_2]. *)
Definition findings_before_eba_2_2 (job : Job) (instance : Instance) : list Error :=
  findings (eba_1_4 instance) ++ findings (eba_1_6 instance)
  ++ findings (eba_1_13 instance) ++ findings (eba_1_14 instance)
  ++ findings (eba_1_15 instance (options job)) ++ findings (eba_2_1 instance).

(** The findings of the rules that run before [eba_2_6]. *)
Definition findings_before_eba_2_6 (job : Job) (instance : Instance) : list Error :=
  findings_before_eba_2_2 job instance
  ++ findings (eba_2_3 instance) ++ findings (eba_2_4 instance)
  ++ findings (eba_2_25 instance).

(** *** The whole check *)

Definition numeric_or_absent (params : gmap string string) (key : string) : bool :=
  match params !! key with
  | None => true
  | Some v => Py.truthy (Py.int_of_str v)
  end.

(** A monetary fact [eba_3_1] can compare with its currency dimension: it
    has a unit, and its [CUS] dimension, if any, is an explicit one. *)
Definition comparable_currency (instance : Instance) (fact : Fact) : bool :=
  implb (is_monetary (concept fact))
    (Py.truthy (fact_unit fact)
     && match resolve_concept (dts instance) (mkQName "CUS" eba_dict_dim) with
        | Some dim =>
            match dimension_aspect_values (fact_context fact) !! concept_qname dim with
            | Some (TypedMember _) => false
            | _ => true
            end
        | None => true
        end).

(** Conditions under which no rule of the check raises: the first schema
    reference is an [http://] URL, there is a context, the two length
    parameters are absent or numeric, the taxonomy resolves [CCA] and
    [x1], monetary facts can be compared with their currency dimension,
    and numeric facts have a unit. *)
Definition checkable (job : Job) (instance : Instance) : bool :=
  match schema_refs instance with
  | first :: _ => Py.startswith (xlink_href first) "http://"
  | [] => false
  end
  && match contexts instance with [] => false | _ :: _ => true end
  && numeric_or_absent (script_params job) "max-id-length"
  && numeric_or_absent (script_params job) "max-string-length"
  && Py.truthy (resolve_concept (dts instance) (mkQName "CCA" eba_dict_dim))
  && Py.truthy (resolve_concept (dts instance) (mkQName "x1" eba_dict_dom_CA))
  && forallb (comparable_currency instance) (facts instance)
  && forallb (fun fact => implb (is_numeric (concept fact) && negb (is_monetary (concept fact)))
                                (Py.truthy (fact_unit fact)))
       (child_items instance).

(** The findings of every rule, in the order of [check_eba_filing_rules]. *)
Definition all_findings (job : Job) (instance : Instance) : list Error :=
  findings (eba_1_4 instance) ++ findings (eba_1_6 instance)
  ++ findings (eba_1_13 instance) ++ findings (eba_1_14 instance)
  ++ findings (eba_1_15 instance (options job)) ++ findings (eba_2_1 instance)
  ++ findings (eba_2_2 instance) ++ findings (eba_2_3 instance)
  ++ findings (eba_2_4 instance) ++ findings (eba_2_25 instance)
  ++ findings (eba_2_6 instance (script_params job)) ++ findings (eba_2_7 instance)
  ++ findings (eba_2_9 instance) ++ findings (eba_2_10 instance)
  ++ findings (eba_2_11 instance) ++ findings (eba_2_13 instance)
  ++ findings (eba_2_14 instance) ++ findings (eba_2_15 instance)
  ++ findings (eba_2_16 instance) ++ findings (eba_2_17 instance)
  ++ findings (eba_2_19 instance) ++ findings (eba_2_21 instance)
  ++ findings (eba_2_22 instance) ++ findings (eba_3_1 instance)
  ++ findings (eba_3_2 instance) ++ findings (eba_3_4 instance)
  ++ findings (eba_3_5 instance) ++ findings (eba_3_6 instance)
  ++ findings (eba_3_7 instance) ++ findings (eba_3_8 instance (script_params job))
  ++ findings (eba_3_9 instance) ++ findings (eba_3_10 instance).

(* ===================================================================== *)
(** ** More sample documents *)
(* ===================================================================== *)

Module More.

(** Two schema references, the first absolute. *)
Definition two_refs : Instance :=
  Sample.instance_of [Sample.schema_ref Sample.entry_point; Sample.schema_ref "extension.xsd"]
    [Sample.c1] [Sample.eur] [Sample.f1].

(** A secure URL is not an [http://] URL. *)
Definition secure_filing : Instance :=
  Sample.instance_of [Sample.schema_ref "https://www.eba.europa.eu/mod/corep_con.xsd"]
    [Sample.c1] [Sample.eur] [Sample.f1].

Definition other_bank : Context := Sample.ctx "c5" "OTHER" "2020-12-31".

Definition year : Context :=
  mkContext "c6" (Sample.leaf "context") (mkEntity (Sample.lei "BANK") None)
    (PeriodDuration (mkDateTime "2020-01-01" None) (mkDateTime "2020-12-31" None)) None.

Definition two_reporters : Instance :=
  Sample.instance_of [Sample.schema_ref Sample.entry_point]
    [Sample.c1; other_bank; Sample.c3] [Sample.eur] [Sample.f1].

Definition year_first : Instance :=
  Sample.instance_of [Sample.schema_ref Sample.entry_point]
    [year; Sample.c1; Sample.c3] [Sample.eur] [Sample.f1].

(** Contexts whose @id has 10 and 11 characters. *)
Definition ten : Context := Sample.ctx "c000000010" "BANK" "2020-12-31".
Definition eleven : Context := Sample.ctx "c0000000011" "BANK" "2020-12-31".

Definition ids_filing : Instance :=
  Sample.instance_of [Sample.schema_ref Sample.entry_point] [ten; eleven] [] [].

(** <xbrl xmlns:a=".." xmlns:b=".." xmlns=".."> <a:x xml:base=".." xmlns:c=".."/> <y t="b:v"/> </xbrl> *)
Definition ns (prefix uri : string) : Attribute :=
  mkAttribute (Some "xmlns") prefix "http://www.w3.org/2000/xmlns/" uri XsdOther.

Definition base_attr : Attribute :=
  mkAttribute (Some "xml") "base" "http://www.w3.org/XML/1998/namespace" "http://example.org/" XsdOther.

Definition prefixed_tree : Element :=
  mkElement None (mkQName "xbrl" xbrli) []
    [ns "a" "urn:a"; ns "b" "urn:b"; ns "unused" "urn:u"; ns "xmlns" xbrli] XsdOther
    [mkElement (Some "a") (mkQName "x" "urn:a") [base_attr] [ns "c" "urn:c"] XsdOther [];
     mkElement None (mkQName "y" xbrli)
       [mkAttribute None "t" "" "b:v" (XsdQName (Some "b") (mkQName "v" "urn:b"))]
       [] XsdOther []].

Definition prefixed_filing : Instance :=
  mkInstance "file:///filing.xbrl" (mkDocument "UTF-8" None) prefixed_tree
    Sample.taxonomy [] [] [Sample.schema_ref Sample.entry_point] [] [] [Sample.c1] [].

(** A taxonomy with the filing indicators C_01.00 and C_02.00, and a
    filing that indicates C_01.00 twice and C_99.00 once. *)
Definition indicator_concept : Concept :=
  mkConcept "filingIndicator" filing_indicators_ns true false false.

Definition indicator (oid : nat) (x : Context) (code : string) : Fact :=
  mkFact oid None (Sample.leaf "filingIndicator") indicator_concept x None None None false code.

Definition i1 : Fact := indicator 11 Sample.c1 "C_01.00".
Definition i2 : Fact := indicator 12 Sample.c3 "C_01.00".
Definition i3 : Fact := indicator 13 Sample.c1 "C_99.00".

Definition indicator_taxonomy : DTS :=
  mkDTS [mkTable [mkLabel filing_indicator_code_role "C_01.00";
                  mkLabel "http://www.xbrl.org/2003/role/label" "Own funds"];
         mkTable [mkLabel filing_indicator_code_role "C_02.00"]]
        [] (dts_concepts Sample.taxonomy).

Definition indicator_filing : Instance :=
  mkInstance "file:///filing.xbrl" (mkDocument "UTF-8" None) Sample.tree
    indicator_taxonomy [i1; Sample.f1; i2; i3] [i1; Sample.f1; i2; i3]
    [Sample.schema_ref Sample.entry_point] [] [] [Sample.c1; Sample.c3] [Sample.eur].

(** <xbrl xmlns:a="urn:a" xmlns:b="urn:b" xmlns:a2="urn:a" xmlns="urn:a"> *)
Definition aliased_filing : Instance :=
  mkInstance "file:///filing.xbrl" (mkDocument "UTF-8" None)
    (mkElement None (mkQName "xbrl" "urn:a") []
       [ns "a" "urn:a"; ns "b" "urn:b"; ns "a2" "urn:a"; ns "xmlns" "urn:a"] XsdOther [])
    Sample.taxonomy [] [] [Sample.schema_ref Sample.entry_point] [] [] [Sample.c1] [].

(** A fact with the id [f1] that a footnote locator points at, one with
    the id [f2] that none points at, and one without id. *)
Definition with_id (oid : nat) (id : option string) : Fact :=
  mkFact oid id (Sample.leaf "mi53") Sample.mi53 Sample.c1 (Some Sample.eur) None None false "1".

Definition footnoted_filing : Instance :=
  mkInstance "file:///filing.xbrl" (mkDocument "UTF-8" None) Sample.tree
    Sample.taxonomy
    [with_id 21 (Some "f1"); with_id 22 (Some "f2"); with_id 23 None]
    [with_id 21 (Some "f1"); with_id 22 (Some "f2"); with_id 23 None]
    [Sample.schema_ref Sample.entry_point] []
    [mkFootnoteLink [] [mkLocator "#f1"; mkLocator "#xpointer(//fact[2])"]]
    [Sample.c1] [Sample.eur].

(** A taxonomy schema that binds [eba_met] to its target namespace, and a
    filing that binds [met] to it. *)
Definition met_ns : string := "http://www.eba.europa.eu/xbrl/crr/dict/met".

Definition met_schema : TaxonomySchema :=
  mkTaxonomySchema
    (mkElement (Some "xs") (mkQName "schema" "http://www.w3.org/2001/XMLSchema") []
       [ns "xs" "http://www.w3.org/2001/XMLSchema"; ns "eba_met" met_ns] XsdOther [])
    met_ns.

Definition renamed_filing : Instance :=
  mkInstance "file:///filing.xbrl" (mkDocument "UTF-8" None)
    (mkElement None (mkQName "xbrl" xbrli) []
       [ns "met" met_ns; ns "xbrli" xbrli] XsdOther [])
    (mkDTS [] [met_schema] (dts_concepts Sample.taxonomy))
    [] [] [Sample.schema_ref Sample.entry_point] [] [] [Sample.c1] [].

(** Monetary facts in euro, dollar, euro; a text fact in between. *)
Definition text_concept : Concept :=
  mkConcept "si1" met_ns true false false.

Definition note : Fact :=
  mkFact 30 None (Sample.leaf "si1") text_concept Sample.c1 None None None false "n/a".

Definition two_currencies : Instance :=
  Sample.instance_of [Sample.schema_ref Sample.entry_point]
    [Sample.c1; Sample.c3] [Sample.eur; Sample.usd] [note; Sample.f4; Sample.f2; Sample.f1].

End More.

(* ===================================================================== *)
(** ** The shape of a finding *)
(* ===================================================================== *)

(** A detail message of severity [s]: no location, no children of its own. *)
Definition is_detail (s : ErrorSeverity) (e : Error) : bool :=
  match severity e, location e, children e with
  | Some s', None, [] =>
      match s, s' with
      | INFO, INFO | WARNING, WARNING | OTHER, OTHER => true
      | _, _ => false
      end
  | _, _, _ => false
  end.

(** What the rules of the check report: a message of the filing rules other
    than [EBA.1.9], of warning or default severity, with one explanation
    and at most one further hint as its children. *)
Definition filing_rule_finding (e : Error) : bool :=
  Py.startswith (message e) "[EBA."
  && negb (Py.startswith (message e) "[EBA.1.9]")
  && match severity e with
     | None | Some WARNING => true
     | Some _ => false
     end
  && match children e with
     | [d] => is_detail INFO d
     | [d1; d2] => is_detail INFO d1 && is_detail OTHER d2
     | _ => false
     end.

(** A rule keeps a property of the entries of the log when everything it
    leaves in the log has it provided everything it found there has. *)
Definition reports_only {A} (P : Error -> Prop) (rule : Rule A) : Prop :=
  ∀ log, Forall P log -> Forall P (rule log).1.

(** The detail texts of the encoding and of the standalone finding. *)
Definition standalone_text : string :=
  "XBRL instance documents SHOULD NOT use the XML standalone declaration.".

Definition encoding_text : string :=
  "XBRL instance documents MUST use " +:+ dquote +:+ "UTF-8" +:+ dquote +:+ " encoding. [GFM11, p. 11]".

(* ===================================================================== *)
(** ** Properties of the monad: rules only append to the log *)
(* ===================================================================== *)

Section AppendsOnly.

Lemma appends_only_ret {A} (a : A) : appends_only (Py.ret a).
Proof. intros log. unfold Py.ret. simpl. by rewrite app_nil_r. Qed.

Lemma appends_only_raise {A} (e : Py.Exception) : appends_only (Py.raise (A := A) e).
Proof. intros log. unfold Py.raise. simpl. by rewrite app_nil_r. Qed.

Lemma appends_only_report (e : Error) : appends_only (report e).
Proof. intros log. reflexivity. Qed.

Lemma appends_only_bind {A B} (m : Rule A) (k : A -> Rule B) :
  appends_only m -> (∀ a, appends_only (k a)) -> appends_only (Py.bind m k).
Proof.
  intros Hm Hk log. unfold Py.bind.
  rewrite (Hm log). destruct (m []) as [F [a | e]]; simpl.
  - rewrite (Hk a (log ++ F)), (Hk a F). simpl. by rewrite app_assoc.
  - reflexivity.
Qed.

Lemma appends_only_when (b : bool) (body : Rule ()) :
  appends_only body -> appends_only (Py.when b body).
Proof. intros H. destruct b; [exact H | apply appends_only_ret]. Qed.

Lemma appends_only_for_each {A L} (xs : list A) (body : A -> L -> Rule L) (acc : L) :
  (∀ x l, appends_only (body x l)) -> appends_only (Py.for_each xs body acc).
Proof.
  intros H. revert acc. induction xs as [| x xs IH]; intros acc; simpl.
  - apply appends_only_ret.
  - apply appends_only_bind; [apply H | apply IH].
Qed.

Lemma appends_only_for_ {A} (xs : list A) (body : A -> Rule ()) :
  (∀ x, appends_only (body x)) -> appends_only (Py.for_ xs body).
Proof. intros H. apply appends_only_for_each. intros x _. apply H. Qed.

Lemma appends_only_next {A} (xs : list A) : appends_only (Py.next xs).
Proof. destruct xs; [apply appends_only_raise | apply appends_only_ret]. Qed.

Lemma appends_only_int_get (d : gmap string string) (key : string) (default : Z) :
  appends_only (Py.int_get d key default).
Proof.
  unfold Py.int_get. destruct (d !! key) as [v |]; [| apply appends_only_ret].
  destruct (Py.int_of_str v); [apply appends_only_ret | apply appends_only_raise].
Qed.

End AppendsOnly.

(** Goals [appends_only rule] for a rule built from the combinators. *)
Ltac appends_only :=
  repeat first
    [ apply appends_only_ret
    | apply appends_only_raise
    | apply appends_only_report
    | apply appends_only_next
    | apply appends_only_int_get
    | apply appends_only_when
    | apply appends_only_for_; intros ?
    | apply appends_only_for_each; intros ? ?
    | apply appends_only_bind; [| intros ?]
    | match goal with
      | |- appends_only (match ?x with _ => _ end) => destruct x
      end
    | progress cbv zeta ].

Section RulesAppendOnly.

Variable instance : Instance.

Lemma eba_1_4_appends_only : appends_only (eba_1_4 instance).
Proof. unfold eba_1_4. appends_only. Qed.

Lemma eba_1_6_appends_only : appends_only (eba_1_6 instance).
Proof. unfold eba_1_6. appends_only. Qed.

Lemma eba_1_13_appends_only : appends_only (eba_1_13 instance).
Proof. unfold eba_1_13. appends_only. Qed.

Lemma eba_1_14_appends_only : appends_only (eba_1_14 instance).
Proof. unfold eba_1_14. appends_only. Qed.

Lemma eba_1_15_appends_only opts : appends_only (eba_1_15 instance opts).
Proof. unfold eba_1_15. appends_only. Qed.

Lemma eba_2_1_appends_only : appends_only (eba_2_1 instance).
Proof. unfold eba_2_1. appends_only. Qed.

Lemma eba_2_2_appends_only : appends_only (eba_2_2 instance).
Proof. unfold eba_2_2. appends_only. Qed.

Lemma eba_2_3_appends_only : appends_only (eba_2_3 instance).
Proof. unfold eba_2_3. appends_only. Qed.

Lemma eba_2_4_appends_only : appends_only (eba_2_4 instance).
Proof. unfold eba_2_4. appends_only. Qed.

Lemma eba_2_25_appends_only : appends_only (eba_2_25 instance).
Proof. unfold eba_2_25. appends_only. Qed.

Lemma eba_2_6_appends_only params : appends_only (eba_2_6 instance params).
Proof. unfold eba_2_6. appends_only. Qed.

Lemma eba_2_7_appends_only : appends_only (eba_2_7 instance).
Proof. unfold eba_2_7, eba_2_7_body. appends_only. Qed.

Lemma eba_2_9_appends_only : appends_only (eba_2_9 instance).
Proof. unfold eba_2_9. appends_only. Qed.

Lemma eba_2_10_appends_only : appends_only (eba_2_10 instance).
Proof. unfold eba_2_10. appends_only. Qed.

Lemma eba_2_11_appends_only : appends_only (eba_2_11 instance).
Proof. unfold eba_2_11. appends_only. Qed.

Lemma eba_2_13_appends_only : appends_only (eba_2_13 instance).
Proof. unfold eba_2_13. appends_only. Qed.

Lemma eba_2_14_appends_only : appends_only (eba_2_14 instance).
Proof. unfold eba_2_14. appends_only. Qed.

Lemma eba_2_15_appends_only : appends_only (eba_2_15 instance).
Proof. unfold eba_2_15. appends_only. Qed.

Lemma eba_2_16_appends_only : appends_only (eba_2_16 instance).
Proof. unfold eba_2_16, eba_2_16_body. appends_only. Qed.

Lemma eba_2_17_appends_only : appends_only (eba_2_17 instance).
Proof. unfold eba_2_17. appends_only. Qed.

Lemma eba_2_19_appends_only : appends_only (eba_2_19 instance).
Proof. unfold eba_2_19. appends_only. Qed.

Lemma eba_2_21_appends_only : appends_only (eba_2_21 instance).
Proof. unfold eba_2_21, eba_2_21_body. appends_only. Qed.

Lemma eba_2_22_appends_only : appends_only (eba_2_22 instance).
Proof. unfold eba_2_22. appends_only. Qed.

Lemma eba_3_1_appends_only : appends_only (eba_3_1 instance).
Proof. unfold eba_3_1. appends_only. Qed.

Lemma eba_3_2_appends_only : appends_only (eba_3_2 instance).
Proof. unfold eba_3_2. appends_only. Qed.

Lemma eba_3_4_appends_only : appends_only (eba_3_4 instance).
Proof. unfold eba_3_4. appends_only. Qed.

Lemma eba_3_5_appends_only : appends_only (eba_3_5 instance).
Proof. unfold eba_3_5. appends_only. Qed.

Lemma eba_3_6_appends_only : appends_only (eba_3_6 instance).
Proof. unfold eba_3_6. appends_only. Qed.

Lemma eba_3_7_appends_only : appends_only (eba_3_7 instance).
Proof. unfold eba_3_7. appends_only. Qed.

Lemma eba_3_8_appends_only params : appends_only (eba_3_8 instance params).
Proof. unfold eba_3_8. appends_only. Qed.

Lemma eba_3_9_appends_only : appends_only (eba_3_9 instance).
Proof. unfold eba_3_9. appends_only. Qed.

Lemma eba_3_10_appends_only : appends_only (eba_3_10 instance).
Proof. unfold eba_3_10. appends_only. Qed.

End RulesAppendOnly.

Create HintDb rules discriminated.

#[global] Hint Resolve
  eba_1_4_appends_only eba_1_6_appends_only eba_1_13_appends_only
  eba_1_14_appends_only eba_1_15_appends_only eba_2_1_appends_only
  eba_2_2_appends_only eba_2_3_appends_only eba_2_4_appends_only
  eba_2_25_appends_only eba_2_6_appends_only eba_2_7_appends_only
  eba_2_9_appends_only eba_2_10_appends_only eba_2_11_appends_only
  eba_2_13_appends_only eba_2_14_appends_only eba_2_15_appends_only
  eba_2_16_appends_only eba_2_17_appends_only eba_2_19_appends_only
  eba_2_21_appends_only eba_2_22_appends_only eba_3_1_appends_only
  eba_3_2_appends_only eba_3_4_appends_only eba_3_5_appends_only
  eba_3_6_appends_only eba_3_7_appends_only eba_3_8_appends_only
  eba_3_9_appends_only eba_3_10_appends_only : rules.

Lemma check_eba_filing_rules_appends_only job instance :
  appends_only (check_eba_filing_rules job instance).
Proof.
  unfold check_eba_filing_rules. cbv zeta.
  repeat (apply appends_only_bind; [solve [auto with rules] | intros _]).
  auto with rules.
Qed.

(** C7: running the whole sequence of predicates twice on the same job and
    instance appends the same findings, in the same order, both times, and
    ends the same way: what a run appends does not depend on what the log
    already holds, and the run has no other store. *)
Theorem check_eba_filing_rules_twice job instance log :
  let first := check_eba_filing_rules job instance log in
  let second := check_eba_filing_rules job instance first.1 in
  ∃ appended,
    first.1 = log ++ appended ∧ second.1 = first.1 ++ appended ∧ second.2 = first.2.
Proof.
  intros first second.
  exists (findings (check_eba_filing_rules job instance)).
  subst second first.
  rewrite (check_eba_filing_rules_appends_only job instance log). simpl.
  rewrite (check_eba_filing_rules_appends_only job instance (log ++ _)). simpl.
  auto.
Qed.

(* ===================================================================== *)
(** ** The invalid-instance branch of [on_xbrl_finished] *)
(* ===================================================================== *)

Lemma error_size_elem_of (e : Error) (l : list Error) :
  e ∈ l -> error_size e <= list_sum (map error_size l).
Proof.
  induction 1 as [e l | e e' l _ IH]; simpl; lia.
Qed.

Lemma error_not_own_child (e : Error) : e ∉ children e.
Proof.
  intros H. apply error_size_elem_of in H.
  destruct e as [m s loc sl ch]. simpl in H. lia.
Qed.

(** C5: when the host passes no instance, the callback ends normally with
    a log whose only entry is the EBA.1.9 finding; every finding logged
    before is a child of that entry and is no longer an entry of the log.
    The outcome is the same for every job: nothing of the job's parameters
    or options, which the rule predicates read, is looked at. *)
Theorem on_xbrl_finished_without_instance job log :
  on_xbrl_finished job None log = ([invalid_xbrl_finding log], Py.Normal ())
  ∧ (∀ e, e ∈ log -> e ∈ children (invalid_xbrl_finding log)
                    ∧ e ∉ [invalid_xbrl_finding log])
  ∧ (∀ job', on_xbrl_finished job' None log = on_xbrl_finished job None log).
Proof.
  split; [reflexivity |]. split; [| reflexivity].
  intros e He. split.
  - simpl. by apply list_elem_of_further.
  - intros Hin. apply list_elem_of_singleton in Hin. subst e.
    apply (error_not_own_child (invalid_xbrl_finding log)).
    simpl. by apply list_elem_of_further.
Qed.

Lemma on_xbrl_finished_without_instance_witness :
  xinclude_finding Sample.filing
    ∈ children (invalid_xbrl_finding [xinclude_finding Sample.filing])
  ∧ xinclude_finding Sample.filing
    ∉ [invalid_xbrl_finding [xinclude_finding Sample.filing]].
Proof.
  apply (proj1 (proj2 (on_xbrl_finished_without_instance
                         (Sample.job ∅ true) [xinclude_finding Sample.filing]))).
  apply list_elem_of_here.
Defined.

(* ===================================================================== *)
(** ** Rules that read the first element of a collection *)
(* ===================================================================== *)

Lemma eba_2_2_reporting_branch instance first rest log :
  schema_refs instance = first :: rest ->
  Py.startswith (xlink_href first) "http://" = false ->
  eba_2_2 instance log = (log, Py.Raised (Py.NameError "schema_refs")).
Proof.
  intros Hrefs Hrel. unfold eba_2_2, Py.bind. rewrite Hrefs. simpl.
  unfold Py.ret. by rewrite Hrel.
Qed.

(** C3: on a filing whose schema reference is relative, [eba_2_2] raises
    NameError and so does the dispatcher, after the rules before it have
    reported; the same filing with an absolute reference is checked to the
    end. *)
Theorem check_eba_filing_rules_relative_schema_ref :
  eba_2_2 Sample.relative_filing [] = ([], Py.Raised (Py.NameError "schema_refs"))
  ∧ (check_eba_filing_rules (Sample.job ∅ false) Sample.relative_filing []).2
    = Py.Raised (Py.NameError "schema_refs")
  ∧ (check_eba_filing_rules (Sample.job ∅ false) Sample.filing []).2 = Py.Normal ().
Proof. repeat split; vm_compute; reflexivity. Qed.

(** C4: with no context, [eba_2_9] and [eba_2_13] stop at [next] with
    StopIteration, and so does [eba_2_2] with no schema reference; none
    reports a finding. *)
Theorem first_of_empty_collection instance log :
  (contexts instance = [] ->
   eba_2_9 instance log = (log, Py.Raised Py.StopIteration)
   ∧ eba_2_13 instance log = (log, Py.Raised Py.StopIteration))
  ∧ (schema_refs instance = [] ->
     eba_2_2 instance log = (log, Py.Raised Py.StopIteration)).
Proof.
  split.
  - intros H. unfold eba_2_9, eba_2_13, Py.bind. by rewrite H.
  - intros H. unfold eba_2_2, Py.bind. by rewrite H.
Qed.

Lemma first_of_empty_collection_witness :
  eba_2_9 Sample.empty_filing [] = ([], Py.Raised Py.StopIteration)
  ∧ eba_2_13 Sample.empty_filing [] = ([], Py.Raised Py.StopIteration).
Proof.
  exact (proj1 (first_of_empty_collection Sample.empty_filing []) eq_refl).
Defined.

(* ===================================================================== *)
(** ** Length limits *)
(* ===================================================================== *)

Lemma eba_2_6_limit instance params limit :
  Py.int_get (S := ErrorLog) params "max-id-length" 50 = Py.ret limit ->
  eba_2_6 instance params = eba_2_6_with_limit limit instance.
Proof. intros H. unfold eba_2_6. by rewrite H. Qed.

Lemma eba_3_8_limit instance params limit :
  Py.int_get (S := ErrorLog) params "max-string-length" 100 = Py.ret limit ->
  eba_3_8 instance params = eba_3_8_with_limit limit instance.
Proof. intros H. unfold eba_3_8. by rewrite H. Qed.

(** A value that [int] rejects stops either rule before its loop. *)
Lemma eba_2_6_not_numeric instance params v log :
  params !! "max-id-length" = Some v -> Py.int_of_str v = None ->
  eba_2_6 instance params log = (log, Py.Raised Py.ValueError).
Proof. intros Hv Hn. unfold eba_2_6, Py.bind, Py.int_get. by rewrite Hv, Hn. Qed.

Lemma eba_3_8_not_numeric instance params v log :
  params !! "max-string-length" = Some v -> Py.int_of_str v = None ->
  eba_3_8 instance params log = (log, Py.Raised Py.ValueError).
Proof. intros Hv Hn. unfold eba_3_8, Py.bind, Py.int_get. by rewrite Hv, Hn. Qed.

(** A value that [int] accepts is the limit. *)
Lemma eba_2_6_numeric instance params v n :
  params !! "max-id-length" = Some v -> Py.int_of_str v = Some n ->
  eba_2_6 instance params = eba_2_6_with_limit n instance.
Proof. intros Hv Hn. apply eba_2_6_limit. unfold Py.int_get. by rewrite Hv, Hn. Qed.

(** What the loops report, on any log. *)
Lemma report_when_run {A} (xs : list A) (test : A -> bool) (finding : A -> Error) log :
  Py.for_ xs (fun x => Py.when (test x) (report (finding x))) log
  = (log ++ (finding <$> filter (fun x => test x = true) xs), Py.Normal ()).
Proof.
  unfold Py.for_. revert log. induction xs as [| x xs IH]; intros log.
  - simpl. unfold Py.ret. by rewrite app_nil_r.
  - cbn [Py.for_each]. unfold Py.bind at 1.
    destruct (test x) eqn:Hx; simpl.
    + rewrite IH, filter_cons_True by done. by rewrite fmap_cons, <- app_assoc.
    + rewrite IH, filter_cons_False; [done | by rewrite Hx].
Qed.

Example int_of_str_samples :
  Py.int_of_str "10" = Some 10%Z ∧ Py.int_of_str " +1_000 " = Some 1000%Z
  ∧ Py.int_of_str "-12" = Some (-12)%Z ∧ Py.int_of_str "007" = Some 7%Z
  ∧ Py.int_of_str "abc" = None ∧ Py.int_of_str "" = None
  ∧ Py.int_of_str "1.5" = None ∧ Py.int_of_str "1__0" = None
  ∧ Py.int_of_str "12a" = None.
Proof. repeat split; vm_compute; reflexivity. Qed.

(** C8, as amended: with [max-id-length] absent [eba_2_6] runs with the
    limit 50 and reports the contexts whose @id has more than 50
    characters; with [max-string-length] absent [eba_3_8] runs with the
    limit 100 and reports the facts whose string content has more than
    100 characters.  Neither raises. *)
Theorem absent_limits_default instance params log :
  (params !! "max-id-length" = None ->
   eba_2_6 instance params = eba_2_6_with_limit 50 instance
   ∧ eba_2_6 instance params log
     = (log ++ (eba_2_6_finding
                  <$> filter (fun c => bool_decide (Py.len (context_id c) > 50)%Z = true)
                        (contexts instance)),
        Py.Normal ()))
  ∧ (params !! "max-string-length" = None ->
     eba_3_8 instance params = eba_3_8_with_limit 100 instance
     ∧ eba_3_8 instance params log
       = (log ++ (eba_3_8_finding
                    <$> filter (fun f => string_longer_than 100 f = true)
                          (child_items instance)),
          Py.Normal ())).
Proof.
  split; intros Habsent.
  - assert (Hlimit : eba_2_6 instance params = eba_2_6_with_limit 50 instance).
    { apply eba_2_6_limit. unfold Py.int_get. by rewrite Habsent. }
    split; [done |]. rewrite Hlimit. apply report_when_run.
  - assert (Hlimit : eba_3_8 instance params = eba_3_8_with_limit 100 instance).
    { apply eba_3_8_limit. unfold Py.int_get. by rewrite Habsent. }
    split; [done |]. rewrite Hlimit. apply report_when_run.
Qed.

Lemma absent_limits_default_witness :
  eba_2_6 Sample.long_filing ∅ []
  = ([eba_2_6_finding (Sample.ctx Sample.long_id "BANK" "2020-12-31")], Py.Normal ()).
Proof.
  exact (proj2 (proj1 (absent_limits_default Sample.long_filing ∅ []) eq_refl)).
Defined.

(** C8 as stated fails: with [max-id-length] bound to [abc], a context
    whose @id has 51 characters is not reported; the rule raises
    ValueError instead of running with the limit 50. *)
Lemma non_numeric_limit_does_not_default :
  ¬ falls_back_to_defaults {["max-id-length" := "abc"]} Sample.long_filing.
Proof.
  intros [H _].
  assert (Habs : absent_or_not_numeric {["max-id-length" := "abc"]} "max-id-length")
    by (vm_compute; reflexivity).
  specialize (H Habs).
  apply (f_equal (fun rule => (rule []).2)) in H.
  vm_compute in H. discriminate H.
Qed.

(* ===================================================================== *)
(** ** XInclude *)
(* ===================================================================== *)

(** C9, as amended: when the job's [xinclude] option is on, the rule
    reports one finding, located at the URI of the instance, whatever the
    document holds; when it is off or not set, the rule reports nothing. *)
Theorem eba_1_15_reports_the_option instance options log :
  eba_1_15 instance options log
  = (log ++ (if eq_True (options !! "xinclude") then [xinclude_finding instance] else []),
     Py.Normal ())
  ∧ location (xinclude_finding instance) = Some (ObjUri (uri instance)).
Proof.
  split; [| done]. unfold eba_1_15, Py.when, Py.ret.
  destruct (eq_True _); [done | by rewrite app_nil_r].
Qed.

Example eba_1_15_option_values :
  eq_True (Some (OptBool true)) = true ∧ eq_True (Some (OptInt 1)) = true
  ∧ eq_True (Some (OptBool false)) = false ∧ eq_True (Some (OptStr "true")) = false
  ∧ eq_True None = false.
Proof. repeat split. Qed.

(** C9 as stated fails: the sample filing holds no [xi:include] element,
    and with the option on the rule reports a finding all the same. *)
Lemma xinclude_finding_without_occurrence :
  ¬ one_finding_per_xinclude Sample.filing {["xinclude" := OptBool true]}.
Proof.
  intros H. specialize (H eq_refl). vm_compute in H. discriminate H.
Qed.

(* ===================================================================== *)
(** ** The document walker *)
(* ===================================================================== *)

Section Walker.

(** Induction on an element with the property known for its children. *)
Lemma Element_children_ind (P : Element -> Prop) :
  (∀ e, Forall P (element_children e) -> P e) -> ∀ e, P e.
Proof.
  intros step. fix IH 1. intros [p n a ns v kids]. apply step. simpl.
  exact ((fix go (l : list Element) : Forall P l :=
            match l with
            | [] => @List.Forall_nil _ P
            | x :: l' => @List.Forall_cons _ P x l' (IH x) (go l')
            end) kids).
Qed.

Lemma pop_snoc {A} (l : list A) (x : A) : pop (l ++ [x]) = Some (x, l).
Proof. unfold pop. by rewrite last_snoc, removelast_last. Qed.

Lemma dfs_resume_snoc (stack : list Element) (e : Element) :
  dfs_resume (stack ++ [e]) = Some (e, stack ++ element_children e).
Proof. unfold dfs_resume. by rewrite pop_snoc. Qed.

Lemma dfs_resume_nil : dfs_resume [] = None.
Proof. reflexivity. Qed.

Lemma elem_size_pos (e : Element) : 0 < elem_size e.
Proof. destruct e. simpl. lia. Qed.

Lemma stack_size_app (s t : list Element) :
  stack_size (s ++ t) = stack_size s + stack_size t.
Proof. unfold stack_size. by rewrite map_app, list_sum_app. Qed.

Lemma stack_size_children (e : Element) :
  elem_size e = S (stack_size (element_children e)).
Proof. by destruct e. Qed.

Lemma preorder_children (e : Element) :
  preorder_last_first e
  = e :: flat_map preorder_last_first (rev (element_children e)).
Proof.
  destruct e as [p n a ns v kids]. simpl. f_equal.
  by rewrite flat_map_concat_map, map_rev.
Qed.

(** With fuel for every element below the stack, the generator yields the
    walks of the stacked elements, the top one first, and ends with an
    empty stack. *)
Lemma dfs_drain_enough (fuel : nat) (stack : list Element) :
  stack_size stack <= fuel ->
  dfs_drain fuel stack = (flat_map preorder_last_first (rev stack), []).
Proof.
  revert stack. induction fuel as [| fuel IH]; intros stack Hsize.
  - destruct stack as [| e stack]; [reflexivity |].
    unfold stack_size in Hsize. simpl in Hsize.
    pose proof (elem_size_pos e). lia.
  - destruct stack as [| e stack _] using rev_ind; [reflexivity |].
    cbn [dfs_drain]. rewrite dfs_resume_snoc.
    rewrite stack_size_app in Hsize. unfold stack_size at 2 in Hsize.
    simpl in Hsize. rewrite stack_size_children in Hsize.
    rewrite IH by (rewrite stack_size_app; lia).
    rewrite !rev_app_distr. simpl.
    rewrite flat_map_app, preorder_children. by rewrite app_comm_cons.
Qed.

Lemma dfs_preorder (root : Element) : dfs root = preorder_last_first root.
Proof.
  unfold dfs, dfs_start. rewrite dfs_drain_enough.
  - simpl. by rewrite app_nil_r.
  - unfold stack_size. simpl. lia.
Qed.

(** Fewer resumptions yield a prefix of what more resumptions yield. *)
Lemma dfs_drain_prefix (k extra : nat) (stack : list Element) :
  (dfs_drain k stack).1 = take k (dfs_drain (k + extra) stack).1.
Proof.
  revert stack. induction k as [| k IH]; intros stack; [reflexivity |].
  cbn [dfs_drain Nat.add]. destruct (dfs_resume stack) as [[e stack'] |]; [| reflexivity].
  specialize (IH stack').
  destruct (dfs_drain k stack') as [out rest].
  destruct (dfs_drain (k + extra) stack') as [out' rest'].
  simpl in *. by rewrite IH.
Qed.

Lemma length_preorder (e : Element) : List.length (preorder_last_first e) = elem_size e.
Proof.
  induction e as [e IH] using Element_children_ind.
  destruct e as [p n a ns v kids]. simpl in *. f_equal.
  induction IH as [| x l Hx _ IHl]; [reflexivity |].
  simpl. rewrite concat_app, length_app. simpl. rewrite app_nil_r. lia.
Qed.

Lemma preorder_permutation (e : Element) :
  Permutation (preorder_last_first e) (subtree e).
Proof.
  induction e as [e IH] using Element_children_ind.
  destruct e as [p n a ns v kids]. simpl in *. constructor.
  induction IH as [| x l Hx _ IHl]; [reflexivity |].
  simpl. rewrite concat_app. simpl. rewrite app_nil_r.
  rewrite Permutation_app_comm. by apply Permutation_app.
Qed.

Lemma concat_elem_of_split {A} (l : list A) (ls : list (list A)) :
  l ∈ ls -> ∃ before after, List.concat ls = before ++ l ++ after.
Proof.
  induction 1 as [l ls | l l' ls _ [b [a IH]]]; simpl.
  - by exists [], (List.concat ls).
  - exists (l' ++ b), a. rewrite IH. by rewrite app_assoc.
Qed.

(** The walk of every element of the tree is one block of the walk of
    the root: an element comes right before its descendants, and they
    all come before anything else. *)
Lemma preorder_subtree_block (root e : Element) :
  e ∈ subtree root ->
  ∃ before after,
    preorder_last_first root = before ++ preorder_last_first e ++ after.
Proof.
  induction root as [root IH] using Element_children_ind.
  intros Hin.
  destruct root as [p n a ns v kids]. simpl in Hin.
  apply elem_of_cons in Hin as [-> | Hin].
  - exists [], []. by rewrite app_nil_r.
  - apply list_elem_of_In, in_flat_map in Hin as [kid [Hkid Hin]].
    simpl in IH. rewrite Forall_forall in IH.
    apply list_elem_of_In in Hkid, Hin.
    destruct (IH kid Hkid Hin) as [b [a' Hsplit]].
    assert (Hblock : preorder_last_first kid ∈ rev (map preorder_last_first kids)).
    { rewrite list_elem_of_In, <- in_rev, <- list_elem_of_In.
      by apply list_elem_of_fmap_2. }
    destruct (concat_elem_of_split _ _ Hblock) as [b' [a'' Hcat]].
    cbn [preorder_last_first element_children].
    exists (mkElement p n a ns v kids :: b' ++ b), (a' ++ a'').
    rewrite Hcat, Hsplit. simpl. f_equal.
    by rewrite <- !app_assoc.
Qed.

End Walker.

(** C6: the walker yields the root first and then every other element of
    the tree, each once, an element right before the block of its
    descendants (depth first, the children of a node taken from the last
    to the first).  It is lazy and finite: [k] resumptions yield the first
    [k] elements of the walk, and after as many resumptions as the tree
    has elements the work stack is empty and stays so.  A generator
    started again on the same root yields the same sequence. *)
Theorem dfs_walks_the_subtree (root : Element) :
  dfs root = preorder_last_first root
  ∧ head (dfs root) = Some root
  ∧ Permutation (dfs root) (subtree root)
  ∧ (∀ e, e ∈ subtree root ->
       ∃ before after, dfs root = before ++ dfs e ++ after)
  ∧ List.length (dfs root) = elem_size root
  ∧ (∀ k, (dfs_drain k (dfs_start root)).1 = take k (dfs root))
  ∧ (∀ extra, dfs_drain (elem_size root + extra) (dfs_start root) = (dfs root, []))
  ∧ dfs_resume [] = None.
Proof.
  assert (Hdrain : ∀ extra,
            dfs_drain (elem_size root + extra) (dfs_start root) = (dfs root, [])).
  { intros extra. rewrite dfs_preorder. unfold dfs_start.
    rewrite dfs_drain_enough by (unfold stack_size; simpl; lia).
    simpl. by rewrite app_nil_r. }
  repeat split.
  - apply dfs_preorder.
  - rewrite dfs_preorder. by destruct root.
  - rewrite dfs_preorder. apply preorder_permutation.
  - intros e He. rewrite !dfs_preorder. by apply preorder_subtree_block.
  - rewrite dfs_preorder. apply length_preorder.
  - intros k. destruct (decide (k <= elem_size root)) as [Hk | Hk].
    + rewrite (dfs_drain_prefix k (elem_size root - k)).
      replace (k + (elem_size root - k)) with (elem_size root + 0) by lia.
      by rewrite Hdrain.
    + replace k with (elem_size root + (k - elem_size root)) at 1 by lia.
      rewrite Hdrain. simpl. rewrite take_ge; [done |].
      rewrite dfs_preorder, length_preorder. lia.
  - apply Hdrain.
Qed.

(** On <xbrl><a><b/><c/></a><d/></xbrl>. *)
Example dfs_sample_order :
  local_name ∘ elem_name <$> dfs Sample.tree = ["xbrl"; "d"; "a"; "c"; "b"]
  ∧ local_name ∘ elem_name <$> subtree Sample.tree = ["xbrl"; "a"; "b"; "c"; "d"].
Proof. split; vm_compute; reflexivity. Qed.

Lemma dfs_walks_the_subtree_witness :
  ∃ before after,
    dfs Sample.tree = before ++ dfs (Sample.node "a" [Sample.leaf "b"; Sample.leaf "c"]) ++ after.
Proof.
  apply (proj1 (proj2 (proj2 (proj2 (dfs_walks_the_subtree Sample.tree))))).
  apply list_elem_of_In. simpl. auto.
Defined.

(* ===================================================================== *)
(** ** Scanning with a dict of first occurrences *)
(* ===================================================================== *)

Section FirstOccurrences.

Context `{Countable K} {A : Type} (key : A -> K).

Implicit Types (seen : gmap K A) (xs : list A) (k : K).

(** The pairs reported for one key: each element of the key's group
    after the first, with the first; or each element of the group, with
    the element the dict held already. *)
Lemma later_with_first_group seen xs k :
  filter (fun p => key p.1 = k) (later_with_first key seen xs)
  = match seen !! k with
    | Some y => (fun x => (x, y)) <$> filter (fun x => key x = k) xs
    | None =>
        match filter (fun x => key x = k) xs with
        | [] => []
        | first :: rest => (fun x => (x, first)) <$> rest
        end
    end.
Proof.
  revert seen. induction xs as [| x xs IH]; intros seen.
  - simpl. by destruct (seen !! k).
  - cbn [later_with_first]. destruct (seen !! key x) as [y |] eqn:Hx.
    + destruct (decide (key x = k)) as [<- | Hne].
      * rewrite filter_cons_True by done. rewrite IH, Hx.
        by rewrite filter_cons_True by done.
      * rewrite filter_cons_False by done. rewrite IH.
        by rewrite (filter_cons_False _ x xs) by done.
    + rewrite IH. destruct (decide (key x = k)) as [<- | Hne].
      * rewrite lookup_insert_eq, Hx. by rewrite filter_cons_True by done.
      * rewrite lookup_insert_ne by done.
        by rewrite (filter_cons_False _ x xs) by done.
Qed.

Lemma later_with_first_nodup seen xs :
  NoDup (key <$> xs) -> (∀ x, x ∈ xs -> seen !! key x = None) ->
  later_with_first key seen xs = [].
Proof.
  revert seen. induction xs as [| x xs IH]; intros seen Hnd Hseen; [done |].
  cbn [later_with_first]. rewrite Hseen by apply list_elem_of_here.
  rewrite fmap_cons in Hnd. apply NoDup_cons in Hnd as [Hx Hnd].
  apply IH; [done |]. intros x' Hx'.
  rewrite lookup_insert_ne.
  - apply Hseen. by apply list_elem_of_further.
  - intros Heq. apply Hx. rewrite Heq. by apply list_elem_of_fmap_2.
Qed.

Lemma later_with_first_subject seen xs p :
  p ∈ later_with_first key seen xs -> p.1 ∈ xs.
Proof.
  revert seen. induction xs as [| x xs IH]; intros seen; simpl.
  - by intros ?%elem_of_nil.
  - destruct (seen !! key x).
    + intros [-> | Hp]%elem_of_cons; [apply list_elem_of_here |].
      apply list_elem_of_further. by eapply IH.
    + intros Hp. apply list_elem_of_further. by eapply IH.
Qed.

(** The dict after the scan: what it held, and for every other key the
    first element of the key's group. *)
Lemma representatives_lookup seen xs k :
  representatives key seen xs !! k
  = match seen !! k with
    | Some y => Some y
    | None => head (filter (fun x => key x = k) xs)
    end.
Proof.
  revert seen. induction xs as [| x xs IH]; intros seen.
  - simpl. by destruct (seen !! k).
  - cbn [representatives]. destruct (seen !! key x) as [y |] eqn:Hx.
    + rewrite IH. destruct (seen !! k) eqn:Hk; [done |].
      rewrite filter_cons_False; [done |]. intros <-. congruence.
    + rewrite IH. destruct (decide (key x = k)) as [<- | Hne].
      * rewrite lookup_insert_eq, Hx. by rewrite filter_cons_True by done.
      * rewrite lookup_insert_ne by done.
        by rewrite (filter_cons_False _ x xs) by done.
Qed.

Lemma representatives_app seen xs ys :
  representatives key seen (xs ++ ys)
  = representatives key (representatives key seen xs) ys.
Proof.
  revert seen. induction xs as [| x xs IH]; intros seen; [done |].
  simpl. by destruct (seen !! key x).
Qed.

Lemma later_with_first_app seen xs ys :
  later_with_first key seen (xs ++ ys)
  = later_with_first key seen xs
    ++ later_with_first key (representatives key seen xs) ys.
Proof.
  revert seen. induction xs as [| x xs IH]; intros seen; [done |].
  simpl. destruct (seen !! key x); [| done]. by rewrite IH.
Qed.

(** An entry of the dict is never replaced. *)
Lemma representatives_kept seen xs k y :
  seen !! k = Some y -> representatives key seen xs !! k = Some y.
Proof. intros Hk. by rewrite representatives_lookup, Hk. Qed.

End FirstOccurrences.

Lemma filter_fmap_singleton {A B} `{EqDecision B} (g : A -> B) (l : list A) (x : A) :
  NoDup (g <$> l) -> x ∈ l -> filter (fun y => g y = g x) l = [x].
Proof.
  induction l as [| a l IH]; intros Hnd Hin; [by apply elem_of_nil in Hin |].
  rewrite fmap_cons in Hnd. apply NoDup_cons in Hnd as [Ha Hnd].
  apply elem_of_cons in Hin as [-> | Hin].
  - rewrite filter_cons_True by done. f_equal.
    apply elem_of_nil_inv. intros y [Hy Hyl]%list_elem_of_filter.
    apply Ha. rewrite <- Hy. by apply list_elem_of_fmap_2.
  - rewrite filter_cons_False; [by apply IH |].
    intros Heq. apply Ha. rewrite Heq. by apply list_elem_of_fmap_2.
Qed.

Lemma NoDup_fmap_filter {A B} (g : A -> B) (P : A -> Prop) `{∀ x, Decision (P x)}
    (l : list A) :
  NoDup (g <$> l) -> NoDup (g <$> filter P l).
Proof.
  induction l as [| a l IH]; [done |].
  rewrite fmap_cons. intros [Ha Hnd]%NoDup_cons.
  destruct (decide (P a)).
  - rewrite filter_cons_True by done. rewrite fmap_cons. apply NoDup_cons.
    split; [| by apply IH].
    intros [y [Hy [_ Hyl]%list_elem_of_filter]]%list_elem_of_fmap.
    apply Ha. rewrite Hy. by apply list_elem_of_fmap_2.
  - rewrite filter_cons_False by done. by apply IH.
Qed.

(* ===================================================================== *)
(** ** Duplicated contexts and units *)
(* ===================================================================== *)

(** What a sequence reports on the empty log, from what its parts report. *)
Lemma bind_run {A B} (m : Rule A) (k : A -> Rule B) :
  (∀ a, appends_only (k a)) ->
  Py.bind m k []
  = match (m []).2 with
    | Py.Normal a => ((m []).1 ++ (k a []).1, (k a []).2)
    | Py.Raised e => ((m []).1, Py.Raised e)
    end.
Proof.
  intros Hk. unfold Py.bind. destruct (m []) as [F [a | e]]; simpl; [| done].
  by rewrite (Hk a F).
Qed.

Section DuplicateContexts.

Variable instance : Instance.

Let CS := ConstraintSet_of_context.
Let listed (seen : gmap ContextConstraintSet Context)
  : gmap ContextConstraintSet (list Context) := (fun y => [y]) <$> seen.

Lemma eba_2_7_body_appends_only x m : appends_only (eba_2_7_body instance x m).
Proof. unfold eba_2_7_body. appends_only. Qed.

(** One turn of the loop, the dict holding the first context of every
    constraint set met so far. *)
Lemma eba_2_7_body_run x seen :
  (eba_2_7_body instance x (listed seen) []).2
  = Py.Normal (listed (representatives CS seen [x]))
  ∧ omap duplicate_context_of (eba_2_7_body instance x (listed seen) []).1
    = later_with_first CS seen [x].
Proof.
  unfold eba_2_7_body, Py.bind, Py.when, Py.setdefault, report, Py.ret, listed.
  rewrite lookup_fmap. cbn [representatives later_with_first]. fold CS.
  destruct (bool_decide _); destruct (seen !! CS x) as [y |]; simpl;
    (split; [| done]); try done;
    by rewrite insert_insert_eq, fmap_insert.
Qed.

Lemma eba_2_7_loop_run xs seen :
  (Py.for_each xs (eba_2_7_body instance) (listed seen) []).2
  = Py.Normal (listed (representatives CS seen xs))
  ∧ omap duplicate_context_of
      (Py.for_each xs (eba_2_7_body instance) (listed seen) []).1
    = later_with_first CS seen xs.
Proof.
  revert seen. induction xs as [| x xs IH]; intros seen; [done |].
  cbn [Py.for_each].
  rewrite bind_run
    by (intros; apply appends_only_for_each; intros; apply eba_2_7_body_appends_only).
  destruct (eba_2_7_body_run x seen) as [Hout Hdup]. rewrite Hout.
  destruct (IH (representatives CS seen [x])) as [Hout' Hdup'].
  change (x :: xs) with ([x] ++ xs).
  rewrite representatives_app, later_with_first_app.
  cbn [fst snd]. by rewrite omap_app, Hdup, Hdup', Hout'.
Qed.

Lemma eba_2_7_duplicates :
  (eba_2_7 instance []).2 = Py.Normal ()
  ∧ omap duplicate_context_of (findings (eba_2_7 instance))
    = later_with_first CS ∅ (contexts instance).
Proof.
  unfold findings, eba_2_7.
  rewrite bind_run by (intros; apply appends_only_ret).
  destruct (eba_2_7_loop_run (contexts instance) ∅) as [Hout Hdup].
  unfold listed in Hout, Hdup. rewrite fmap_empty in Hout, Hdup.
  rewrite Hout. cbn [fst snd Py.ret]. by rewrite app_nil_r.
Qed.

End DuplicateContexts.

Section DuplicateUnits.

Let US := ConstraintSet_of_unit.
Let listed (seen : gmap UnitConstraintSet Unit)
  : gmap UnitConstraintSet (list Unit) := (fun y => [y]) <$> seen.

Lemma eba_2_21_body_appends_only x m : appends_only (eba_2_21_body x m).
Proof. unfold eba_2_21_body. appends_only. Qed.

Lemma eba_2_21_body_run x seen :
  (eba_2_21_body x (listed seen) []).2
  = Py.Normal (listed (representatives US seen [x]))
  ∧ omap duplicate_unit_of (eba_2_21_body x (listed seen) []).1
    = later_with_first US seen [x].
Proof.
  unfold eba_2_21_body, Py.bind, Py.setdefault, report, Py.ret, listed.
  rewrite lookup_fmap. cbn [representatives later_with_first]. fold US.
  destruct (seen !! US x) as [y |]; simpl; (split; [| done]); try done.
  by rewrite insert_insert_eq, fmap_insert.
Qed.

Lemma eba_2_21_loop_run xs seen :
  (Py.for_each xs eba_2_21_body (listed seen) []).2
  = Py.Normal (listed (representatives US seen xs))
  ∧ omap duplicate_unit_of (Py.for_each xs eba_2_21_body (listed seen) []).1
    = later_with_first US seen xs.
Proof.
  revert seen. induction xs as [| x xs IH]; intros seen; [done |].
  cbn [Py.for_each].
  rewrite bind_run
    by (intros; apply appends_only_for_each; intros; apply eba_2_21_body_appends_only).
  destruct (eba_2_21_body_run x seen) as [Hout Hdup]. rewrite Hout.
  destruct (IH (representatives US seen [x])) as [Hout' Hdup'].
  change (x :: xs) with ([x] ++ xs).
  rewrite representatives_app, later_with_first_app.
  cbn [fst snd]. by rewrite omap_app, Hdup, Hdup', Hout'.
Qed.

Lemma eba_2_21_duplicates instance :
  (eba_2_21 instance []).2 = Py.Normal ()
  ∧ omap duplicate_unit_of (findings (eba_2_21 instance))
    = later_with_first US ∅ (units instance).
Proof.
  unfold findings, eba_2_21.
  rewrite bind_run by (intros; apply appends_only_ret).
  destruct (eba_2_21_loop_run (units instance) ∅) as [Hout Hdup].
  unfold listed in Hout, Hdup. rewrite fmap_empty in Hout, Hdup.
  rewrite Hout. cbn [fst snd Py.ret]. by rewrite app_nil_r.
Qed.

End DuplicateUnits.

(** C1: [eba_2_7] reports no duplicated context when the constraint sets
    of the contexts are pairwise different; and of the contexts that share
    a constraint set, N of them, it reports the N-1 that follow the first
    in document order, each as a duplicate of that first one.  [eba_2_21]
    does the same with the units. *)
Theorem duplicates_cite_the_first instance :
  let dup_contexts := omap duplicate_context_of (findings (eba_2_7 instance)) in
  let dup_units := omap duplicate_unit_of (findings (eba_2_21 instance)) in
  (NoDup (ConstraintSet_of_context <$> contexts instance) -> dup_contexts = [])
  ∧ (∀ s first rest,
       filter (fun c => ConstraintSet_of_context c = s) (contexts instance) = first :: rest ->
       filter (fun p => ConstraintSet_of_context p.1 = s) dup_contexts
       = (fun c => (c, first)) <$> rest
       ∧ List.length (filter (fun p => ConstraintSet_of_context p.1 = s) dup_contexts)
         = List.length (first :: rest) - 1)
  ∧ (NoDup (ConstraintSet_of_unit <$> units instance) -> dup_units = [])
  ∧ (∀ s first rest,
       filter (fun u => ConstraintSet_of_unit u = s) (units instance) = first :: rest ->
       filter (fun p => ConstraintSet_of_unit p.1 = s) dup_units
       = (fun u => (u, first)) <$> rest
       ∧ List.length (filter (fun p => ConstraintSet_of_unit p.1 = s) dup_units)
         = List.length (first :: rest) - 1).
Proof.
  intros dup_contexts dup_units. subst dup_contexts dup_units.
  destruct (eba_2_7_duplicates instance) as [_ ->].
  destruct (eba_2_21_duplicates instance) as [_ ->].
  split; [intros Hnd; by apply later_with_first_nodup |].
  split.
  { intros s first rest Hgroup.
    rewrite later_with_first_group, lookup_empty, Hgroup.
    split; [done |]. rewrite length_fmap. simpl. lia. }
  split; [intros Hnd; by apply later_with_first_nodup |].
  intros s first rest Hgroup.
  rewrite later_with_first_group, lookup_empty, Hgroup.
  split; [done |]. rewrite length_fmap. simpl. lia.
Qed.

(** The sample filing: contexts c1, c2 and c4 share a constraint set, and
    so do the units EUR and EUR2. *)
Example sample_duplicates :
  (fun p => (context_id p.1, context_id p.2))
    <$> omap duplicate_context_of (findings (eba_2_7 Sample.filing))
  = [("c2", "c1"); ("c4", "c1")]
  ∧ (fun p => (unit_id p.1, unit_id p.2))
      <$> omap duplicate_unit_of (findings (eba_2_21 Sample.filing))
    = [("EUR2", "EUR")].
Proof. split; vm_compute; reflexivity. Qed.

Lemma duplicates_cite_the_first_witness :
  filter (fun p => ConstraintSet_of_context p.1 = ConstraintSet_of_context Sample.c1)
    (omap duplicate_context_of (findings (eba_2_7 Sample.filing)))
  = [(Sample.c2, Sample.c1); (Sample.c4, Sample.c1)].
Proof.
  apply (proj1 (proj1 (proj2 (duplicates_cite_the_first Sample.filing))
                  (ConstraintSet_of_context Sample.c1) Sample.c1 [Sample.c2; Sample.c4]
                  ltac:(vm_compute; reflexivity))).
Defined.

(* ===================================================================== *)
(** ** Duplicated facts *)
(* ===================================================================== *)

Section ListFacts.

Context {A B : Type}.

Lemma filter_fmap_comm (g : A -> B) (P : B -> Prop) `{∀ y, Decision (P y)} (l : list A) :
  filter P (g <$> l) = g <$> filter (fun x => P (g x)) l.
Proof.
  induction l as [| a l IH]; [done |].
  rewrite fmap_cons. destruct (decide (P (g a))).
  - rewrite !filter_cons_True by done. by rewrite fmap_cons, IH.
  - by rewrite !filter_cons_False by done.
Qed.

Lemma filter_flat_map (g : A -> list B) (P : B -> Prop) `{∀ y, Decision (P y)} (l : list A) :
  filter P (flat_map g l) = flat_map (fun x => filter P (g x)) l.
Proof.
  induction l as [| a l IH]; [done |]. simpl. by rewrite filter_app, IH.
Qed.

Lemma omap_flat_map {C} (f : B -> option C) (g : A -> list B) (l : list A) :
  omap f (flat_map g l) = flat_map (fun x => omap f (g x)) l.
Proof.
  induction l as [| a l IH]; [done |]. simpl. by rewrite omap_app, IH.
Qed.

Lemma flat_map_nil (g : A -> list B) (l : list A) :
  (∀ x, x ∈ l -> g x = []) -> flat_map g l = [].
Proof.
  induction l as [| a l IH]; intros Hg; [done |]. simpl.
  rewrite Hg by apply list_elem_of_here. simpl.
  apply IH. intros x Hx. apply Hg. by apply list_elem_of_further.
Qed.

(** Of a list without repetition, only [c] contributes. *)
Lemma flat_map_only (g : A -> list B) (l : list A) (c : A) :
  NoDup l -> c ∈ l -> (∀ x, x ∈ l -> x ≠ c -> g x = []) -> flat_map g l = g c.
Proof.
  induction l as [| a l IH]; intros Hnd Hc Hg; [by apply elem_of_nil in Hc |].
  apply NoDup_cons in Hnd as [Ha Hnd]. simpl.
  apply elem_of_cons in Hc as [-> | Hc].
  - rewrite flat_map_nil; [by rewrite app_nil_r |].
    intros x Hx. apply Hg; [by apply list_elem_of_further |].
    intros ->. contradiction.
  - rewrite (Hg a); [| apply list_elem_of_here | intros ->; contradiction].
    simpl. apply IH; [done | done |].
    intros x Hx. apply Hg. by apply list_elem_of_further.
Qed.

End ListFacts.

(** A loop whose turns all end normally reports what its turns report. *)
Lemma for__run {A} (xs : list A) (body : A -> Rule ()) :
  (∀ x, appends_only (body x)) ->
  (∀ x, x ∈ xs -> (body x []).2 = Py.Normal ()) ->
  Py.for_ xs body [] = (flat_map (fun x => (body x []).1) xs, Py.Normal ()).
Proof.
  intros Happ. unfold Py.for_.
  induction xs as [| x xs IH]; intros Hnormal; [done |].
  cbn [Py.for_each].
  rewrite bind_run by (intros; apply appends_only_for_each; intros; apply Happ).
  rewrite Hnormal by apply list_elem_of_here.
  rewrite IH by (intros; apply Hnormal; by apply list_elem_of_further).
  reflexivity.
Qed.

Section ConceptAspectValues.

Lemma concept_aspect_values_from_spec seen fs c :
  c ∈ concept_aspect_values_from seen fs
  ↔ (c ∉ seen) ∧ ∃ f, f ∈ fs ∧ concept f = c.
Proof.
  revert seen. induction fs as [| f fs IH]; intros seen; simpl.
  - split; [by intros ?%elem_of_nil |]. by intros [_ [f [?%elem_of_nil _]]].
  - destruct (decide (concept f ∈ seen)) as [Hin | Hnin].
    + rewrite IH. split.
      * intros [Hc [g [Hg Hgc]]]. split; [done |].
        exists g. split; [by apply list_elem_of_further | done].
      * intros [Hc [g [Hg Hgc]]]. split; [done |].
        apply elem_of_cons in Hg as [-> | Hg]; [congruence |]. by exists g.
    + rewrite elem_of_cons, IH. split.
      * intros [-> | [Hc [g [Hg Hgc]]]].
        -- split; [done |]. exists f. split; [apply list_elem_of_here | done].
        -- split; [intros ?; by apply Hc, list_elem_of_further |].
           exists g. split; [by apply list_elem_of_further | done].
      * intros [Hc [g [Hg Hgc]]].
        destruct (decide (c = concept f)) as [-> | Hne]; [by left |].
        right. split.
        -- intros [-> | ?]%elem_of_cons; [done | done].
        -- apply elem_of_cons in Hg as [-> | Hg]; [congruence |]. by exists g.
Qed.

Lemma concept_aspect_values_from_NoDup seen fs :
  NoDup (concept_aspect_values_from seen fs).
Proof.
  revert seen. induction fs as [| f fs IH]; intros seen; simpl; [constructor |].
  destruct (decide (concept f ∈ seen)); [apply IH |].
  apply NoDup_cons. split; [| apply IH].
  rewrite concept_aspect_values_from_spec. intros [Hc _].
  apply Hc, list_elem_of_here.
Qed.

Lemma concept_aspect_values_spec fs c :
  c ∈ concept_aspect_values fs ↔ ∃ f, f ∈ fs ∧ concept f = c.
Proof.
  unfold concept_aspect_values. rewrite concept_aspect_values_from_spec.
  split; [by intros [_ ?] |]. intros Hf. split; [apply not_elem_of_nil | done].
Qed.

End ConceptAspectValues.

Section DuplicateFacts.

Lemma eba_2_16_body_appends_only fact m : appends_only (eba_2_16_body fact m).
Proof. unfold eba_2_16_body. appends_only. Qed.

(** The dict after one turn, whatever the facts are. *)
Lemma eba_2_16_body_dict fact seen :
  (eba_2_16_body fact seen []).2 = Py.Normal (representatives fact_key seen [fact]).
Proof.
  unfold eba_2_16_body, Py.setdefault, Py.bind, Py.when.
  cbn [representatives].
  destruct (seen !! fact_key fact) as [g |] eqn:Hk.
  - destruct (negb (fact_eqb g fact)); [| done].
    rewrite Hk. by destruct (bool_decide _).
  - unfold fact_eqb. by rewrite bool_decide_eq_true_2.
Qed.

(** One turn on a fact that is none of the facts in the dict. *)
Lemma eba_2_16_body_run fact seen :
  (∀ k g, seen !! k = Some g -> fact_oid g ≠ fact_oid fact) ->
  omap fact_finding_of (eba_2_16_body fact seen []).1
  = fact_pair <$> later_with_first fact_key seen [fact]
  ∧ List.length (eba_2_16_body fact seen []).1
    = List.length (later_with_first fact_key seen [fact]).
Proof.
  intros Hother.
  unfold eba_2_16_body, Py.setdefault, Py.bind, Py.when.
  cbn [later_with_first].
  destruct (seen !! fact_key fact) as [g |] eqn:Hk.
  - unfold fact_eqb. rewrite bool_decide_eq_false_2 by eauto.
    cbn [negb]. rewrite Hk.
    unfold fact_pair, compare_units. cbn [fst snd fmap list_fmap].
    destruct (decide (unit_ref (fact_unit fact) = unit_ref (fact_unit g))) as [Hu | Hu].
    + by rewrite bool_decide_eq_true_2.
    + by rewrite bool_decide_eq_false_2.
  - unfold fact_eqb. by rewrite bool_decide_eq_true_2.
Qed.

Lemma eba_2_16_loop_dict xs seen :
  (Py.for_each xs eba_2_16_body seen []).2
  = Py.Normal (representatives fact_key seen xs).
Proof.
  revert seen. induction xs as [| x xs IH]; intros seen; [done |].
  cbn [Py.for_each].
  rewrite bind_run
    by (intros; apply appends_only_for_each; intros; apply eba_2_16_body_appends_only).
  rewrite eba_2_16_body_dict. cbn [snd]. rewrite IH.
  change (x :: xs) with ([x] ++ xs). by rewrite representatives_app.
Qed.

Lemma representatives_elem_of (seen : gmap (string * option string) Fact) xs k g :
  representatives fact_key seen xs !! k = Some g ->
  seen !! k = Some g ∨ g ∈ xs.
Proof.
  rewrite representatives_lookup. destruct (seen !! k); [by left |].
  intros Hhead. right. apply head_Some_elem_of in Hhead.
  by apply list_elem_of_filter in Hhead as [_ ?].
Qed.

Lemma eba_2_16_loop_run xs seen :
  NoDup (fact_oid <$> xs) ->
  (∀ k g, seen !! k = Some g -> fact_oid g ∉ fact_oid <$> xs) ->
  omap fact_finding_of (Py.for_each xs eba_2_16_body seen []).1
  = fact_pair <$> later_with_first fact_key seen xs
  ∧ List.length (Py.for_each xs eba_2_16_body seen []).1
    = List.length (later_with_first fact_key seen xs).
Proof.
  revert seen. induction xs as [| x xs IH]; intros seen Hnd Hseen; [done |].
  rewrite fmap_cons in Hnd, Hseen. apply NoDup_cons in Hnd as [Hx Hnd].
  cbn [Py.for_each].
  rewrite bind_run
    by (intros; apply appends_only_for_each; intros; apply eba_2_16_body_appends_only).
  rewrite eba_2_16_body_dict.
  destruct (eba_2_16_body_run x seen) as [Hfind Hlen].
  { intros k g Hg Heq. apply (Hseen k g Hg). rewrite Heq. apply list_elem_of_here. }
  destruct (IH (representatives fact_key seen [x]) Hnd) as [Hfind' Hlen'].
  { intros k g [Hg | Hg]%representatives_elem_of.
    - intros Hin. apply (Hseen k g Hg). by apply list_elem_of_further.
    - apply list_elem_of_singleton in Hg as ->. done. }
  change (x :: xs) with ([x] ++ xs). rewrite later_with_first_app.
  cbn [fst snd]. rewrite omap_app, fmap_app, !length_app.
  by rewrite Hfind, Hfind', Hlen, Hlen'.
Qed.

End DuplicateFacts.

Section ListFilters.

Context {A : Type}.

Lemma filter_ext_elem_of (P Q : A -> Prop) `{∀ x, Decision (P x)} `{∀ x, Decision (Q x)}
    (l : list A) :
  (∀ x, x ∈ l -> P x ↔ Q x) -> filter P l = filter Q l.
Proof.
  induction l as [| a l IH]; intros Hiff; [done |].
  assert (Htail : filter P l = filter Q l).
  { apply IH. intros x Hx. apply Hiff. by apply list_elem_of_further. }
  destruct (decide (P a)) as [Ha | Ha].
  - rewrite !filter_cons_True; [by rewrite Htail | | done].
    by apply (Hiff a (list_elem_of_here _ _)).
  - rewrite !filter_cons_False; [done | | done].
    intros Hq. by apply Ha, (Hiff a (list_elem_of_here _ _)).
Qed.

Lemma filter_all (P : A -> Prop) `{∀ x, Decision (P x)} (l : list A) :
  (∀ x, x ∈ l -> P x) -> filter P l = l.
Proof.
  induction l as [| a l IH]; intros Hall; [done |].
  rewrite filter_cons_True by apply Hall, list_elem_of_here.
  f_equal. apply IH. intros x Hx. by apply Hall, list_elem_of_further.
Qed.

Lemma filter_none (P : A -> Prop) `{∀ x, Decision (P x)} (l : list A) :
  (∀ x, x ∈ l -> ¬ P x) -> filter P l = [].
Proof.
  intros Hnone. apply elem_of_nil_inv.
  intros x [Hp Hx]%list_elem_of_filter. by apply (Hnone x).
Qed.

Lemma NoDup_fmap_eq {B} (g : A -> B) (l : list A) (x y : A) :
  NoDup (g <$> l) -> x ∈ l -> y ∈ l -> g x = g y -> x = y.
Proof.
  induction l as [| a l IH]; intros Hnd Hx Hy Heq; [by apply elem_of_nil in Hx |].
  rewrite fmap_cons in Hnd. apply NoDup_cons in Hnd as [Ha Hnd].
  apply elem_of_cons in Hx as [-> | Hx]; apply elem_of_cons in Hy as [-> | Hy].
  - done.
  - exfalso. apply Ha. rewrite Heq. by apply list_elem_of_fmap_2.
  - exfalso. apply Ha. rewrite <- Heq. by apply list_elem_of_fmap_2.
  - by apply IH.
Qed.

End ListFilters.

Section DuplicateFactsOfAnInstance.

Variable instance : Instance.
Hypothesis distinct : NoDup (fact_oid <$> facts instance).

Let turn (c : Concept) : Rule () :=
  Py.when (eba_2_16_checked c)
    (Py.for_each (filter_concept (facts instance) c) eba_2_16_body ∅ ;;; Py.ret ()).
Let reported := omap fact_finding_of (findings (eba_2_16 instance)).

Lemma eba_2_16_turn_appends_only c : appends_only (turn c).
Proof. unfold turn, eba_2_16_body. appends_only. Qed.

Lemma eba_2_16_turn_run c :
  (turn c []).2 = Py.Normal ()
  ∧ omap fact_finding_of (turn c []).1 = fact_pairs instance c
  ∧ List.length (turn c []).1 = List.length (fact_pairs instance c).
Proof.
  unfold turn, fact_pairs, Py.when.
  destruct (eba_2_16_checked c); [| done].
  rewrite bind_run by (intros; apply appends_only_ret).
  rewrite eba_2_16_loop_dict. cbn [fst snd Py.ret]. rewrite app_nil_r.
  destruct (eba_2_16_loop_run (filter_concept (facts instance) c) ∅) as [Hfind Hlen].
  - by apply NoDup_fmap_filter.
  - intros k g Hg. by rewrite lookup_empty in Hg.
  - by rewrite Hfind, Hlen, length_fmap.
Qed.

Lemma eba_2_16_run :
  eba_2_16 instance []
  = (flat_map (fun c => (turn c []).1) (concept_aspect_values (facts instance)),
     Py.Normal ()).
Proof.
  unfold eba_2_16. apply for__run.
  - apply eba_2_16_turn_appends_only.
  - intros c _. apply eba_2_16_turn_run.
Qed.

Lemma eba_2_16_reported :
  reported = flat_map (fact_pairs instance) (concept_aspect_values (facts instance)).
Proof.
  unfold reported, findings. rewrite eba_2_16_run. cbn [fst].
  rewrite omap_flat_map. apply flat_map_ext. intros c. apply eba_2_16_turn_run.
Qed.

Lemma eba_2_16_all_read :
  List.length reported = List.length (findings (eba_2_16 instance)).
Proof.
  rewrite eba_2_16_reported. unfold findings. rewrite eba_2_16_run. cbn [fst].
  induction (concept_aspect_values (facts instance)) as [| c cs IH]; [done |].
  simpl. rewrite !length_app, IH. f_equal. symmetry. apply eba_2_16_turn_run.
Qed.

(** Every fact reported for a concept is a fact of that concept. *)
Lemma fact_pairs_subject c r :
  r ∈ fact_pairs instance c -> r.1.2 ∈ facts instance ∧ concept r.1.2 = c.
Proof.
  unfold fact_pairs. destruct (eba_2_16_checked c); [| by intros ?%elem_of_nil].
  intros [p [-> Hp]]%list_elem_of_fmap.
  apply later_with_first_subject in Hp.
  apply list_elem_of_filter in Hp as [Hc Hp]. by simpl.
Qed.

Lemma reported_subject r :
  r ∈ reported -> r.1.2 ∈ facts instance.
Proof.
  rewrite eba_2_16_reported, list_elem_of_In, in_flat_map.
  intros [c [_ Hr]]. apply list_elem_of_In in Hr.
  by apply fact_pairs_subject in Hr as [? _].
Qed.

Section Group.

Variables (c : Concept) (key : string * option string) (first : Fact) (rest : list Fact).
Hypothesis items : Forall (fun f => is_item (concept f) = true) (facts instance).
Hypothesis not_indicator : ¬ is_filing_indicator c.
Hypothesis group : fact_group instance c key = first :: rest.

Lemma group_member f :
  f ∈ first :: rest -> f ∈ facts instance ∧ concept f = c ∧ fact_key f = key.
Proof.
  rewrite <- group. unfold fact_group, filter_concept.
  intros [Hk [Hc Hf]%list_elem_of_filter]%list_elem_of_filter. done.
Qed.

Lemma group_distinct : NoDup (fact_oid <$> first :: rest).
Proof.
  rewrite <- group. unfold fact_group, filter_concept.
  by do 2 apply NoDup_fmap_filter.
Qed.

Lemma group_checked : eba_2_16_checked c = true.
Proof.
  destruct (group_member first (list_elem_of_here _ _)) as [Hf [Hc _]].
  rewrite Forall_forall in items. apply items in Hf.
  unfold eba_2_16_checked. rewrite <- Hc at 1. rewrite Hf. simpl.
  destruct (decide (concept_target_namespace c = filing_indicators_ns)) as [Hns | Hns].
  - rewrite (bool_decide_eq_true_2 (concept_name c ≠ _)); [apply orb_true_r |].
    intros Hname. by apply not_indicator.
  - by rewrite bool_decide_eq_true_2.
Qed.

(** The findings about the facts of the group, in document order. *)
Lemma eba_2_16_group :
  filter (fun r => concept r.1.2 = c ∧ fact_key r.1.2 = key) reported
  = (fun f => (compare_units first f, f, first)) <$> rest.
Proof.
  rewrite eba_2_16_reported, filter_flat_map.
  rewrite (flat_map_only _ _ c).
  - unfold fact_pairs. rewrite group_checked.
    rewrite <- list_filter_filter.
    rewrite filter_fmap_comm. unfold fact_pair. cbn [fst snd].
    rewrite later_with_first_group, lookup_empty.
    fold (filter_concept (facts instance) c).
    change (filter (fun x => fact_key x = key) (filter_concept (facts instance) c))
      with (fact_group instance c key).
    rewrite group, <- list_fmap_compose.
    rewrite filter_all; [done |].
    intros r [f [-> Hf]]%list_elem_of_fmap. simpl.
    apply group_member. by apply list_elem_of_further.
  - apply concept_aspect_values_from_NoDup.
  - apply concept_aspect_values_spec.
    destruct (group_member first (list_elem_of_here _ _)) as [Hf [Hc _]].
    by exists first.
  - intros c' _ Hne. apply filter_none.
    intros r Hr [Hc _]. apply fact_pairs_subject in Hr as [_ Hc']. congruence.
Qed.

(** A finding about a fact of the group is one of the findings of the
    group. *)
Lemma eba_2_16_about f :
  f ∈ first :: rest ->
  filter (fun r => fact_oid r.1.2 = fact_oid f) reported
  = filter (fun r => fact_oid r.1.2 = fact_oid f)
      ((fun f => (compare_units first f, f, first)) <$> rest).
Proof.
  intros Hf. rewrite <- eba_2_16_group, list_filter_filter.
  apply filter_ext_elem_of. intros r Hr. split; [| by intros [? _]].
  intros Hoid. split; [done |].
  destruct (group_member f Hf) as [Hfacts [Hc Hk]].
  assert (r.1.2 = f) as ->; [| done].
  apply (NoDup_fmap_eq fact_oid (facts instance)); try done.
  by apply reported_subject.
Qed.

(** Exactly one finding about each fact after the first. *)
Lemma eba_2_16_later_fact f :
  f ∈ rest ->
  filter (fun r => fact_oid r.1.2 = fact_oid f) reported
  = [(compare_units first f, f, first)].
Proof.
  intros Hf. rewrite eba_2_16_about by (by apply list_elem_of_further).
  rewrite filter_fmap_comm. cbn [fst snd].
  rewrite (filter_fmap_singleton fact_oid rest f); [done | | done].
  pose proof group_distinct as Hnd. rewrite fmap_cons in Hnd.
  by apply NoDup_cons in Hnd as [_ ?].
Qed.

(** No finding about the first fact. *)
Lemma eba_2_16_first_fact :
  filter (fun r => fact_oid r.1.2 = fact_oid first) reported = [].
Proof.
  rewrite eba_2_16_about by apply list_elem_of_here.
  rewrite filter_fmap_comm. cbn [fst snd].
  rewrite filter_none; [done |].
  intros f Hf Heq. pose proof group_distinct as Hnd.
  rewrite fmap_cons in Hnd. apply NoDup_cons in Hnd as [Hfirst _].
  apply Hfirst. rewrite <- Heq. by apply list_elem_of_fmap_2.
Qed.

End Group.

End DuplicateFactsOfAnInstance.

(** C2: take a concept other than the filing indicator and the facts of
    that concept with one context and one language, in document order.
    [eba_2_16] ends normally, each of its findings is an EBA.2.16 or an
    EBA.2.16.1 finding, and of those about the facts of the group there is
    exactly one per fact after the first, none about the first: EBA.2.16
    when the fact has the unit of the fact it is compared with, EBA.2.16.1
    when it has another. *)
Theorem eba_2_16_one_finding_per_later_fact instance c key first rest :
  valid_facts instance ->
  ¬ is_filing_indicator c ->
  fact_group instance c key = first :: rest ->
  let reported := omap fact_finding_of (findings (eba_2_16 instance)) in
  (eba_2_16 instance []).2 = Py.Normal ()
  ∧ List.length reported = List.length (findings (eba_2_16 instance))
  ∧ filter (fun r => concept r.1.2 = c ∧ fact_key r.1.2 = key) reported
    = (fun f => (compare_units first f, f, first)) <$> rest
  ∧ (∀ f, f ∈ rest ->
       filter (fun r => fact_oid r.1.2 = fact_oid f) reported
       = [(compare_units first f, f, first)])
  ∧ filter (fun r => fact_oid r.1.2 = fact_oid first) reported = [].
Proof.
  intros [Hdistinct Hitems] Hc Hgroup reported. subst reported.
  split; [by rewrite eba_2_16_run |].
  split; [by apply eba_2_16_all_read |].
  split; [by apply eba_2_16_group |].
  split; [intros f Hf; by eapply eba_2_16_later_fact |].
  by eapply eba_2_16_first_fact.
Qed.

(** The sample filing: five facts of one concept, four of them in context
    c1 with units EUR, USD, USD, EUR. *)
Example sample_duplicate_facts :
  (fun r => (r.1.1, fact_oid r.1.2, fact_oid r.2))
    <$> omap fact_finding_of (findings (eba_2_16 Sample.filing))
  = [(MultiUnitFact, 2, 1); (MultiUnitFact, 3, 1); (DuplicateFact, 5, 1)].
Proof. vm_compute. reflexivity. Qed.

Lemma sample_filing_valid : valid_facts Sample.filing.
Proof.
  split.
  - apply (bool_decide_unpack _). vm_compute. reflexivity.
  - apply (bool_decide_unpack _). vm_compute. reflexivity.
Defined.

Lemma sample_concept_not_indicator : ¬ is_filing_indicator Sample.mi53.
Proof. intros [Hns _]. vm_compute in Hns. discriminate Hns. Defined.

Lemma eba_2_16_one_finding_per_later_fact_witness :
  filter (fun r => concept r.1.2 = Sample.mi53 ∧ fact_key r.1.2 = ("c1", None))
    (omap fact_finding_of (findings (eba_2_16 Sample.filing)))
  = [(MultiUnitFact, Sample.f2, Sample.f1);
     (MultiUnitFact, Sample.f3, Sample.f1);
     (DuplicateFact, Sample.f5, Sample.f1)].
Proof.
  apply (proj1 (proj2 (proj2
    (eba_2_16_one_finding_per_later_fact Sample.filing Sample.mi53 ("c1", None)
       Sample.f1 [Sample.f2; Sample.f3; Sample.f5]
       sample_filing_valid sample_concept_not_indicator
       ltac:(vm_compute; reflexivity))))).
Defined.

(** C10: the dict of [eba_2_16] holds, for every context and language,
    the first of the facts met so far, and an entry is never replaced by a
    later fact.  So when the third fact of a group has the unit of the
    second and not the unit of the first, the one finding about it is an
    EBA.2.16.1 finding that pairs it with the first. *)
Theorem eba_2_16_compares_with_the_first :
  (∀ met more : list Fact,
     ∃ dict dict',
       (Py.for_each met eba_2_16_body ∅ []).2 = Py.Normal dict
       ∧ (Py.for_each (met ++ more) eba_2_16_body ∅ []).2 = Py.Normal dict'
       ∧ (∀ key, dict !! key = head (filter (fun f => fact_key f = key) met))
       ∧ (∀ key f, dict !! key = Some f -> dict' !! key = Some f))
  ∧ (∀ instance c key f1 f2 f3 rest,
       valid_facts instance ->
       ¬ is_filing_indicator c ->
       fact_group instance c key = f1 :: f2 :: f3 :: rest ->
       unit_ref (fact_unit f3) = unit_ref (fact_unit f2) ->
       unit_ref (fact_unit f3) ≠ unit_ref (fact_unit f1) ->
       filter (fun r => fact_oid r.1.2 = fact_oid f3)
         (omap fact_finding_of (findings (eba_2_16 instance)))
       = [(MultiUnitFact, f3, f1)]).
Proof.
  split.
  - intros met more.
    exists (representatives fact_key ∅ met), (representatives fact_key ∅ (met ++ more)).
    rewrite !eba_2_16_loop_dict. repeat split.
    + intros key. by rewrite representatives_lookup, lookup_empty.
    + intros key f Hf. rewrite representatives_app.
      by apply representatives_kept.
  - intros instance c key f1 f2 f3 rest [Hdistinct Hitems] Hc Hgroup _ Hunits.
    rewrite (eba_2_16_later_fact instance Hdistinct c key f1 (f2 :: f3 :: rest)
               Hitems Hc Hgroup f3).
    + unfold compare_units. by rewrite decide_False.
    + apply list_elem_of_further, list_elem_of_here.
Qed.

Lemma eba_2_16_compares_with_the_first_witness :
  filter (fun r => fact_oid r.1.2 = fact_oid Sample.f3)
    (omap fact_finding_of (findings (eba_2_16 Sample.filing)))
  = [(MultiUnitFact, Sample.f3, Sample.f1)].
Proof.
  apply (proj2 eba_2_16_compares_with_the_first
           Sample.filing Sample.mi53 ("c1", None)
           Sample.f1 Sample.f2 Sample.f3 [Sample.f5]
           sample_filing_valid sample_concept_not_indicator
           ltac:(vm_compute; reflexivity) eq_refl).
  intros H. vm_compute in H. discriminate H.
Defined.


(* ===================================================================== *)
(** ** Rules that run to their end *)
(* ===================================================================== *)

Section Completes.

Lemma completes_ret {A} (a : A) : completes (Py.ret a).
Proof. exists a. intros log. unfold findings, Py.ret. simpl. by rewrite app_nil_r. Qed.

Lemma completes_report (e : Error) : completes (report e).
Proof. by exists (). Qed.

Lemma completes_bind {A B} (m : Rule A) (k : A -> Rule B) :
  completes m -> (∀ a, completes (k a)) -> completes (Py.bind m k).
Proof.
  intros [a Hm] Hk. destruct (Hk a) as [b Hb]. exists b.
  assert (Hfind : findings (Py.bind m k) = findings m ++ findings (k a)).
  { unfold findings at 1, Py.bind. rewrite (Hm []). simpl. by rewrite Hb. }
  intros log. rewrite Hfind. unfold Py.bind. rewrite (Hm log), Hb.
  by rewrite app_assoc.
Qed.

Lemma completes_when (b : bool) (body : Rule ()) :
  completes body -> completes (Py.when b body).
Proof. intros H. destruct b; [exact H | apply completes_ret]. Qed.

Lemma completes_for_each {A L} (xs : list A) (body : A -> L -> Rule L) (acc : L) :
  (∀ x l, completes (body x l)) -> completes (Py.for_each xs body acc).
Proof.
  intros H. revert acc. induction xs as [| x xs IH]; intros acc; simpl.
  - apply completes_ret.
  - apply completes_bind; [apply H | apply IH].
Qed.

Lemma completes_for_ {A} (xs : list A) (body : A -> Rule ()) :
  (∀ x, completes (body x)) -> completes (Py.for_ xs body).
Proof. intros H. apply completes_for_each. intros x _. apply H. Qed.

Lemma completes_int_get (d : gmap string string) (key : string) (default : Z) :
  absent_or_numeric d key -> completes (Py.int_get d key default).
Proof.
  unfold absent_or_numeric, Py.int_get. destruct (d !! key) as [v |].
  - intros [n ->]. apply completes_ret.
  - intros _. apply completes_ret.
Qed.

(** What follows a rule that completes starts on the log with its findings. *)
Lemma completes_then {B} (m : Rule ()) (k : Rule B) log :
  completes m -> Py.bind m (fun _ => k) log = k (log ++ findings m).
Proof. intros [[] Hm]. unfold Py.bind. by rewrite Hm. Qed.

Lemma completes_run (m : Rule ()) log :
  completes m -> m log = (log ++ findings m, Py.Normal ()).
Proof. intros [[] Hm]. apply Hm. Qed.

End Completes.

(** Goals [completes rule] for a rule built from the combinators, none of
    which raises. *)
Ltac completes :=
  repeat first
    [ apply completes_ret
    | apply completes_report
    | apply completes_when
    | apply completes_for_; intros ?
    | apply completes_for_each; intros ? ?
    | apply completes_bind; [| intros ?]
    | match goal with
      | |- completes (match ?x with _ => _ end) => destruct x
      end
    | progress cbv zeta ].

Section LoopsThatReport.

Context {A : Type}.

Lemma report_each_run (xs : list A) (finding : A -> Error) log :
  Py.for_ xs (fun x => report (finding x)) log = (log ++ (finding <$> xs), Py.Normal ()).
Proof.
  unfold Py.for_. revert log. induction xs as [| x xs IH]; intros log.
  - simpl. unfold Py.ret. by rewrite app_nil_r.
  - cbn [Py.for_each]. unfold Py.bind at 1, report at 1.
    rewrite IH. by rewrite fmap_cons, <- app_assoc.
Qed.

Lemma filter_bool_decide (P : A -> Prop) `{∀ x, Decision (P x)} (l : list A) :
  filter (fun x => bool_decide (P x) = true) l = filter P l.
Proof. apply list_filter_iff. intros x. apply bool_decide_eq_true. Qed.

End LoopsThatReport.

Section FirstSixRules.

Variable instance : Instance.

Lemma eba_1_4_completes : completes (eba_1_4 instance).
Proof. unfold eba_1_4. completes. Qed.

Lemma eba_1_6_completes : completes (eba_1_6 instance).
Proof. unfold eba_1_6. completes. Qed.

Lemma eba_1_13_completes : completes (eba_1_13 instance).
Proof. unfold eba_1_13. completes. Qed.

Lemma eba_1_14_completes : completes (eba_1_14 instance).
Proof. unfold eba_1_14. completes. Qed.

Lemma eba_1_15_completes opts : completes (eba_1_15 instance opts).
Proof. unfold eba_1_15. completes. Qed.

Lemma eba_2_1_completes : completes (eba_2_1 instance).
Proof. unfold eba_2_1. completes. Qed.

End FirstSixRules.

(* ===================================================================== *)
(** ** Schema references *)
(* ===================================================================== *)

(** X1: [eba_2_2] never adds a finding to the log.  It looks at the first
    schema reference only, and returns normally exactly when there is one
    and its URL starts with [http://]; otherwise it raises. *)
Theorem eba_2_2_never_reports instance log :
  (eba_2_2 instance log).1 = log
  ∧ ((eba_2_2 instance log).2 = Py.Normal ()
     ↔ ∃ first rest, schema_refs instance = first :: rest
                     ∧ Py.startswith (xlink_href first) "http://" = true).
Proof.
  unfold eba_2_2, Py.bind, Py.next.
  destruct (schema_refs instance) as [| first rest]; simpl.
  - split; [done |]. split; [done |]. by intros [? [? [? _]]].
  - destruct (Py.startswith (xlink_href first) "http://") eqn:Hhttp; simpl.
    + split; [done |]. split; [| done]. intros _. by exists first, rest.
    + split; [done |]. split; [done |]. intros [f [r [[= <- <-] Hf]]]. congruence.
Qed.

(** X2: when the URL of the first schema reference does not start with
    [http://], [check_eba_filing_rules] ends with the NameError of
    [eba_2_2]: the log holds the findings of the six rules that run before
    it and of no other rule. *)
Theorem check_stops_at_eba_2_2 job instance first rest log :
  schema_refs instance = first :: rest ->
  Py.startswith (xlink_href first) "http://" = false ->
  check_eba_filing_rules job instance log
  = (log ++ findings_before_eba_2_2 job instance,
     Py.Raised (Py.NameError "schema_refs")).
Proof.
  intros Hrefs Hrel. unfold check_eba_filing_rules, findings_before_eba_2_2. cbv zeta.
  rewrite (completes_then _ _ _ (eba_1_4_completes instance)).
  rewrite (completes_then _ _ _ (eba_1_6_completes instance)).
  rewrite (completes_then _ _ _ (eba_1_13_completes instance)).
  rewrite (completes_then _ _ _ (eba_1_14_completes instance)).
  rewrite (completes_then _ _ _ (eba_1_15_completes instance (options job))).
  rewrite (completes_then _ _ _ (eba_2_1_completes instance)).
  unfold Py.bind at 1.
  rewrite (eba_2_2_reporting_branch instance first rest _ Hrefs Hrel).
  by rewrite <- !app_assoc.
Qed.

Lemma check_stops_at_eba_2_2_witness :
  check_eba_filing_rules (Sample.job ∅ true) More.secure_filing []
  = ([] ++ findings_before_eba_2_2 (Sample.job ∅ true) More.secure_filing,
     Py.Raised (Py.NameError "schema_refs")).
Proof.
  apply (check_stops_at_eba_2_2 (Sample.job ∅ true) More.secure_filing
           (Sample.schema_ref "https://www.eba.europa.eu/mod/corep_con.xsd") []
           [] eq_refl).
  vm_compute. reflexivity.
Defined.

(** X3: [eba_2_3] reports every schema reference after the first, in
    document order, and nothing else: N references give N-1 findings, none
    or one gives none.  It never raises. *)
Theorem eba_2_3_reports_the_others instance log :
  eba_2_3 instance log
  = (log ++ (eba_2_3_finding <$> drop 1 (schema_refs instance)), Py.Normal ())
  ∧ List.length (findings (eba_2_3 instance)) = List.length (schema_refs instance) - 1.
Proof.
  assert (Hrun : ∀ l, eba_2_3 instance l
                      = (l ++ (eba_2_3_finding <$> drop 1 (schema_refs instance)), Py.Normal ())).
  { intros l. unfold eba_2_3. apply report_each_run. }
  split; [apply Hrun |].
  unfold findings. rewrite Hrun. simpl. by rewrite length_fmap, length_drop.
Qed.

(* ===================================================================== *)
(** ** The first context as the reference *)
(* ===================================================================== *)

(** X4: with a first context, [eba_2_9] returns normally and reports, in
    document order, the later contexts whose entity identifier (scheme and
    value) differs from that of the first; the first context itself is
    never reported. *)
Theorem eba_2_9_reports_other_reporters instance first rest log :
  contexts instance = first :: rest ->
  eba_2_9 instance log
  = (log ++ (eba_2_9_finding
               <$> filter (fun c => entity_identifier_aspect_value c
                                    ≠ entity_identifier_aspect_value first) rest),
     Py.Normal ()).
Proof.
  intros Hcontexts. unfold eba_2_9, Py.bind at 1, Py.next. rewrite Hcontexts.
  cbn [Py.ret].
  rewrite (report_when_run (first :: rest)
             (fun c => bool_decide (entity_identifier_aspect_value c
                                    ≠ entity_identifier_aspect_value first))
             eba_2_9_finding).
  rewrite filter_bool_decide. by rewrite filter_cons_False by (intros H; by apply H).
Qed.

Lemma eba_2_9_reports_other_reporters_witness :
  eba_2_9 More.two_reporters [] = ([eba_2_9_finding More.other_bank], Py.Normal ()).
Proof.
  exact (eba_2_9_reports_other_reporters More.two_reporters
           Sample.c1 [More.other_bank; Sample.c3] [] eq_refl).
Defined.

(** X5: with a first context, [eba_2_13] returns normally and reports, in
    document order, every context whose period is not an instant or
    differs from the period of the first context.  The first context is
    reported exactly when its period is not an instant, and then every
    context of the instance is reported. *)
Theorem eba_2_13_reference_period instance first rest log :
  contexts instance = first :: rest ->
  let off c := is_instant (period c) = false
               ∨ period_aspect_value c ≠ period_aspect_value first in
  eba_2_13 instance log
  = (log ++ (eba_2_13_finding <$> filter off (first :: rest)), Py.Normal ())
  ∧ (is_instant (period first) = true -> filter off (first :: rest) = filter off rest)
  ∧ (is_instant (period first) = false -> filter off (first :: rest) = first :: rest).
Proof.
  intros Hcontexts off. split; [| split].
  - unfold eba_2_13, Py.bind at 1, Py.next. rewrite Hcontexts. cbn [Py.ret].
    rewrite (report_when_run (first :: rest)
               (fun c => negb (is_instant (period c))
                         || bool_decide (period_aspect_value c ≠ period_aspect_value first))
               eba_2_13_finding).
    do 3 f_equal. apply list_filter_iff. intros c. unfold off.
    rewrite orb_true_iff, negb_true_iff, bool_decide_eq_true. done.
  - intros Hinstant. apply filter_cons_False. unfold off.
    intros [Hno | Hne]; congruence.
  - intros Hno. apply filter_all. intros c _. unfold off.
    destruct (is_instant (period c)) eqn:Hc; [right | by left].
    unfold period_aspect_value.
    destruct (period c), (period first); simpl in *; congruence.
Qed.

Lemma eba_2_13_reference_period_witness :
  eba_2_13 More.year_first []
  = (eba_2_13_finding <$> [More.year; Sample.c1; Sample.c3], Py.Normal ()).
Proof.
  destruct (eba_2_13_reference_period More.year_first More.year [Sample.c1; Sample.c3] []
              eq_refl) as [Hrun [_ Hall]].
  rewrite Hrun. by rewrite (Hall eq_refl).
Defined.

(** X16: [eba_2_10] never raises and reports, in document order, the
    contexts whose period is an instant that carries a timezone or whose
    element is not of type [date].  A duration or a forever period is
    never reported, whatever its dates are. *)
Theorem eba_2_10_checks_instants_only instance log :
  eba_2_10 instance log
  = (log ++ (eba_2_10_finding
               <$> filter (fun c => invalid_instant (period c) = true) (contexts instance)),
     Py.Normal ())
  ∧ (∀ p, is_instant p = false -> invalid_instant p = false)
  ∧ (∀ i, invalid_instant (PeriodInstant i) = true
          ↔ tzinfo (instant_value i) ≠ None ∨ member_type_name i ≠ "date").
Proof.
  split; [| split].
  - unfold eba_2_10. apply (report_when_run _ (fun c => invalid_instant (period c))).
  - by intros [].
  - intros i. unfold invalid_instant. simpl.
    rewrite orb_true_iff, bool_decide_eq_true.
    destruct (tzinfo (instant_value i)); simpl; intuition congruence.
Qed.

(* ===================================================================== *)
(** ** Length limits given as parameters *)
(* ===================================================================== *)


Example limit_ten :
  eba_2_6 More.ids_filing {["max-id-length" := "10"]} []
  = ([eba_2_6_finding More.eleven], Py.Normal ()).
Proof. vm_compute. reflexivity. Qed.

(** When [max-id-length] is bound to a string that [int] rejects,
    [eba_2_6] raises ValueError and leaves the log as it was, whatever the
    contexts are; likewise [eba_3_8] with [max-string-length]. *)
Lemma rejected_limit_raises instance params log :
  (∀ v, params !! "max-id-length" = Some v -> Py.int_of_str v = None ->
     eba_2_6 instance params log = (log, Py.Raised Py.ValueError))
  ∧ (∀ v, params !! "max-string-length" = Some v -> Py.int_of_str v = None ->
       eba_3_8 instance params log = (log, Py.Raised Py.ValueError)).
Proof.
  split; intros v Hv Hn.
  - unfold eba_2_6, Py.bind, Py.int_get. by rewrite Hv, Hn.
  - unfold eba_3_8, Py.bind, Py.int_get. by rewrite Hv, Hn.
Qed.

(* ===================================================================== *)
(** ** Attributes of the document element, footnotes *)
(* ===================================================================== *)

(** X15: [eba_1_14] reports at most one finding: about the
    [xsi:schemaLocation] attribute of the document element when there is
    one, otherwise about its [xsi:noNamespaceSchemaLocation] attribute
    when there is one, otherwise nothing.  When both are present only the
    first is reported. *)
Theorem eba_1_14_reports_one_attribute instance log :
  eba_1_14 instance log
  = (log ++ match find_attribute (document_element instance) (mkQName "schemaLocation" xsi) with
            | Some a => [eba_1_14_finding a]
            | None =>
                match find_attribute (document_element instance)
                        (mkQName "noNamespaceSchemaLocation" xsi) with
                | Some a => [eba_1_14_finding a]
                | None => []
                end
            end,
     Py.Normal ())
  ∧ List.length (findings (eba_1_14 instance)) <= 1.
Proof.
  unfold findings, eba_1_14.
  destruct (find_attribute _ (mkQName "schemaLocation" xsi)) as [a |]; simpl.
  - split; [done | lia].
  - destruct (find_attribute _ _) as [a |]; simpl.
    + split; [done | lia].
    + split; [by rewrite app_nil_r | lia].
Qed.

Section NestedLoops.

Context {A B : Type}.

Lemma report_nested_run (xs : list A) (inner : A -> list B) (finding : B -> Error) log :
  Py.for_ xs (fun x => Py.for_ (inner x) (fun y => report (finding y))) log
  = (log ++ (finding <$> flat_map inner xs), Py.Normal ()).
Proof.
  unfold Py.for_ at 1. revert log.
  induction xs as [| x xs IH]; intros log.
  - simpl. unfold Py.ret. by rewrite app_nil_r.
  - cbn [Py.for_each flat_map]. unfold Py.bind at 1.
    rewrite (report_each_run (inner x) finding log).
    rewrite IH. by rewrite fmap_app, <- app_assoc.
Qed.

Lemma report_some_run (xs : list A) (pick : A -> option B) (finding : B -> Error) log :
  Py.for_ xs (fun x => match pick x with
                       | Some y => report (finding y)
                       | None => Py.ret ()
                       end) log
  = (log ++ (finding <$> omap pick xs), Py.Normal ()).
Proof.
  unfold Py.for_. revert log. induction xs as [| x xs IH]; intros log.
  - simpl. unfold Py.ret. by rewrite app_nil_r.
  - cbn [Py.for_each omap list_omap]. unfold Py.bind at 1.
    destruct (pick x) as [y |]; simpl.
    + rewrite IH. by rewrite <- app_assoc.
    + by rewrite IH.
Qed.

End NestedLoops.

(** X17: [eba_2_25] reports one finding per footnote resource, link after
    link; a footnote link without a footnote resource is not reported. *)
Theorem eba_2_25_reports_footnotes instance log :
  eba_2_25 instance log
  = (log ++ (eba_2_25_finding <$> flat_map resources (footnote_links instance)),
     Py.Normal ()).
Proof. unfold eba_2_25. apply (report_nested_run _ resources eba_2_25_finding). Qed.

(* ===================================================================== *)
(** ** Rules that walk the document *)
(* ===================================================================== *)

Lemma dfs_subtree_permutation (root : Element) : dfs root ≡ₚ subtree root.
Proof. rewrite dfs_preorder. apply preorder_permutation. Qed.

Lemma dfs_cons (root : Element) :
  dfs root = root :: flat_map preorder_last_first (rev (element_children root)).
Proof. rewrite dfs_preorder. apply preorder_children. Qed.

Lemma dfs_tail_permutation (root : Element) :
  drop 1 (dfs root) ≡ₚ flat_map subtree (element_children root).
Proof.
  pose proof (dfs_subtree_permutation root) as Hperm.
  rewrite dfs_cons in Hperm |- *. simpl.
  destruct root as [p n a ns v kids]. simpl in *.
  by apply Permutation_cons_inv in Hperm.
Qed.

(** X14: [eba_2_1] never raises and reports one finding per element of
    the document that carries an [xml:base] attribute, wherever the
    element is in the tree, each pointing at the attribute. *)
Theorem eba_2_1_reports_every_xml_base instance log :
  eba_2_1 instance log
  = (log ++ (eba_2_1_finding
               <$> omap (fun e => find_attribute e xml_base) (dfs (document_element instance))),
     Py.Normal ())
  ∧ omap (fun e => find_attribute e xml_base) (dfs (document_element instance))
    ≡ₚ omap (fun e => find_attribute e xml_base) (subtree (document_element instance)).
Proof.
  split.
  - unfold eba_2_1.
    apply (report_some_run _ (fun e => find_attribute e xml_base) eba_2_1_finding).
  - by rewrite dfs_subtree_permutation.
Qed.

Lemma element_prefixes_spec (e : Element) (p : option string) :
  p ∈ element_prefixes e ↔ uses_prefix e p.
Proof.
  unfold element_prefixes, uses_prefix.
  rewrite !elem_of_union, elem_of_singleton, elem_of_union_list.
  assert (Hvalue : ∀ v, p ∈ value_prefixes v ↔ ∃ name, v = XsdQName p name).
  { intros [q name | s |]; simpl.
    - rewrite elem_of_singleton. split; [intros ->; by exists name | by intros [? [= ->]]].
    - rewrite elem_of_empty. split; [done | by intros [? ?]].
    - rewrite elem_of_empty. split; [done | by intros [? ?]]. }
  rewrite Hvalue. split.
  - intros [[-> | Hv] | [X [HX Hp]]]; [by left | by right; left |].
    right; right. apply list_elem_of_fmap in HX as [attr [-> Hattr]].
    exists attr. split; [done |].
    apply elem_of_union in Hp as [->%elem_of_singleton | Hp]; [by left |].
    right. by apply Hvalue.
  - intros [<- | [Hv | [attr [Hattr Hp]]]]; [by left; left | by left; right |].
    right. eexists. split; [by apply list_elem_of_fmap_2 |].
    apply elem_of_union. destruct Hp as [<- | Hp]; [left; by apply elem_of_singleton |].
    right. by apply Hvalue.
Qed.

(** X12: [eba_3_4] never raises and reports, in document order, the
    namespace declarations of the document element whose prefix is not
    [xmlns] and is used by no element of the document: not as the prefix
    of an element or attribute name, and not as the prefix of a QName that
    is the value of an element or attribute. *)
Theorem eba_3_4_reports_unused_prefixes instance log :
  eba_3_4 instance log
  = (log ++ (eba_3_4_finding
               <$> filter (fun a => unused_prefix instance a = true)
                     (namespace_attributes (document_element instance))),
     Py.Normal ())
  ∧ ∀ a, unused_prefix instance a = true
         ↔ attr_local_name a ≠ "xmlns"
           ∧ ∀ e, e ∈ subtree (document_element instance) ->
                  ¬ uses_prefix e (Some (attr_local_name a)).
Proof.
  split.
  - unfold eba_3_4. cbv zeta. apply (report_when_run _ (unused_prefix instance)).
  - intros a. unfold unused_prefix.
    rewrite andb_true_iff, !bool_decide_eq_true, elem_of_union_list.
    split; intros [Hname Hunused]; (split; [done |]).
    + intros e He Huse. apply Hunused. exists (element_prefixes e). split.
      * apply list_elem_of_fmap_2. by rewrite dfs_subtree_permutation.
      * by apply element_prefixes_spec.
    + intros [X [HX Hp]]. apply list_elem_of_fmap in HX as [e [-> He]].
      rewrite dfs_subtree_permutation in He.
      apply (Hunused e He). by apply element_prefixes_spec.
Qed.

Example eba_3_4_sample :
  eba_3_4 More.prefixed_filing []
  = ([eba_3_4_finding (More.ns "unused" "urn:u")], Py.Normal ()).
Proof. vm_compute. reflexivity. Qed.

(** X13: [eba_3_9] never raises (the walker always yields the document
    element, which the rule skips) and reports one finding per namespace
    declaration of every element below the document element; the
    declarations of the document element itself are never reported. *)
Theorem eba_3_9_reports_inner_declarations instance log :
  eba_3_9 instance log
  = (log ++ (eba_3_9_finding
               <$> flat_map namespace_attributes (drop 1 (dfs (document_element instance)))),
     Py.Normal ())
  ∧ drop 1 (dfs (document_element instance))
    ≡ₚ flat_map subtree (element_children (document_element instance)).
Proof.
  split; [| apply dfs_tail_permutation].
  unfold eba_3_9. cbv zeta. unfold Py.bind at 1.
  rewrite (dfs_cons (document_element instance)) at 1. cbn [Py.next Py.ret].
  apply (report_nested_run _ namespace_attributes eba_3_9_finding).
Qed.

Example eba_3_9_sample :
  eba_3_9 More.prefixed_filing []
  = ([eba_3_9_finding (More.ns "c" "urn:c")], Py.Normal ()).
Proof. vm_compute. reflexivity. Qed.

(* ===================================================================== *)
(** ** Filing indicators *)
(* ===================================================================== *)

Section FilingIndicators.

Variable instance : Instance.

Let available := available_indicators instance.
Let body (indicator : Fact) (used_indictors : gmap string Fact) : Rule (gmap string Fact) :=
  Py.when (in_open_context indicator)
    (report (mkError "[EBA.1.6] Filing indicators."
               None (Some (ObjFact indicator)) []
               [detail "The context referenced by the filing indicator elements MUST NOT contain xbrli:segment or xbrli:scenario elements." INFO])) ;;;
  let '(used_indictors', first) :=
    Py.setdefault used_indictors (normalized_value indicator) indicator in
  Py.when (negb (fact_eqb first indicator))
    (report (mkError "[EBA.1.6.1] Multiple filing indicators for the same reporting unit."
               None (Some (ObjFact indicator)) []
               [detail ("Reported XBRL instances MUST contain only one filing indicator element for a given reporting unit(" +:+ dquote +:+ "template" +:+ dquote +:+ ").") INFO])) ;;;
  Py.when (bool_decide (normalized_value indicator ∉ available))
    (report (mkError "[EBA.1.6.3] Filing indicator codes."
               None (Some (ObjFact indicator)) []
               [detail "The values of filing indicators MUST only be those given by the label resources with the role http://www.eurofiling.info/xbrl/role/filing-indicator-code applied to the relevant tables in the XBRL taxonomy4 for that reporting module (entry point). Filing indicator values must be formatted correctly (for example including any underscore characters)." INFO])) ;;;
  Py.ret used_indictors'.

Lemma eba_1_6_unfold :
  eba_1_6 instance = (Py.for_each (indicator_facts instance) body ∅ ;;; Py.ret ()).
Proof. reflexivity. Qed.

Lemma eba_1_6_body_appends_only x seen : appends_only (body x seen).
Proof. unfold body. appends_only. Qed.

Lemma eba_1_6_body_run x seen :
  (∀ k g, seen !! k = Some g -> fact_oid g ≠ fact_oid x) ->
  (body x seen []).2 = Py.Normal (representatives normalized_value seen [x])
  ∧ omap indicator_finding_of (body x seen []).1
    = indicator_reports available seen [x]
  ∧ List.length (body x seen []).1 = List.length (indicator_reports available seen [x]).
Proof.
  intros Hother. unfold body, Py.setdefault, Py.bind, Py.when, report, Py.ret.
  cbn [indicator_reports representatives].
  destruct (in_open_context x);
    destruct (seen !! normalized_value x) as [g |] eqn:Hk;
    destruct (bool_decide (normalized_value x ∉ available));
    unfold fact_eqb;
    rewrite ?(bool_decide_eq_false_2 (fact_oid g = fact_oid x)) by eauto;
    rewrite ?(bool_decide_eq_true_2 (fact_oid x = fact_oid x)) by done;
    simpl; done.
Qed.

Lemma eba_1_6_loop_run xs seen :
  NoDup (fact_oid <$> xs) ->
  (∀ k g, seen !! k = Some g -> fact_oid g ∉ fact_oid <$> xs) ->
  (Py.for_each xs body seen []).2 = Py.Normal (representatives normalized_value seen xs)
  ∧ omap indicator_finding_of (Py.for_each xs body seen []).1
    = indicator_reports available seen xs
  ∧ List.length (Py.for_each xs body seen []).1
    = List.length (indicator_reports available seen xs).
Proof.
  revert seen. induction xs as [| x xs IH]; intros seen Hnd Hseen; [done |].
  rewrite fmap_cons in Hnd, Hseen. apply NoDup_cons in Hnd as [Hx Hnd].
  cbn [Py.for_each].
  rewrite bind_run
    by (intros; apply appends_only_for_each; intros; apply eba_1_6_body_appends_only).
  destruct (eba_1_6_body_run x seen) as [Hout [Hfind Hlen]].
  { intros k g Hg Heq. apply (Hseen k g Hg). rewrite Heq. apply list_elem_of_here. }
  rewrite Hout.
  destruct (IH (representatives normalized_value seen [x]) Hnd) as [Hout' [Hfind' Hlen']].
  { intros k g Hg. rewrite representatives_lookup in Hg.
    destruct (seen !! k) as [y |] eqn:Hk.
    - injection Hg as <-. intros Hin. apply (Hseen k y Hk). by apply list_elem_of_further.
    - apply head_Some_elem_of, list_elem_of_filter in Hg as [_ Hg].
      apply list_elem_of_singleton in Hg as ->. done. }
  cbn [fst snd]. rewrite omap_app, length_app, Hfind, Hfind', Hlen, Hlen', Hout'.
  change (x :: xs) with ([x] ++ xs). rewrite representatives_app.
  split; [done |].
  cbn [indicator_reports app]. rewrite !app_nil_r, <- !app_assoc, !length_app.
  split; [done | lia].
Qed.

End FilingIndicators.

Section IndicatorReports.

Variables (available : gset string).

Lemma of_kind_app k (rs ss : list (IndicatorFinding * Fact)) :
  of_kind k (rs ++ ss) = of_kind k rs ++ of_kind k ss.
Proof. apply omap_app. Qed.

Lemma indicator_reports_contexts seen xs :
  of_kind IndicatorContext (indicator_reports available seen xs)
  = filter (fun f => in_open_context f = true) xs.
Proof.
  revert seen. induction xs as [| x xs IH]; intros seen; [done |].
  cbn [indicator_reports]. rewrite !of_kind_app, IH.
  destruct (in_open_context x) eqn:Hx;
    destruct (seen !! normalized_value x);
    destruct (bool_decide _); simpl;
    by rewrite ?filter_cons_True, ?filter_cons_False by (by rewrite Hx).
Qed.

Lemma indicator_reports_unknown seen xs :
  of_kind UnknownIndicator (indicator_reports available seen xs)
  = filter (fun f => normalized_value f ∉ available) xs.
Proof.
  revert seen. induction xs as [| x xs IH]; intros seen; [done |].
  cbn [indicator_reports]. rewrite !of_kind_app, IH.
  destruct (decide (normalized_value x ∉ available)) as [Hx | Hx].
  - rewrite bool_decide_eq_true_2, filter_cons_True by done.
    by destruct (in_open_context x); destruct (seen !! normalized_value x).
  - rewrite bool_decide_eq_false_2, filter_cons_False by done.
    by destruct (in_open_context x); destruct (seen !! normalized_value x).
Qed.

Lemma indicator_reports_multiple seen xs :
  of_kind MultipleIndicators (indicator_reports available seen xs)
  = fst <$> later_with_first normalized_value seen xs.
Proof.
  revert seen. induction xs as [| x xs IH]; intros seen; [done |].
  cbn [indicator_reports later_with_first representatives].
  rewrite !of_kind_app, IH.
  by destruct (in_open_context x); destruct (seen !! normalized_value x);
    destruct (bool_decide _).
Qed.

End IndicatorReports.

Lemma eba_1_6_reported instance :
  NoDup (fact_oid <$> facts instance) ->
  (eba_1_6 instance []).2 = Py.Normal ()
  ∧ omap indicator_finding_of (findings (eba_1_6 instance))
    = indicator_reports (available_indicators instance) ∅ (indicator_facts instance)
  ∧ List.length (findings (eba_1_6 instance))
    = List.length (indicator_reports (available_indicators instance) ∅ (indicator_facts instance)).
Proof.
  intros Hnd. unfold findings. rewrite eba_1_6_unfold.
  rewrite bind_run by (intros; apply appends_only_ret).
  destruct (eba_1_6_loop_run instance (indicator_facts instance) ∅) as [Hout [Hfind Hlen]].
  - unfold indicator_facts, filter_qname. by apply NoDup_fmap_filter.
  - intros k g Hg. by rewrite lookup_empty in Hg.
  - rewrite Hout. cbn [fst snd Py.ret]. by rewrite app_nil_r.
Qed.

(** X8: among the filing indicators of an instance whose facts are
    distinct objects, [eba_1_6] reports as multiple (EBA.1.6.1) exactly the
    indicators that follow the first indicator of the same value, in
    document order, whatever their contexts are; the first indicator of a
    value is never reported as multiple. *)
Theorem eba_1_6_multiple_indicators instance v first rest :
  NoDup (fact_oid <$> facts instance) ->
  filter (fun f => normalized_value f = v) (indicator_facts instance) = first :: rest ->
  filter (fun f => normalized_value f = v)
    (of_kind MultipleIndicators (omap indicator_finding_of (findings (eba_1_6 instance))))
  = rest.
Proof.
  intros Hnd Hgroup.
  destruct (eba_1_6_reported instance Hnd) as [_ [-> _]].
  rewrite indicator_reports_multiple, filter_fmap_comm.
  rewrite later_with_first_group, lookup_empty, Hgroup.
  rewrite <- list_fmap_compose. apply list_fmap_id.
Qed.

Lemma more_indicator_filing_distinct : NoDup (fact_oid <$> facts More.indicator_filing).
Proof. apply (bool_decide_unpack _). vm_compute. reflexivity. Defined.

Lemma eba_1_6_multiple_indicators_witness :
  filter (fun f => normalized_value f = "C_01.00")
    (of_kind MultipleIndicators
       (omap indicator_finding_of (findings (eba_1_6 More.indicator_filing))))
  = [More.i2].
Proof.
  apply (eba_1_6_multiple_indicators More.indicator_filing "C_01.00" More.i1 [More.i2]
           more_indicator_filing_distinct).
  vm_compute. reflexivity.
Defined.

(** X9: on an instance whose facts are distinct objects [eba_1_6] returns
    normally, and every finding it reports is one of its three findings
    about a filing indicator: EBA.1.6 for exactly the indicators whose
    context has a segment or a scenario, EBA.1.6.3 for exactly the
    indicators whose value is not the text of a label with the
    filing-indicator-code role of a table of the taxonomy; a fact that is
    not a filing indicator is never reported. *)
Theorem eba_1_6_contexts_and_codes instance :
  NoDup (fact_oid <$> facts instance) ->
  let reported := omap indicator_finding_of (findings (eba_1_6 instance)) in
  (eba_1_6 instance []).2 = Py.Normal ()
  ∧ List.length reported = List.length (findings (eba_1_6 instance))
  ∧ of_kind IndicatorContext reported
    = filter (fun f => in_open_context f = true) (indicator_facts instance)
  ∧ of_kind UnknownIndicator reported
    = filter (fun f => normalized_value f ∉ available_indicators instance)
        (indicator_facts instance)
  ∧ (∀ r, r ∈ reported -> r.2 ∈ indicator_facts instance)
  ∧ (∀ code, code ∈ available_indicators instance
             ↔ ∃ table label, table ∈ tables (dts instance)
                              ∧ label ∈ table_labels table
                              ∧ label_role label = filing_indicator_code_role
                              ∧ label_text label = code).
Proof.
  intros Hnd reported. subst reported.
  destruct (eba_1_6_reported instance Hnd) as [Hout [Hfind Hlen]].
  rewrite Hfind. repeat split.
  - done.
  - by rewrite Hlen.
  - apply indicator_reports_contexts.
  - apply indicator_reports_unknown.
  - intros r Hr.
    assert (Hsub : ∀ seen xs, r ∈ indicator_reports (available_indicators instance) seen xs
                              -> r.2 ∈ xs).
    { intros seen xs. revert seen. induction xs as [| x xs IH]; intros seen.
      - by intros ?%elem_of_nil.
      - cbn [indicator_reports]. rewrite !elem_of_app.
        intros [H | [H | [H | H]]].
        + destruct (in_open_context x); [| by apply elem_of_nil in H].
          apply list_elem_of_singleton in H as ->. apply list_elem_of_here.
        + destruct (seen !! normalized_value x); [| by apply elem_of_nil in H].
          apply list_elem_of_singleton in H as ->. apply list_elem_of_here.
        + destruct (bool_decide _); [| by apply elem_of_nil in H].
          apply list_elem_of_singleton in H as ->. apply list_elem_of_here.
        + apply list_elem_of_further. by eapply IH. }
    by eapply Hsub.
  - unfold available_indicators. rewrite elem_of_list_to_set, list_elem_of_In, in_flat_map.
    intros [table [Htable Hcode]]. apply list_elem_of_In in Htable, Hcode.
    apply list_elem_of_fmap in Hcode as [label [-> Hlabel]].
    apply list_elem_of_filter in Hlabel as [Hrole Hlabel].
    by exists table, label.
  - intros [table [label [Htable [Hlabel [Hrole <-]]]]].
    unfold available_indicators. rewrite elem_of_list_to_set, list_elem_of_In, in_flat_map.
    exists table. split; [by apply list_elem_of_In |].
    apply list_elem_of_In, list_elem_of_fmap_2, list_elem_of_filter. done.
Qed.

Lemma eba_1_6_contexts_and_codes_witness :
  of_kind UnknownIndicator (omap indicator_finding_of (findings (eba_1_6 More.indicator_filing)))
  = [More.i3].
Proof.
  rewrite (proj1 (proj2 (proj2 (proj2
            (eba_1_6_contexts_and_codes More.indicator_filing more_indicator_filing_distinct))))).
  vm_compute. reflexivity.
Defined.

(* ===================================================================== *)
(** ** Namespace declarations of the document element *)
(* ===================================================================== *)

Section NamespaceDeclarations.

Let body (nsattr : Attribute) (used_namespaces : gmap string Attribute)
    : Rule (gmap string Attribute) :=
  let '(used_namespaces', first) :=
    Py.setdefault used_namespaces (attr_normalized_value nsattr) nsattr in
  Py.when (bool_decide (first ≠ nsattr))
    (match used_namespaces' !! attr_normalized_value nsattr with
     | None => Py.raise Py.KeyError
     | Some prefix2 =>
         report (mkError "[EBA.3.10] Avoid multiple prefix declarations {prefix} and {prefix2} for the same namespace {namespace}."
                   (Some WARNING) None
                   [("prefix", ObjAttribute nsattr); ("prefix2", ObjAttribute prefix2);
                    ("namespace", ObjString (attr_normalized_value nsattr))]
                   [detail "Namespaces used in the document SHOULD be associated to a single namespace prefix." INFO])
     end) ;;;
  Py.ret used_namespaces'.

Lemma eba_3_10_unfold instance :
  eba_3_10 instance
  = (Py.for_each (namespace_attributes (document_element instance)) body ∅ ;;; Py.ret ()).
Proof. reflexivity. Qed.

Lemma eba_3_10_body_appends_only x seen : appends_only (body x seen).
Proof. unfold body. appends_only. Qed.

(** One turn never raises: the key looked up has just been set. *)
Lemma eba_3_10_body_dict x seen :
  (body x seen []).2 = Py.Normal (representatives attr_normalized_value seen [x]).
Proof.
  unfold body, Py.setdefault, Py.bind, Py.when. cbn [representatives].
  destruct (seen !! attr_normalized_value x) as [g |] eqn:Hk.
  - destruct (bool_decide (g ≠ x)); [| done]. by rewrite Hk.
  - by rewrite bool_decide_eq_false_2 by (intros H; by apply H).
Qed.

Lemma eba_3_10_body_run x seen :
  (∀ k g, seen !! k = Some g -> g ≠ x) ->
  omap duplicate_prefix_of (body x seen []).1
  = (fun p => (p.1, p.2, attr_normalized_value p.1))
      <$> later_with_first attr_normalized_value seen [x]
  ∧ List.length (body x seen []).1
    = List.length (later_with_first attr_normalized_value seen [x]).
Proof.
  intros Hother. unfold body, Py.setdefault, Py.bind, Py.when.
  cbn [later_with_first].
  destruct (seen !! attr_normalized_value x) as [g |] eqn:Hk.
  - rewrite bool_decide_eq_true_2 by eauto. by rewrite Hk.
  - by rewrite bool_decide_eq_false_2 by (intros H; by apply H).
Qed.

Lemma eba_3_10_loop_run xs seen :
  NoDup xs ->
  (∀ k g, seen !! k = Some g -> g ∉ xs) ->
  (Py.for_each xs body seen []).2
  = Py.Normal (representatives attr_normalized_value seen xs)
  ∧ omap duplicate_prefix_of (Py.for_each xs body seen []).1
    = (fun p => (p.1, p.2, attr_normalized_value p.1))
        <$> later_with_first attr_normalized_value seen xs
  ∧ List.length (Py.for_each xs body seen []).1
    = List.length (later_with_first attr_normalized_value seen xs).
Proof.
  revert seen. induction xs as [| x xs IH]; intros seen Hnd Hseen; [done |].
  apply NoDup_cons in Hnd as [Hx Hnd].
  cbn [Py.for_each].
  rewrite bind_run
    by (intros; apply appends_only_for_each; intros; apply eba_3_10_body_appends_only).
  rewrite eba_3_10_body_dict.
  destruct (eba_3_10_body_run x seen) as [Hfind Hlen].
  { intros k g Hg ->. apply (Hseen k x Hg). apply list_elem_of_here. }
  destruct (IH (representatives attr_normalized_value seen [x]) Hnd) as [Hout' [Hfind' Hlen']].
  { intros k g Hg. rewrite representatives_lookup in Hg.
    destruct (seen !! k) as [y |] eqn:Hk.
    - injection Hg as <-. intros Hin. apply (Hseen k y Hk). by apply list_elem_of_further.
    - apply head_Some_elem_of, list_elem_of_filter in Hg as [_ Hg].
      apply list_elem_of_singleton in Hg as ->. done. }
  change (x :: xs) with ([x] ++ xs).
  rewrite representatives_app, later_with_first_app.
  cbn [fst snd]. rewrite omap_app, fmap_app, !length_app.
  by rewrite Hfind, Hfind', Hlen, Hlen', Hout'.
Qed.

End NamespaceDeclarations.

(** X10: for a document element whose namespace declarations are distinct
    attributes, [eba_3_10] returns normally (its dict lookup never fails)
    and, of the declarations that bind one namespace, reports each one
    after the first, in document order, paired with the first and naming
    the namespace; the default declaration [xmlns] takes part like any
    other. *)
Theorem eba_3_10_reports_later_prefixes instance uri first rest :
  NoDup (namespace_attributes (document_element instance)) ->
  filter (fun a => attr_normalized_value a = uri)
    (namespace_attributes (document_element instance)) = first :: rest ->
  let reported := omap duplicate_prefix_of (findings (eba_3_10 instance)) in
  (eba_3_10 instance []).2 = Py.Normal ()
  ∧ List.length reported = List.length (findings (eba_3_10 instance))
  ∧ filter (fun r => attr_normalized_value r.1.1 = uri) reported
    = (fun a => (a, first, uri)) <$> rest.
Proof.
  intros Hnd Hgroup reported. subst reported.
  unfold findings. rewrite eba_3_10_unfold.
  rewrite bind_run by (intros; apply appends_only_ret).
  destruct (eba_3_10_loop_run (namespace_attributes (document_element instance)) ∅ Hnd)
    as [Hout [Hfind Hlen]].
  { intros k g Hg. by rewrite lookup_empty in Hg. }
  rewrite Hout. cbn [fst snd Py.ret]. rewrite app_nil_r, Hfind.
  split; [done |]. split; [by rewrite length_fmap, Hlen |].
  rewrite filter_fmap_comm. cbn [fst snd].
  rewrite later_with_first_group, lookup_empty, Hgroup.
  rewrite <- list_fmap_compose. apply list_fmap_ext.
  intros i a Ha. simpl. apply list_elem_of_lookup_2 in Ha.
  assert (Hin : a ∈ filter (fun a => attr_normalized_value a = uri)
                      (namespace_attributes (document_element instance))).
  { rewrite Hgroup. by apply list_elem_of_further. }
  by apply list_elem_of_filter in Hin as [-> _].
Qed.

Lemma eba_3_10_reports_later_prefixes_witness :
  filter (fun r => attr_normalized_value r.1.1 = "urn:a")
    (omap duplicate_prefix_of (findings (eba_3_10 More.aliased_filing)))
  = [(More.ns "a2" "urn:a", More.ns "a" "urn:a", "urn:a");
     (More.ns "xmlns" "urn:a", More.ns "a" "urn:a", "urn:a")].
Proof.
  apply (eba_3_10_reports_later_prefixes More.aliased_filing "urn:a"
           (More.ns "a" "urn:a") [More.ns "a2" "urn:a"; More.ns "xmlns" "urn:a"]).
  - apply (bool_decide_unpack _). vm_compute. reflexivity.
  - vm_compute. reflexivity.
Defined.

(* ===================================================================== *)
(** ** What the duplicate-fact check pairs *)
(* ===================================================================== *)

(** X18: on an instance whose facts are distinct objects, every finding
    of [eba_2_16] pairs two different facts of the instance that have the
    same concept, the same context and the same language; the concept is
    an item and is not the filing indicator; and the finding is EBA.2.16
    when the two facts have the same unit, EBA.2.16.1 when they have not. *)
Theorem eba_2_16_pairs_facts_of_a_group instance kind f g :
  NoDup (fact_oid <$> facts instance) ->
  (kind, f, g) ∈ omap fact_finding_of (findings (eba_2_16 instance)) ->
  f ∈ facts instance ∧ g ∈ facts instance
  ∧ concept g = concept f ∧ fact_key g = fact_key f
  ∧ fact_oid g ≠ fact_oid f
  ∧ is_item (concept f) = true ∧ ¬ is_filing_indicator (concept f)
  ∧ kind = compare_units g f.
Proof.
  intros Hnd Hin.
  rewrite (eba_2_16_reported instance Hnd), list_elem_of_In, in_flat_map in Hin.
  destruct Hin as [c [_ Hin]]. apply list_elem_of_In in Hin.
  unfold fact_pairs in Hin.
  destruct (eba_2_16_checked c) eqn:Hchecked; [| by apply elem_of_nil in Hin].
  apply list_elem_of_fmap in Hin as [[x y] [[= -> -> ->] Hp]]. cbn [fst snd].
  set (xs := filter_concept (facts instance) c) in *.
  assert (Hx : x ∈ xs) by (by apply later_with_first_subject in Hp).
  assert (Hgroup : (x, y) ∈ filter (fun p => fact_key p.1 = fact_key x)
                              (later_with_first fact_key ∅ xs)).
  { by apply list_elem_of_filter. }
  rewrite later_with_first_group, lookup_empty in Hgroup.
  destruct (filter (fun f => fact_key f = fact_key x) xs) as [| first rest] eqn:Hfilter;
    [by apply elem_of_nil in Hgroup |].
  apply list_elem_of_fmap in Hgroup as [x' [[= <- ->] Hrest]].
  assert (Hfirst : first ∈ filter (fun f => fact_key f = fact_key x) xs)
    by (rewrite Hfilter; apply list_elem_of_here).
  apply list_elem_of_filter in Hfirst as [Hkey Hfirst].
  assert (Hdistinct : NoDup (fact_oid <$> first :: rest)).
  { rewrite <- Hfilter. unfold xs, filter_concept. by do 2 apply NoDup_fmap_filter. }
  rewrite fmap_cons in Hdistinct. apply NoDup_cons in Hdistinct as [Hoid _].
  unfold xs, filter_concept in Hx, Hfirst.
  apply list_elem_of_filter in Hx as [Hcx Hx].
  apply list_elem_of_filter in Hfirst as [Hcf Hfirst].
  unfold eba_2_16_checked in Hchecked.
  apply andb_true_iff in Hchecked as [Hitem Hnot].
  repeat split; try done.
  - congruence.
  - intros Heq. apply Hoid. rewrite Heq. by apply list_elem_of_fmap_2.
  - by rewrite Hcx.
  - rewrite Hcx. intros [Hns Hname].
    apply orb_true_iff in Hnot as [Hnot | Hnot]; apply bool_decide_eq_true in Hnot; done.
Qed.

Lemma eba_2_16_pairs_facts_of_a_group_witness :
  concept Sample.f1 = concept Sample.f5 ∧ fact_key Sample.f1 = fact_key Sample.f5.
Proof.
  destruct (eba_2_16_pairs_facts_of_a_group Sample.filing DuplicateFact Sample.f5 Sample.f1
              (proj1 sample_filing_valid)) as [_ [_ [Hc [Hk _]]]]; [| done].
  apply list_elem_of_In. vm_compute. auto.
Defined.

(* ===================================================================== *)
(** ** Fact identifiers and footnote locators *)
(* ===================================================================== *)

Section SplitLast.

Variable c : ascii.

Lemma contains_app (s t : string) :
  Py.contains c (s +:+ t) = Py.contains c s || Py.contains c t.
Proof.
  induction s as [| d s IH]; [done |]. simpl.
  destruct (decide (c = d)); [done | apply IH].
Qed.

Lemma split_last_without (s : string) :
  Py.contains c s = false -> Py.split_last c s = s.
Proof.
  destruct s as [| d s]; [done |]. simpl.
  destruct (decide (c = d)); [done |]. by intros ->.
Qed.

Lemma split_last_after (s t : string) :
  Py.contains c t = false -> Py.split_last c (s +:+ String c t) = t.
Proof.
  intros Ht. induction s as [| d s IH]; simpl.
  - rewrite Ht. by rewrite decide_True.
  - rewrite contains_app. simpl. rewrite decide_True by done.
    by rewrite orb_true_r.
Qed.

Lemma split_last_clean (s : string) : Py.contains c (Py.split_last c s) = false.
Proof.
  induction s as [| d s IH]; [done |]. simpl.
  destruct (Py.contains c s) eqn:Hs; [done |].
  destruct (decide (c = d)) as [-> | Hne]; [done |].
  simpl. by rewrite decide_False.
Qed.

End SplitLast.

Lemma used_ids_spec instance id : id ∈ used_ids instance ↔ referenced instance id.
Proof.
  unfold used_ids, referenced. rewrite elem_of_union_list. split.
  - intros [X [HX Hid]]. apply list_elem_of_fmap in HX as [link [-> Hlink]].
    apply elem_of_union_list in Hid as [Y [HY Hid]].
    apply list_elem_of_fmap in HY as [loc [-> Hloc]].
    destruct (Py.contains "(" (Py.split_last "#" (loc_xlink_href loc))) eqn:Hparen;
      [by apply elem_of_empty in Hid |].
    apply elem_of_singleton in Hid as ->. by exists link, loc.
  - intros [link [loc [Hlink [Hloc [Hsplit Hparen]]]]].
    eexists. split; [by apply list_elem_of_fmap_2 |].
    apply elem_of_union_list. eexists. split; [by apply list_elem_of_fmap_2 |].
    simpl. rewrite Hsplit, Hparen. by apply elem_of_singleton.
Qed.

(** X11: [eba_3_7] never raises and reports, in document order, the facts
    that have a non-empty [id] no footnote locator points at; a fact
    without [id] is never reported.  A locator points at what follows the
    last [#] of its URL, at the whole URL when it has no [#], and at
    nothing when that part holds a parenthesis (an xpointer scheme). *)
Theorem eba_3_7_reports_unreferenced_ids instance log :
  eba_3_7 instance log
  = (log ++ (eba_3_7_finding
               <$> filter (fun f => unused_id instance f = true) (child_items instance)),
     Py.Normal ())
  ∧ (∀ f, unused_id instance f = true
          ↔ ∃ id, fact_id f = Some id ∧ id ≠ "" ∧ ¬ referenced instance id)
  ∧ (∀ url id, Py.contains "#" id = false ->
               Py.split_last "#" (url +:+ String "#" id) = id)
  ∧ (∀ url, Py.contains "#" url = false -> Py.split_last "#" url = url).
Proof.
  split; [| split; [| split]].
  - unfold eba_3_7. cbv zeta. apply (report_when_run _ (unused_id instance)).
  - intros f. unfold unused_id. destruct (fact_id f) as [id |].
    + rewrite andb_true_iff, bool_decide_eq_true, used_ids_spec. split.
      * intros [Hid Hno]. exists id. split; [done |]. split; [| done].
        by intros ->.
      * intros [id' [[= <-] [Hid Hno]]]. split; [| done]. by destruct id.
    + split; [done |]. by intros [id [? _]].
  - intros url id. apply split_last_after.
  - apply split_last_without.
Qed.

Example eba_3_7_sample :
  eba_3_7 More.footnoted_filing []
  = ([eba_3_7_finding (More.with_id 22 (Some "f2"))], Py.Normal ()).
Proof. vm_compute. reflexivity. Qed.

(* ===================================================================== *)
(** ** Canonical prefixes *)
(* ===================================================================== *)

Lemma namespace_bindings_from (schemas : list TaxonomySchema) (acc : gmap string string) uri p :
  foldl (fun bindings schema =>
           match List.find (fun nsattr =>
                              bool_decide (attr_local_name nsattr ≠ "xmlns")
                              && bool_decide (attr_normalized_value nsattr = target_namespace schema))
                           (namespace_attributes (schema_element schema)) with
           | Some nsattr => <[target_namespace schema := attr_local_name nsattr]> bindings
           | None => bindings
           end) acc schemas !! uri = Some p ->
  acc !! uri = Some p ∨ ∃ schema, schema ∈ schemas ∧ declares_own_prefix schema uri p.
Proof.
  revert acc. induction schemas as [| schema schemas IH]; intros acc; simpl; [by left |].
  intros Hp. apply IH in Hp as [Hp | [s [Hs Hd]]].
  - destruct (List.find _ _) as [nsattr |] eqn:Hfind; [| by left].
    destruct (decide (target_namespace schema = uri)) as [<- | Hne].
    + rewrite lookup_insert_eq in Hp. injection Hp as <-.
      right. exists schema. split; [apply list_elem_of_here |].
      apply find_some in Hfind as [Hin Htest].
      apply andb_true_iff in Htest as [Hname Hvalue].
      apply bool_decide_eq_true in Hname, Hvalue.
      split; [done |]. exists nsattr. by rewrite list_elem_of_In.
    + rewrite lookup_insert_ne in Hp by done. by left.
  - right. exists s. split; [by apply list_elem_of_further | done].
Qed.

(** X19: [eba_3_5] never raises and reports, in document order, the
    namespace declarations of the document element whose prefix is not
    [xmlns] and differs from the prefix recorded for their namespace.  A
    prefix is recorded for a namespace only when a schema of the taxonomy
    with that target namespace declares it for that namespace, so the
    declaration of a namespace that no taxonomy schema binds to a prefix
    is never reported. *)
Theorem eba_3_5_reports_other_prefixes instance log :
  eba_3_5 instance log
  = (log ++ (eba_3_5_finding
               <$> filter (fun a => other_than_canonical instance a = true)
                     (namespace_attributes (document_element instance))),
     Py.Normal ())
  ∧ (∀ a, other_than_canonical instance a = true
          ↔ attr_local_name a ≠ "xmlns"
            ∧ ∃ p, namespace_bindings (dts instance) !! attr_normalized_value a = Some p
                   ∧ p ≠ attr_local_name a)
  ∧ (∀ uri p, namespace_bindings (dts instance) !! uri = Some p ->
              ∃ schema, schema ∈ taxonomy_schemas (dts instance)
                        ∧ declares_own_prefix schema uri p).
Proof.
  split; [| split].
  - unfold eba_3_5. cbv zeta. apply (report_when_run _ (other_than_canonical instance)).
  - intros a. unfold other_than_canonical.
    rewrite andb_true_iff, !bool_decide_eq_true.
    destruct (namespace_bindings (dts instance) !! attr_normalized_value a) as [p |]; simpl.
    + split; intros [Hname Hp]; (split; [done |]).
      * exists p. split; [done | congruence].
      * destruct Hp as [p' [[= <-] Hne]]. congruence.
    + split; [by intros [_ ?] |]. by intros [_ [p [? _]]].
  - intros uri p Hp. unfold namespace_bindings in Hp.
    apply namespace_bindings_from in Hp as [Hp | Hp]; [| done].
    by rewrite lookup_empty in Hp.
Qed.

Example eba_3_5_sample :
  eba_3_5 More.renamed_filing []
  = ([eba_3_5_finding (More.ns "met" More.met_ns)], Py.Normal ()).
Proof. vm_compute. reflexivity. Qed.

(* ===================================================================== *)
(** ** The taxonomy callback *)
(* ===================================================================== *)

(** X21: [on_xbrl_finished_dts] turns the [utr] option on and changes no
    other option and no script parameter; doing it twice is doing it once;
    and the rules report the same with the job it returns as with the job
    it was given. *)
Theorem on_xbrl_finished_dts_enables_utr job :
  options (on_xbrl_finished_dts job) !! "utr" = Some (OptBool true)
  ∧ (∀ key, key ≠ "utr" -> options (on_xbrl_finished_dts job) !! key = options job !! key)
  ∧ script_params (on_xbrl_finished_dts job) = script_params job
  ∧ on_xbrl_finished_dts (on_xbrl_finished_dts job) = on_xbrl_finished_dts job
  ∧ (∀ instance, check_eba_filing_rules (on_xbrl_finished_dts job) instance
                 = check_eba_filing_rules job instance).
Proof.
  unfold on_xbrl_finished_dts. simpl. repeat split.
  - apply lookup_insert_eq.
  - intros key Hkey. by apply lookup_insert_ne.
  - by rewrite insert_insert_eq.
  - intros instance. unfold check_eba_filing_rules, eba_1_15. simpl.
    by rewrite lookup_insert_ne.
Qed.

(* ===================================================================== *)
(** ** A single currency *)
(* ===================================================================== *)

Section SingleCurrency.

Let body (fact : Fact) (single_unit : option string) : Rule (option string) :=
  if is_monetary (concept fact) then
    match single_unit with
    | None => Py.ret (unit_ref (fact_unit fact))
    | Some _ =>
        Py.when (bool_decide (unit_ref (fact_unit fact) ≠ single_unit))
          (report (eba_3_1_finding fact)) ;;;
        Py.ret single_unit
    end
  else Py.ret single_unit.

(** Once a unit is held, every monetary fact with another unit is reported. *)
Lemma single_currency_held xs u log :
  Py.for_each xs body (Some u) log
  = (log ++ (eba_3_1_finding
               <$> filter (fun f => unit_ref (fact_unit f) ≠ Some u)
                     (filter (fun f => is_monetary (concept f) = true) xs)),
     Py.Normal (Some u)).
Proof.
  revert log. induction xs as [| x xs IH]; intros log.
  - simpl. unfold Py.ret. by rewrite app_nil_r.
  - cbn [Py.for_each]. unfold Py.bind at 1, body at 1.
    destruct (is_monetary (concept x)) eqn:Hx.
    + rewrite (filter_cons_True (fun f => is_monetary (concept f) = true)) by done.
      unfold Py.bind, Py.when, Py.ret, report.
      destruct (decide (unit_ref (fact_unit x) ≠ Some u)) as [Hu | Hu].
      * rewrite bool_decide_eq_true_2, filter_cons_True by done.
        rewrite IH. by rewrite fmap_cons, <- app_assoc.
      * rewrite bool_decide_eq_false_2, filter_cons_False by done. apply IH.
    + rewrite (filter_cons_False (fun f => is_monetary (concept f) = true))
        by (by rewrite Hx).
      unfold Py.ret. apply IH.
Qed.

(** The unit held is that of the first monetary fact. *)
Lemma single_currency_first xs first rest u log :
  filter (fun f => is_monetary (concept f) = true) xs = first :: rest ->
  unit_ref (fact_unit first) = Some u ->
  Py.for_each xs body None log
  = (log ++ (eba_3_1_finding
               <$> filter (fun f => unit_ref (fact_unit f) ≠ Some u) rest),
     Py.Normal (Some u)).
Proof.
  revert log. induction xs as [| x xs IH]; intros log Hfilter Hu; [done |].
  cbn [Py.for_each]. unfold Py.bind at 1, body at 1.
  destruct (is_monetary (concept x)) eqn:Hx.
  - rewrite filter_cons_True in Hfilter by done. injection Hfilter as -> <-.
    unfold Py.ret. rewrite Hu. apply single_currency_held.
  - rewrite filter_cons_False in Hfilter by (by rewrite Hx).
    unfold Py.ret. by apply IH.
Qed.

Lemma fact_difference_nil fs : fact_difference fs [] = fs.
Proof. unfold fact_difference. by apply filter_all. Qed.

(** [eba_3_1] when no fact falls under point (b). *)
Lemma eba_3_1_without_denomination instance dim member log :
  resolve_concept (dts instance) (mkQName "CCA" eba_dict_dim) = Some dim ->
  resolve_concept (dts instance) (mkQName "x1" eba_dict_dom_CA) = Some member ->
  filter_dimension (facts instance) dim member = [] ->
  eba_3_1 instance log
  = (if bool_decide (1 < List.length (monetary_units instance))
     then (Py.for_each (child_items instance) body None ;;; Py.ret ()) log
     else (log, Py.Normal ())).
Proof.
  intros Hdim Hmember Hnone. unfold eba_3_1. cbv zeta.
  rewrite Hdim, Hmember. unfold Py.bind at 1. cbn [Py.ret]. rewrite Hnone.
  unfold Py.bind at 1. cbn [Py.for_ Py.for_each Py.ret].
  rewrite fact_difference_nil. unfold monetary_units, Py.when.
  by destruct (bool_decide _).
Qed.

End SingleCurrency.

(** X20: take an instance whose taxonomy resolves the dimension [CCA] and
    the member [x1] and of which no fact has that member for that
    dimension.  With at most one monetary unit [eba_3_1] reports nothing.
    With more than one, the unit of the first monetary fact (a direct
    child of the root) is the reference: [eba_3_1] reports, in document
    order, exactly the later monetary facts with another unit, and never
    the first one. *)
Theorem eba_3_1_single_currency instance dim member log :
  resolve_concept (dts instance) (mkQName "CCA" eba_dict_dim) = Some dim ->
  resolve_concept (dts instance) (mkQName "x1" eba_dict_dom_CA) = Some member ->
  filter_dimension (facts instance) dim member = [] ->
  (List.length (monetary_units instance) <= 1 ->
   eba_3_1 instance log = (log, Py.Normal ()))
  ∧ (∀ first rest u,
       1 < List.length (monetary_units instance) ->
       filter (fun f => is_monetary (concept f) = true) (child_items instance) = first :: rest ->
       unit_ref (fact_unit first) = Some u ->
       eba_3_1 instance log
       = (log ++ (eba_3_1_finding
                    <$> filter (fun f => unit_ref (fact_unit f) ≠ Some u) rest),
          Py.Normal ())).
Proof.
  intros Hdim Hmember Hnone.
  rewrite (eba_3_1_without_denomination instance dim member log Hdim Hmember Hnone).
  split.
  - intros Hfew. by rewrite bool_decide_eq_false_2 by lia.
  - intros first rest u Hmany Hfilter Hu. rewrite bool_decide_eq_true_2 by done.
    unfold Py.bind at 1.
    by rewrite (single_currency_first (child_items instance) first rest u log Hfilter Hu).
Qed.

Lemma eba_3_1_single_currency_witness :
  eba_3_1 More.two_currencies [] = ([eba_3_1_finding Sample.f2], Py.Normal ()).
Proof.
  apply (proj2 (eba_3_1_single_currency More.two_currencies
                  (mkConcept "CCA" eba_dict_dim true false false)
                  (mkConcept "x1" eba_dict_dom_CA true false false) []
                  ltac:(vm_compute; reflexivity) ltac:(vm_compute; reflexivity)
                  ltac:(vm_compute; reflexivity))
               Sample.f4 [Sample.f2; Sample.f1] "EUR").
  - vm_compute. lia.
  - vm_compute. reflexivity.
  - reflexivity.
Defined.

(* ===================================================================== *)
(** ** The whole check *)
(* ===================================================================== *)

Lemma completes_of_outcome {A} (rule : Rule A) (a : A) :
  appends_only rule -> (rule []).2 = Py.Normal a -> completes rule.
Proof. intros Happ Hout. exists a. intros log. by rewrite (Happ log), Hout. Qed.

Lemma bind_ret_left {A B} (a : A) (k : A -> Rule B) : Py.bind (Py.ret a) k = k a.
Proof. reflexivity. Qed.

Lemma completes_next {A} (xs : list A) : xs ≠ [] -> completes (Py.next (S := ErrorLog) xs).
Proof. destruct xs; [done |]. intros _. apply completes_ret. Qed.

Lemma numeric_or_absent_spec params key :
  numeric_or_absent params key = true -> absent_or_numeric params key.
Proof.
  unfold numeric_or_absent, absent_or_numeric. destruct (params !! key) as [v |]; [| done].
  by destruct (Py.int_of_str v).
Qed.

Section RulesThatComplete.

Variable instance : Instance.

Lemma eba_2_3_completes : completes (eba_2_3 instance).
Proof. unfold eba_2_3. completes. Qed.

Lemma eba_2_4_completes : completes (eba_2_4 instance).
Proof. unfold eba_2_4. completes. Qed.

Lemma eba_2_25_completes : completes (eba_2_25 instance).
Proof. unfold eba_2_25. completes. Qed.

Lemma eba_2_7_completes : completes (eba_2_7 instance).
Proof. unfold eba_2_7, eba_2_7_body. completes. Qed.

Lemma eba_2_10_completes : completes (eba_2_10 instance).
Proof. unfold eba_2_10. completes. Qed.

Lemma eba_2_11_completes : completes (eba_2_11 instance).
Proof. unfold eba_2_11. completes. Qed.

Lemma eba_2_14_completes : completes (eba_2_14 instance).
Proof. unfold eba_2_14. completes. Qed.

Lemma eba_2_15_completes : completes (eba_2_15 instance).
Proof. unfold eba_2_15. completes. Qed.

Lemma eba_2_16_body_completes fact seen : completes (eba_2_16_body fact seen).
Proof.
  eapply completes_of_outcome;
    [apply eba_2_16_body_appends_only | apply eba_2_16_body_dict].
Qed.

Lemma eba_2_16_completes : completes (eba_2_16 instance).
Proof.
  unfold eba_2_16. apply completes_for_. intros c. apply completes_when.
  apply completes_bind; [| intros; apply completes_ret].
  apply completes_for_each. intros. apply eba_2_16_body_completes.
Qed.

Lemma eba_2_17_completes : completes (eba_2_17 instance).
Proof. unfold eba_2_17. completes. Qed.

Lemma eba_2_19_completes : completes (eba_2_19 instance).
Proof. unfold eba_2_19. completes. Qed.

Lemma eba_2_21_completes : completes (eba_2_21 instance).
Proof. unfold eba_2_21, eba_2_21_body. completes. Qed.

Lemma eba_2_22_completes : completes (eba_2_22 instance).
Proof. unfold eba_2_22. completes. Qed.

Lemma eba_3_4_completes : completes (eba_3_4 instance).
Proof. unfold eba_3_4. completes. Qed.

Lemma eba_3_5_completes : completes (eba_3_5 instance).
Proof. unfold eba_3_5. completes. Qed.

Lemma eba_3_6_completes : completes (eba_3_6 instance).
Proof. unfold eba_3_6. completes. Qed.

Lemma eba_3_7_completes : completes (eba_3_7 instance).
Proof. unfold eba_3_7. completes. Qed.

Lemma eba_3_9_completes : completes (eba_3_9 instance).
Proof.
  unfold eba_3_9. cbv zeta. apply completes_bind.
  - apply completes_next. by rewrite dfs_cons.
  - intros _. completes.
Qed.

Lemma eba_3_10_completes : completes (eba_3_10 instance).
Proof.
  rewrite eba_3_10_unfold. apply completes_bind; [| intros; apply completes_ret].
  apply completes_for_each. intros x seen.
  eapply completes_of_outcome;
    [apply eba_3_10_body_appends_only | apply eba_3_10_body_dict].
Qed.

(** *** Rules that complete under a condition *)

Lemma eba_2_2_completes first rest :
  schema_refs instance = first :: rest ->
  Py.startswith (xlink_href first) "http://" = true ->
  completes (eba_2_2 instance).
Proof.
  intros Hrefs Hhttp. eapply completes_of_outcome; [apply eba_2_2_appends_only |].
  unfold eba_2_2, Py.bind. rewrite Hrefs. simpl. by rewrite Hhttp.
Qed.

Lemma eba_2_6_completes params :
  absent_or_numeric params "max-id-length" -> completes (eba_2_6 instance params).
Proof.
  intros H. unfold eba_2_6. apply completes_bind; [by apply completes_int_get |].
  intros ?. completes.
Qed.

Lemma eba_3_8_completes params :
  absent_or_numeric params "max-string-length" -> completes (eba_3_8 instance params).
Proof.
  intros H. unfold eba_3_8. apply completes_bind; [by apply completes_int_get |].
  intros ?. completes.
Qed.

Lemma eba_2_9_completes : contexts instance ≠ [] -> completes (eba_2_9 instance).
Proof.
  intros H. unfold eba_2_9. apply completes_bind; [by apply completes_next |].
  intros ?. completes.
Qed.

Lemma eba_2_13_completes : contexts instance ≠ [] -> completes (eba_2_13 instance).
Proof.
  intros H. unfold eba_2_13. apply completes_bind; [by apply completes_next |].
  intros ?. completes.
Qed.

Lemma eba_3_2_completes :
  forallb (fun fact => implb (is_numeric (concept fact) && negb (is_monetary (concept fact)))
                             (Py.truthy (fact_unit fact)))
    (child_items instance) = true ->
  completes (eba_3_2 instance).
Proof.
  unfold eba_3_2, Py.for_. induction (child_items instance) as [| x xs IH]; simpl.
  - intros _. apply completes_ret.
  - intros [Hx Hxs]%andb_true_iff. apply completes_bind; [| intros []; by apply IH].
    destruct (is_numeric (concept x) && negb (is_monetary (concept x))); simpl;
      [| apply completes_ret].
    destruct (fact_unit x); [| done]. completes.
Qed.

Lemma eba_3_1_completes :
  Py.truthy (resolve_concept (dts instance) (mkQName "CCA" eba_dict_dim)) = true ->
  Py.truthy (resolve_concept (dts instance) (mkQName "x1" eba_dict_dom_CA)) = true ->
  forallb (comparable_currency instance) (facts instance) = true ->
  completes (eba_3_1 instance).
Proof.
  intros Hdim Hmember Hfacts. unfold eba_3_1. cbv zeta.
  destruct (resolve_concept (dts instance) (mkQName "CCA" eba_dict_dim)) as [dim |]; [| done].
  destruct (resolve_concept (dts instance) (mkQName "x1" eba_dict_dom_CA)) as [member |];
    [| done].
  rewrite bind_ret_left. apply completes_bind.
  - assert (Hsub : ∀ l, forallb (comparable_currency instance) l = true ->
              completes (Py.for_ l (fun fact =>
                Py.when (is_monetary (concept fact))
                  (let aspect_values := dimension_aspect_values (fact_context fact) in
                   let currency :=
                     match resolve_concept (dts instance) (mkQName "CUS" eba_dict_dim) with
                     | Some dim => aspect_values !! concept_qname dim
                     | None => None
                     end in
                   match currency with
                   | Some value =>
                       name <- match value with
                               | ExplicitMember member => Py.ret (local_name member)
                               | TypedMember _ => Py.raise Py.AttributeError
                               end ;;
                       unit <- match fact_unit fact with
                               | Some unit => Py.ret unit
                               | None => Py.raise Py.KeyError
                               end ;;
                       Py.when (bool_decide (Some name ≠ iso4217_currency unit))
                         (report (mkError "[EBA.3.1] Choice of Currency for Monetary fact {fact}."
                                    None None [("fact", ObjFact fact)]
                                    [detail "For facts falling under point (b), whose context also includes the dimension “Currency with significant liabilities” (CUS), the currency of the fact (i.e. unit) MUST be consistent with the value given for this dimension." INFO]))
                   | None => Py.ret ()
                   end)))).
    { unfold Py.for_. induction l as [| x xs IH]; simpl.
      - intros _. apply completes_ret.
      - intros [Hx Hxs]%andb_true_iff. apply completes_bind; [| intros []; by apply IH].
        unfold comparable_currency in Hx.
        destruct (is_monetary (concept x)); simpl in *; [| apply completes_ret].
        apply andb_true_iff in Hx as [Hunit Hcus].
        destruct (resolve_concept (dts instance) (mkQName "CUS" eba_dict_dim)) as [cus |];
          [| apply completes_ret].
        destruct (dimension_aspect_values (fact_context x) !! concept_qname cus)
          as [[m | t] |]; [| done | apply completes_ret].
        destruct (fact_unit x); [| done]. completes. }
    apply Hsub. unfold filter_dimension.
    apply forallb_forall. intros f Hf.
    rewrite forallb_forall in Hfacts. apply Hfacts.
    apply list_elem_of_In in Hf. apply list_elem_of_filter in Hf as [_ Hf].
    by apply list_elem_of_In.
  - intros _. completes.
Qed.

End RulesThatComplete.

Lemma checkable_spec job instance :
  checkable job instance = true ->
  (∃ first rest, schema_refs instance = first :: rest
                 ∧ Py.startswith (xlink_href first) "http://" = true)
  ∧ contexts instance ≠ []
  ∧ absent_or_numeric (script_params job) "max-id-length"
  ∧ absent_or_numeric (script_params job) "max-string-length".
Proof.
  unfold checkable. rewrite !andb_true_iff.
  intros [[[[[[[Hrefs Hctx] Hid] Hstr] _] _] _] _].
  repeat split.
  - destruct (schema_refs instance) as [| first rest]; [done |]. by exists first, rest.
  - by destruct (contexts instance).
  - by apply numeric_or_absent_spec.
  - by apply numeric_or_absent_spec.
Qed.




Example check_stops_at_abc :
  check_eba_filing_rules (Sample.job {["max-id-length" := "abc"]} true) Sample.filing []
  = ([xinclude_finding Sample.filing], Py.Raised Py.ValueError).
Proof. vm_compute. reflexivity. Qed.

(* ===================================================================== *)
(** ** The shape of what the rules report *)
(* ===================================================================== *)

Section ReportsOnly.

Variable P : Error -> Prop.

Lemma reports_only_ret {A} (a : A) : reports_only P (Py.ret a).
Proof. intros log H. exact H. Qed.

Lemma reports_only_raise {A} (e : Py.Exception) : reports_only P (Py.raise (A := A) e).
Proof. intros log H. exact H. Qed.

Lemma reports_only_report (e : Error) : P e -> reports_only P (report e).
Proof.
  intros He log H. unfold report. simpl.
  apply Forall_app. split; [exact H | by apply Forall_singleton].
Qed.

Lemma reports_only_bind {A B} (m : Rule A) (k : A -> Rule B) :
  reports_only P m -> (∀ a, reports_only P (k a)) -> reports_only P (Py.bind m k).
Proof.
  intros Hm Hk log H. unfold Py.bind.
  specialize (Hm log H). destruct (m log) as [log' [a | e]]; simpl in *.
  - by apply Hk.
  - exact Hm.
Qed.

Lemma reports_only_when (b : bool) (body : Rule ()) :
  reports_only P body -> reports_only P (Py.when b body).
Proof. intros H. destruct b; [exact H | apply reports_only_ret]. Qed.

Lemma reports_only_for_each {A L} (xs : list A) (body : A -> L -> Rule L) (acc : L) :
  (∀ x l, reports_only P (body x l)) -> reports_only P (Py.for_each xs body acc).
Proof.
  intros H. revert acc. induction xs as [| x xs IH]; intros acc; simpl.
  - apply reports_only_ret.
  - apply reports_only_bind; [apply H | apply IH].
Qed.

Lemma reports_only_for_ {A} (xs : list A) (body : A -> Rule ()) :
  (∀ x, reports_only P (body x)) -> reports_only P (Py.for_ xs body).
Proof. intros H. apply reports_only_for_each. intros x _. apply H. Qed.

Lemma reports_only_next {A} (xs : list A) : reports_only P (Py.next xs).
Proof. destruct xs; [apply reports_only_raise | apply reports_only_ret]. Qed.

Lemma reports_only_int_get (d : gmap string string) (key : string) (default : Z) :
  reports_only P (Py.int_get d key default).
Proof.
  unfold Py.int_get. destruct (d !! key) as [v |]; [| apply reports_only_ret].
  destruct (Py.int_of_str v); [apply reports_only_ret | apply reports_only_raise].
Qed.

Lemma reports_only_findings {A} (rule : Rule A) :
  reports_only P rule -> Forall P (findings rule).
Proof. intros H. apply (H []). constructor. Qed.

End ReportsOnly.

(** Goals [reports_only P rule] for a rule built from the combinators, when
    [P] of a reported finding holds by computation. *)
Ltac reports_only :=
  repeat first
    [ apply reports_only_ret
    | apply reports_only_raise
    | apply reports_only_report; reflexivity
    | apply reports_only_next
    | apply reports_only_int_get
    | apply reports_only_when
    | apply reports_only_for_; intros ?
    | apply reports_only_for_each; intros ? ?
    | apply reports_only_bind; [| intros ?]
    | match goal with
      | |- reports_only _ (match ?x with _ => _ end) => destruct x
      end
    | progress cbv zeta ].

Section RulesReportFindings.

Variable instance : Instance.

Let F (e : Error) : Prop := filing_rule_finding e = true.

Lemma eba_1_4_shape : reports_only F (eba_1_4 instance).
Proof. unfold eba_1_4. reports_only. Qed.

Lemma eba_1_6_shape : reports_only F (eba_1_6 instance).
Proof. unfold eba_1_6. reports_only. Qed.

Lemma eba_1_13_shape : reports_only F (eba_1_13 instance).
Proof. unfold eba_1_13. reports_only. Qed.

Lemma eba_1_14_shape : reports_only F (eba_1_14 instance).
Proof. unfold eba_1_14. reports_only. Qed.

Lemma eba_1_15_shape opts : reports_only F (eba_1_15 instance opts).
Proof. unfold eba_1_15. reports_only. Qed.

Lemma eba_2_1_shape : reports_only F (eba_2_1 instance).
Proof. unfold eba_2_1. reports_only. Qed.

Lemma eba_2_2_shape : reports_only F (eba_2_2 instance).
Proof. unfold eba_2_2. reports_only. Qed.

Lemma eba_2_3_shape : reports_only F (eba_2_3 instance).
Proof. unfold eba_2_3. reports_only. Qed.

Lemma eba_2_4_shape : reports_only F (eba_2_4 instance).
Proof. unfold eba_2_4. reports_only. Qed.

Lemma eba_2_25_shape : reports_only F (eba_2_25 instance).
Proof. unfold eba_2_25. reports_only. Qed.

Lemma eba_2_6_shape params : reports_only F (eba_2_6 instance params).
Proof. unfold eba_2_6. reports_only. Qed.

Lemma eba_2_7_shape : reports_only F (eba_2_7 instance).
Proof. unfold eba_2_7, eba_2_7_body. reports_only. Qed.

Lemma eba_2_9_shape : reports_only F (eba_2_9 instance).
Proof. unfold eba_2_9. reports_only. Qed.

Lemma eba_2_10_shape : reports_only F (eba_2_10 instance).
Proof. unfold eba_2_10. reports_only. Qed.

Lemma eba_2_11_shape : reports_only F (eba_2_11 instance).
Proof. unfold eba_2_11. reports_only. Qed.

Lemma eba_2_13_shape : reports_only F (eba_2_13 instance).
Proof. unfold eba_2_13. reports_only. Qed.

Lemma eba_2_14_shape : reports_only F (eba_2_14 instance).
Proof. unfold eba_2_14. reports_only. Qed.

Lemma eba_2_15_shape : reports_only F (eba_2_15 instance).
Proof. unfold eba_2_15. reports_only. Qed.

Lemma eba_2_16_shape : reports_only F (eba_2_16 instance).
Proof. unfold eba_2_16, eba_2_16_body. reports_only. Qed.

Lemma eba_2_17_shape : reports_only F (eba_2_17 instance).
Proof. unfold eba_2_17. reports_only. Qed.

Lemma eba_2_19_shape : reports_only F (eba_2_19 instance).
Proof. unfold eba_2_19. reports_only. Qed.

Lemma eba_2_21_shape : reports_only F (eba_2_21 instance).
Proof. unfold eba_2_21, eba_2_21_body. reports_only. Qed.

Lemma eba_2_22_shape : reports_only F (eba_2_22 instance).
Proof. unfold eba_2_22. reports_only. Qed.

Lemma eba_3_1_shape : reports_only F (eba_3_1 instance).
Proof. unfold eba_3_1. reports_only. Qed.

Lemma eba_3_2_shape : reports_only F (eba_3_2 instance).
Proof. unfold eba_3_2. reports_only. Qed.

Lemma eba_3_4_shape : reports_only F (eba_3_4 instance).
Proof. unfold eba_3_4. reports_only. Qed.

Lemma eba_3_5_shape : reports_only F (eba_3_5 instance).
Proof. unfold eba_3_5. reports_only. Qed.

Lemma eba_3_6_shape : reports_only F (eba_3_6 instance).
Proof. unfold eba_3_6. reports_only. Qed.

Lemma eba_3_7_shape : reports_only F (eba_3_7 instance).
Proof. unfold eba_3_7. reports_only. Qed.

Lemma eba_3_8_shape params : reports_only F (eba_3_8 instance params).
Proof. unfold eba_3_8. reports_only. Qed.

Lemma eba_3_9_shape : reports_only F (eba_3_9 instance).
Proof. unfold eba_3_9. reports_only. Qed.

Lemma eba_3_10_shape : reports_only F (eba_3_10 instance).
Proof. unfold eba_3_10. reports_only. Qed.

End RulesReportFindings.

Create HintDb shapes discriminated.

#[global] Hint Resolve
  eba_1_4_shape eba_1_6_shape eba_1_13_shape eba_1_14_shape eba_1_15_shape
  eba_2_1_shape eba_2_2_shape eba_2_3_shape eba_2_4_shape eba_2_25_shape
  eba_2_6_shape eba_2_7_shape eba_2_9_shape eba_2_10_shape eba_2_11_shape
  eba_2_13_shape eba_2_14_shape eba_2_15_shape eba_2_16_shape eba_2_17_shape
  eba_2_19_shape eba_2_21_shape eba_2_22_shape eba_3_1_shape eba_3_2_shape
  eba_3_4_shape eba_3_5_shape eba_3_6_shape eba_3_7_shape eba_3_8_shape
  eba_3_9_shape eba_3_10_shape : shapes.

Lemma check_eba_filing_rules_shape job instance :
  reports_only (fun e => filing_rule_finding e = true) (check_eba_filing_rules job instance).
Proof.
  unfold check_eba_filing_rules. cbv zeta.
  repeat (apply reports_only_bind; [solve [auto with shapes] | intros _]).
  auto with shapes.
Qed.

(** X23: with an instance, [on_xbrl_finished] keeps what is in the log and
    appends the findings of the check behind it, whether the check returns
    or raises. Every finding it appends is a filing-rule message other than
    EBA.1.9, of warning or default severity, with one or two detail
    messages as children, which have no children of their own. *)
Theorem on_xbrl_finished_keeps_the_log job instance log :
  (on_xbrl_finished job (Some instance) log).1
  = log ++ findings (check_eba_filing_rules job instance)
  ∧ (∀ e, e ∈ findings (check_eba_filing_rules job instance) ->
          filing_rule_finding e = true)
  ∧ (∀ e, filing_rule_finding e = true ->
          message e ≠ "[EBA.1.9] Valid XML-XBRL."
          ∧ 1 <= List.length (children e) <= 2
          ∧ severity e ≠ Some INFO ∧ severity e ≠ Some OTHER
          ∧ ∀ d, d ∈ children e -> children d = [] ∧ location d = None).
Proof.
  split; [| split].
  - simpl. by rewrite (check_eba_filing_rules_appends_only job instance log).
  - intros e He.
    pose proof (reports_only_findings _ _ (check_eba_filing_rules_shape job instance)) as H.
    rewrite Forall_forall in H. by apply H.
  - intros e He. unfold filing_rule_finding in He.
    repeat (apply andb_prop in He; destruct He as [He ?]).
    assert (Hd : ∀ s d, is_detail s d = true -> children d = [] ∧ location d = None).
    { intros s d Hs. unfold is_detail in Hs.
      destruct (severity d), (location d), (children d); try discriminate. done. }
    split; [| split; [| split; [| split]]].
    + intros Hm. rewrite Hm in *. discriminate.
    + destruct (children e) as [| d1 [| d2 [| d3 ds]]]; simpl; try discriminate; lia.
    + destruct (severity e) as [[] |]; try discriminate; congruence.
    + destruct (severity e) as [[] |]; try discriminate; congruence.
    + intros d Hin.
      destruct (children e) as [| d1 [| d2 [| d3 ds]]]; try discriminate.
      * apply list_elem_of_singleton in Hin as ->. eauto.
      * match goal with K : _ && _ = true |- _ => apply andb_prop in K as [Ka Kb] end.
        apply elem_of_cons in Hin as [-> | Hin]; [eauto |].
        apply list_elem_of_singleton in Hin as ->. eauto.
Qed.

(** X24: [eba_1_4] reports exactly when the encoding name, in upper case,
    is not UTF-8, so that utf-8 in any letter case is accepted; [eba_1_13]
    reports exactly when the document has a standalone declaration,
    whatever its value. Both findings point at the URI of the instance.
    Their explanations are exchanged: the encoding finding carries the text
    about the standalone declaration, the standalone finding the text about
    the encoding. *)
Theorem encoding_and_standalone instance :
  (findings (eba_1_4 instance) = []
   ↔ Py.upper (character_encoding_scheme (document instance)) = "UTF-8")
  ∧ (findings (eba_1_13 instance) = [] ↔ standalone (document instance) = None)
  ∧ (∀ e, e ∈ findings (eba_1_4 instance) ->
          location e = Some (ObjUri (uri instance))
          ∧ message <$> children e = [standalone_text])
  ∧ (∀ e, e ∈ findings (eba_1_13 instance) ->
          location e = Some (ObjUri (uri instance))
          ∧ message <$> children e = [encoding_text])
  ∧ (∀ s, Py.upper (Py.upper s) = Py.upper s).
Proof.
  split; [| split; [| split; [| split]]].
  - unfold findings, eba_1_4. case_bool_decide as H; simpl.
    + split; [discriminate | done].
    + split; [intros _ | done]. by destruct (decide (Py.upper (character_encoding_scheme (document instance)) = "UTF-8")).
  - unfold findings, eba_1_13. destruct (standalone (document instance)); simpl.
    + split; discriminate.
    + done.
  - intros e. unfold findings, eba_1_4. case_bool_decide; simpl.
    + intros He. apply list_elem_of_singleton in He as ->. done.
    + intros He. by apply elem_of_nil in He.
  - intros e. unfold findings, eba_1_13. destruct (standalone (document instance)); simpl.
    + intros He. apply list_elem_of_singleton in He as ->. done.
    + intros He. by apply elem_of_nil in He.
  - intros s. unfold Py.upper.
    induction s as [| c s IH]; simpl; [done |].
    f_equal; [| exact IH].
    unfold Py.upper_ascii.
    destruct c as [[] [] [] [] [] [] [] []]; reflexivity.
Qed.

Example utf8_in_lower_case :
  findings (eba_1_4 (Sample.instance_of [] [] [] [])) = []
  ∧ Py.upper "utf-8" = "UTF-8" ∧ Py.upper "Utf-8" = "UTF-8".
Proof. by vm_compute. Qed.
